(** * Cart-pole environments of [gym/envs/classic_control/cartpole.py]

    A shallow embedding of the two environment classes of the module,
    [CartPoleEnv] and [AdaptedCartPoleEnv], and of their [_step] and
    [_reset] methods.

    Numeric model.  Python's [float] is read as a real number: [+], [-],
    [*] are the field operations of [R], [math.sin], [math.cos], [math.pi]
    and [math.fabs] are [sin], [cos], [PI] and [Rabs].  Rounding, overflow
    and NaN are outside this model.  Division by a variable goes through
    [Py.truediv], which raises [ZeroDivisionError] on a zero divisor, as
    Python does; a quotient of two literals is written with [/]. *)

From Stdlib Require Import Reals Lra Lia ZArith List String Bool.
From Equations Require Import Equations.
Import ListNotations.

Open Scope R_scope.

(** ** Python primitives used by the module *)

Module Py.

Inductive exn : Type :=
| AssertionError
| TypeError
| ZeroDivisionError.

(** The outcome of a call: a value, or a raised exception. *)
Inductive result (A : Type) : Type :=
| Ok (a : A)
| Raise (e : exn).
Arguments Ok {A} a.
Arguments Raise {A} e.

Definition bind {A B : Type} (m : result A) (k : A -> result B) : result B :=
  match m with
  | Ok a => k a
  | Raise e => Raise e
  end.

(** [a / b] on floats. *)
Definition truediv (a b : R) : result R :=
  if Req_dec_T b 0 then Raise ZeroDivisionError else Ok (a / b).

(** Comparisons, as truth values. *)
Definition lt (a b : R) : bool := if Rlt_dec a b then true else false.
Definition gt (a b : R) : bool := if Rgt_dec a b then true else false.
Definition le (a b : R) : bool := if Rle_dec a b then true else false.
Definition ge (a b : R) : bool := if Rge_dec a b then true else false.

(** [min(a, b)] returns its first argument unless the second is smaller;
    [max(a, b)] returns its first argument unless the second is larger. *)
Definition min (a b : R) : R := if lt b a then b else a.
Definition max (a b : R) : R := if gt b a then b else a.

(** [math.fabs]. *)
Definition fabs (a : R) : R := Rabs a.

(** [math.ceil]: the least integer not below [a]. *)
Definition ceil (a : R) : Z := (1 - up (- a))%Z.

(** [range(n)] has [n] elements for positive [n] and none otherwise. *)
Definition range_len (n : Z) : nat := Z.to_nat n.

End Py.

Declare Scope py_scope.
Delimit Scope py_scope with py.
Notation "x <- m ;; k" := (Py.bind m (fun x => k))
  (at level 61, m at next level, right associativity) : py_scope.
Notation "a // b" := (Py.truediv a b) (at level 40, left associativity) : py_scope.
Open Scope py_scope.

(** ** The two [while] loops that bring an angle back to one turn

    [while theta >= math.pi: theta -= 2.0 * math.pi] and
    [while theta < -math.pi: theta += 2.0 * math.pi].  Each iteration
    lowers the number of whole turns by one, which is the measure of the
    recursion. *)

Definition turns (r : R) : nat := Z.to_nat (up (r / (2 * PI))).

Lemma turns_decrease (r : R) : PI <= r -> (turns (r - 2 * PI) < turns r)%nat.
Proof.
  intros Hr. unfold turns.
  pose proof PI_RGT_0 as Hpi.
  set (q := r / (2 * PI)).
  assert (Hq : (r - 2 * PI) / (2 * PI) = q - 1) by (unfold q; field; lra).
  rewrite Hq.
  assert (Hhalf : 1 / 2 <= q).
  { assert (Hrq : r = q * (2 * PI)) by (unfold q; field; lra). nra. }
  destruct (archimed q) as [Hu1 Hu2].
  assert (Hup : up (q - 1) = (up q - 1)%Z).
  { symmetry. apply tech_up; rewrite minus_IZR; lra. }
  rewrite Hup.
  assert (0 < IZR (up q)) by lra.
  assert (0 < up q)%Z by (apply lt_IZR; assumption).
  lia.
Qed.

Equations? wrap_down (theta : R) : R by wf (turns theta) Peano.lt :=
  wrap_down theta with Rge_dec theta PI := {
    | left _ => wrap_down (theta - 2.0 * PI);
    | right _ => theta }.
Proof.
  replace (2.0 * PI) with (2 * PI) by lra.
  apply turns_decrease. lra.
Qed.

Equations? wrap_up (theta : R) : R by wf (turns (- theta)) Peano.lt :=
  wrap_up theta with Rlt_dec theta (- PI) := {
    | left _ => wrap_up (theta + 2.0 * PI);
    | right _ => theta }.
Proof.
  replace (- (theta + 2.0 * PI)) with (- theta - 2 * PI) by lra.
  apply turns_decrease. lra.
Qed.

(** ** What the module takes from the framework *)

Module spaces.

(** Modelled from the spec: [gym.spaces.Discrete], the discrete
    action-space abstraction of the hosting framework, is not part of
    the module; the spec describes it as validating that actions are
    drawn from {0,1} for [Discrete(2)], that is from {0, ..., n-1}. *)
Inductive Discrete : Type := mkDiscrete (n : Z).

(** Modelled from the spec: [Discrete.contains], absent with its class;
    [Discrete(n)] holds the actions 0, ..., n-1, so [Discrete(2)] holds
    0 and 1 as the spec says. *)
Definition contains (sp : Discrete) (x : Z) : bool :=
  let 'mkDiscrete n := sp in (0 <=? x)%Z && (x <? n)%Z.

End spaces.

(** The text handed to [logger.warning] by both classes. *)
Definition step_after_done_warning : string :=
  "You are calling 'step()' even though this environment has already returned done = True. You should always call 'reset()' once you receive 'done = True' -- any further steps are undefined behavior.".

(** The state tuple [(x, x_dot, theta, theta_dot)]. *)
Definition State : Type := (R * R * R * R)%type.

Definition st_x (s : State) : R := let '(x, _, _, _) := s in x.
Definition st_x_dot (s : State) : R := let '(_, x_dot, _, _) := s in x_dot.
Definition st_theta (s : State) : R := let '(_, _, theta, _) := s in theta.
Definition st_theta_dot (s : State) : R :=
  let '(_, _, _, theta_dot) := s in theta_dot.

(** What [_step] hands back: the observation [np.array(self.state)], the
    reward, the [done] flag and the empty [info] dictionary; [warnings]
    lists the records the call sent to the module's logger. *)
Record StepReturn : Type := mkStepReturn {
  obs : State;
  reward : R;
  done : bool;
  info : list (string * string);
  warnings : list string
}.

(** ** [class CartPoleEnv] *)

Module CartPoleEnv.

Record t : Type := mk {
  gravity : R;
  masscart : R;
  masspole : R;
  total_mass : R;
  length : R;
  polemass_length : R;
  force_mag : R;
  tau : R;
  theta_threshold_radians : R;
  x_threshold : R;
  action_space : spaces.Discrete;
  state : option State;
  steps_beyond_done : option Z
}.

Definition __init__ : t :=
  let gravity := 9.8 in
  let masscart := 1.0 in
  let masspole := 0.1 in
  let total_mass := masspole + masscart in
  let length := 0.5 in
  let polemass_length := masspole * length in
  {| gravity := gravity;
     masscart := masscart;
     masspole := masspole;
     total_mass := total_mass;
     length := length;
     polemass_length := polemass_length;
     force_mag := 10.0;
     tau := 0.02;
     theta_threshold_radians := 12 * 2 * PI / 360;
     x_threshold := 2.4;
     action_space := spaces.mkDiscrete 2;
     state := None;
     steps_beyond_done := None |}.

Definition set_state (self : t) (s : option State) : t :=
  mk (gravity self) (masscart self) (masspole self) (total_mass self)
     (length self) (polemass_length self) (force_mag self) (tau self)
     (theta_threshold_radians self) (x_threshold self) (action_space self)
     s (steps_beyond_done self).

Definition set_steps_beyond_done (self : t) (n : option Z) : t :=
  mk (gravity self) (masscart self) (masspole self) (total_mass self)
     (length self) (polemass_length self) (force_mag self) (tau self)
     (theta_threshold_radians self) (x_threshold self) (action_space self)
     (state self) n.

(** Lines 61-65 of [_step]: [temp], [thetaacc] and [xacc], returned as
    [(thetaacc, xacc)]. *)
Definition accelerations (self : t) (force theta theta_dot : R)
  : Py.result (R * R) :=
  let costheta := cos theta in
  let sintheta := sin theta in
  temp <- (force + polemass_length self * theta_dot * theta_dot * sintheta)
          // total_mass self ;;
  q <- (masspole self * costheta * costheta) // total_mass self ;;
  thetaacc <- (gravity self * sintheta - costheta * temp)
              // (length self * (4.0 / 3.0 - q)) ;;
  r <- (polemass_length self * thetaacc * costheta) // total_mass self ;;
  let xacc := temp - r in
  Py.Ok (thetaacc, xacc).

(** The termination test on the updated [x] and [theta]. *)
Definition is_done (self : t) (x theta : R) : bool :=
  Py.lt x (- x_threshold self)
  || Py.gt x (x_threshold self)
  || Py.lt theta (- theta_threshold_radians self)
  || Py.gt theta (theta_threshold_radians self).

Definition _step (self : t) (action : Z) : Py.result (t * StepReturn) :=
  if negb (spaces.contains (action_space self) action)
  then Py.Raise Py.AssertionError
  else
    match state self with
    | None => Py.Raise Py.TypeError
    | Some (x, x_dot, theta, theta_dot) =>
      let force :=
        if (action =? 1)%Z then force_mag self else - force_mag self in
      acc <- accelerations self force theta theta_dot ;;
      let '(thetaacc, xacc) := acc in
      let x' := x + tau self * x_dot in
      let x_dot' := x_dot + tau self * xacc in
      let theta' := theta + tau self * theta_dot in
      let theta_dot' := theta_dot + tau self * thetaacc in
      let self := set_state self (Some (x', x_dot', theta', theta_dot')) in
      let done := is_done self x' theta' in
      let '(self, reward, warnings) :=
        if negb done then (self, 1.0, [])
        else
          match steps_beyond_done self with
          | None => (set_steps_beyond_done self (Some 0%Z), 1.0, [])
          | Some n =>
            (set_steps_beyond_done self (Some (n + 1)%Z), 0.0,
             if (n =? 0)%Z then [step_after_done_warning] else [])
          end in
      Py.Ok (self,
             mkStepReturn (x', x_dot', theta', theta_dot')
                          reward done [] warnings)
    end.

(** [_reset]; [sample] is the draw of
    [self.np_random.uniform(low=-0.05, high=0.05, size=(4,))]. *)
Definition _reset (self : t) (sample : State) : t * State :=
  let self := set_state self (Some sample) in
  let self := set_steps_beyond_done self None in
  (self, sample).

(** An environment as [__init__] configures it, whatever its state and
    its count of steps beyond done. *)
Definition configured (self : t) : Prop :=
  exists s n, self = set_steps_beyond_done (set_state __init__ s) n.

End CartPoleEnv.

(** ** [class AdaptedCartPoleEnv] *)

Module AdaptedCartPoleEnv.

Record t : Type := mk {
  gravity : R;
  masscart : R;
  masspole : R;
  total_mass : R;
  length : R;
  polemass_length : R;
  force_mag : R;
  tau : R;
  theta_threshold_radians : R;
  x_threshold : R;
  action_space : spaces.Discrete;
  state : option State;
  steps_beyond_done : option Z;
  time_step : R;
  restitution : R
}.

Definition __init__ : t :=
  let gravity := 9.8 in
  let masscart := 1.0 in
  let masspole := 0.15 in
  let total_mass := masspole + masscart in
  let length := 0.75 in
  let polemass_length := masspole * length in
  {| gravity := gravity;
     masscart := masscart;
     masspole := masspole;
     total_mass := total_mass;
     length := length;
     polemass_length := polemass_length;
     force_mag := 10.0;
     tau := 0.02;
     theta_threshold_radians := 12 * 2 * PI / 360;
     x_threshold := 10;
     action_space := spaces.mkDiscrete 2;
     state := None;
     steps_beyond_done := None;
     time_step := 0.1;
     restitution := 0.8 |}.

Definition set_state (self : t) (s : option State) : t :=
  mk (gravity self) (masscart self) (masspole self) (total_mass self)
     (length self) (polemass_length self) (force_mag self) (tau self)
     (theta_threshold_radians self) (x_threshold self) (action_space self)
     s (steps_beyond_done self) (time_step self) (restitution self).

Definition set_steps_beyond_done (self : t) (n : option Z) : t :=
  mk (gravity self) (masscart self) (masspole self) (total_mass self)
     (length self) (polemass_length self) (force_mag self) (tau self)
     (theta_threshold_radians self) (x_threshold self) (action_space self)
     (state self) n (time_step self) (restitution self).

(** [_is_in_range]: the chained comparison
    [max_value <= value >= min_value], that is
    [max_value <= value and value >= min_value]. *)
Definition _is_in_range (value min_value max_value : R) : bool :=
  Py.le max_value value && Py.ge value min_value.

(** Lines 202-207 of [_step]: [temp], [thetaacc] and [xacc], returned as
    [(thetaacc, xacc)]. *)
Definition accelerations (self : t) (force theta theta_dot : R)
  : Py.result (R * R) :=
  let costheta := cos theta in
  let sintheta := sin theta in
  temp <- (force + polemass_length self * theta_dot * theta_dot * sintheta)
          // total_mass self ;;
  q <- (masspole self * costheta * costheta) // total_mass self ;;
  thetaacc <- (gravity self * sintheta - costheta * temp)
              // ((length self / 2.0) * ((4.0 / 3.0) - q)) ;;
  r <- (polemass_length self * thetaacc * costheta) // total_mass self ;;
  let xacc := temp - r in
  Py.Ok (thetaacc, xacc).

(** Lines 260-266: the velocity after the bounce rule. *)
Definition bounce (self : t) (old_x x x_dot : R) : R :=
  let wasOOB := _is_in_range old_x (- x_threshold self) (x_threshold self) in
  let isOOB := _is_in_range x (- x_threshold self) (x_threshold self) in
  if isOOB && negb wasOOB then
    let x_dot := x_dot * restitution self in
    if Py.gt x (x_threshold self) then - Py.fabs x_dot
    else if Py.lt x (- x_threshold self) then Py.fabs x_dot
    else x_dot
  else x_dot.

(** The condition of line 260, [isOOB and not wasOOB]: whether the bounce
    rule fires for the position before and after the update. *)
Definition bounce_fires (self : t) (old_x x : R) : bool :=
  _is_in_range x (- x_threshold self) (x_threshold self)
  && negb (_is_in_range old_x (- x_threshold self) (x_threshold self)).

(** The termination test of lines 287 and 293. *)
Definition is_done (self : t) (x theta : R) : bool :=
  Py.gt (Py.fabs x) (x_threshold self)
  || Py.gt (Py.fabs theta) (0.2 * PI).

(** One pass through the body of the [for] loop, up to the test that
    decides the [break]. *)
Definition sub_step (self : t) (force simu_time : R) (s : State)
  : Py.result State :=
  let '(x, x_dot, theta, theta_dot) := s in
  acc <- accelerations self force theta theta_dot ;;
  let '(thetaacc, xacc) := acc in
  let old_x := x in
  let x := x + simu_time * x_dot in
  let x_dot := x_dot + simu_time * xacc in
  let theta := theta + simu_time * theta_dot in
  let theta_dot := theta_dot + simu_time * thetaacc in
  let theta := wrap_down theta in
  let theta := wrap_up theta in
  let x_dot := bounce self old_x x x_dot in
  let x_dot := Py.max (Py.min x_dot 10) (-10) in
  let theta_dot := Py.max (Py.min theta_dot 10) (-10) in
  Py.Ok (x, x_dot, theta, theta_dot).

(** [for i in range(n): ...; if done: break], on the loop variables. *)
Fixpoint sub_steps (self : t) (force simu_time : R) (n : nat) (s : State)
  : Py.result State :=
  match n with
  | O => Py.Ok s
  | S k =>
    s' <- sub_step self force simu_time s ;;
    let '(x, _, theta, _) := s' in
    if is_done self x theta then Py.Ok s'
    else sub_steps self force simu_time k s'
  end.

Definition _step (self : t) (action : Z) : Py.result (t * StepReturn) :=
  if negb (spaces.contains (action_space self) action)
  then Py.Raise Py.AssertionError
  else
    match state self with
    | None => Py.Raise Py.TypeError
    | Some s =>
      let force :=
        if (action =? 1)%Z then force_mag self else - force_mag self in
      let sim_steps := Py.ceil (time_step self / 0.01) in
      simu_time <- time_step self // IZR sim_steps ;;
      s' <- sub_steps self force simu_time (Py.range_len sim_steps) s ;;
      let '(x, x_dot, theta, theta_dot) := s' in
      let self := set_state self (Some (x, x_dot, theta, theta_dot)) in
      let done := is_done self x theta in
      let '(self, reward, warnings) :=
        if negb done then (self, 0.2 * PI - Py.fabs theta, [])
        else
          match steps_beyond_done self with
          | None =>
            (set_steps_beyond_done self (Some 0%Z),
             0.2 * PI - Py.fabs theta, [])
          | Some n =>
            (set_steps_beyond_done self (Some (n + 1)%Z), 0.0,
             if (n =? 0)%Z then [step_after_done_warning] else [])
          end in
      Py.Ok (self,
             mkStepReturn (x, x_dot, theta, theta_dot)
                          reward done [] warnings)
    end.

(** [_reset]: the fixed start [np.asarray([0, 0, -0.15, 0])]. *)
Definition _reset (self : t) : t * State :=
  let start : State := (0, 0, -0.15, 0) in
  let self := set_state self (Some start) in
  let self := set_steps_beyond_done self None in
  (self, start).

(** An environment as [__init__] configures it, whatever its state and
    its count of steps beyond done. *)
Definition configured (self : t) : Prop :=
  exists s n, self = set_steps_beyond_done (set_state __init__ s) n.

End AdaptedCartPoleEnv.

(** ** The equations of motion, as the specification writes them

    [temp = (force + pole_mass_length * theta_dot^2 * sin theta) / total_mass],
    [thetaacc = (g * sin theta - cos theta * temp)
                / (length * (4/3 - pole_mass * cos^2 theta / total_mass))],
    [xacc = temp - pole_mass_length * thetaacc * cos theta / total_mass]. *)

Section Dynamics.
Variables g pole_mass total_mass length pole_mass_length : R.

Definition spec_temp (force theta theta_dot : R) : R :=
  (force + pole_mass_length * theta_dot ^ 2 * sin theta) / total_mass.

Definition spec_thetaacc (force theta theta_dot : R) : R :=
  (g * sin theta - cos theta * spec_temp force theta theta_dot)
  / (length * (4 / 3 - pole_mass * cos theta ^ 2 / total_mass)).

Definition spec_xacc (force theta theta_dot : R) : R :=
  spec_temp force theta theta_dot
  - pole_mass_length * spec_thetaacc force theta theta_dot * cos theta
    / total_mass.
End Dynamics.

(** One Euler step of duration [tau] as the specification words it:
    position and angle move with the velocities of the start of the step,
    the velocities move with the accelerations. *)
Definition spec_euler (tau : R) (s : State) (xacc thetaacc : R) : State :=
  (st_x s + tau * st_x_dot s,
   st_x_dot s + tau * xacc,
   st_theta s + tau * st_theta_dot s,
   st_theta_dot s + tau * thetaacc).

(** The signed force: [+force_mag] for action 1, [-force_mag] for action 0. *)
Definition spec_force (force_mag : R) (action : Z) : R :=
  match action with
  | 1%Z => force_mag
  | _ => - force_mag
  end.

(** Running a [step] function over a list of actions, with no reset in
    between; the returns are collected in call order. *)
Fixpoint run {E : Type} (step : E -> Z -> Py.result (E * StepReturn))
  (self : E) (actions : list Z) : Py.result (E * list StepReturn) :=
  match actions with
  | [] => Py.Ok (self, [])
  | a :: rest =>
    out <- step self a ;;
    let '(self', r) := out in
    outs <- run step self' rest ;;
    let '(self'', rs) := outs in
    Py.Ok (self'', r :: rs)
  end.

(** All warnings sent to the logger by a list of calls. *)
Definition all_warnings (rs : list StepReturn) : list string :=
  List.concat (map warnings rs).

(** A [CartPoleEnv] object carrying the constants of an
    [AdaptedCartPoleEnv] object, with [length] as given: the constants of
    the second class substituted into the first. *)
Definition substitute_constants (b : AdaptedCartPoleEnv.t) (length : R)
  : CartPoleEnv.t :=
  CartPoleEnv.mk
    (AdaptedCartPoleEnv.gravity b) (AdaptedCartPoleEnv.masscart b)
    (AdaptedCartPoleEnv.masspole b) (AdaptedCartPoleEnv.total_mass b)
    length (AdaptedCartPoleEnv.polemass_length b)
    (AdaptedCartPoleEnv.force_mag b) (AdaptedCartPoleEnv.tau b)
    (AdaptedCartPoleEnv.theta_threshold_radians b)
    (AdaptedCartPoleEnv.x_threshold b) (AdaptedCartPoleEnv.action_space b)
    (AdaptedCartPoleEnv.state b) (AdaptedCartPoleEnv.steps_beyond_done b).

(** How far [k] sub-steps of [AdaptedCartPoleEnv] can carry the start
    state of [_reset]: the invariant of the loop of sub-steps on a calm
    start. *)
Definition near_start (k : R) (s : State) : Prop :=
  Rabs (st_x s) <= 0.00125 * k ^ 2
  /\ Rabs (st_x_dot s) <= 0.25 * k
  /\ Rabs (st_theta s) <= 0.15 + 0.00315 * k ^ 2
  /\ Rabs (st_theta_dot s) <= 0.63 * k.

(** The state seen in a mirror placed at the centre of the track. *)
Definition mirror (s : State) : State :=
  (- st_x s, - st_x_dot s, - st_theta s, - st_theta_dot s).

(** The push in the other direction: action 0 for 1 and 1 for 0. *)
Definition opposite (action : Z) : Z := (1 - action)%Z.

(** [n] sub-steps of [AdaptedCartPoleEnv] in a row, without the test that
    decides the [break]. *)
Fixpoint sub_step_iter (self : AdaptedCartPoleEnv.t) (force simu_time : R)
  (n : nat) (s : State) : Py.result State :=
  match n with
  | O => Py.Ok s
  | S k =>
    s' <- AdaptedCartPoleEnv.sub_step self force simu_time s ;;
    sub_step_iter self force simu_time k s'
  end.

(** How many of the calls returned [done = True]. *)
Definition count_done (rs : list StepReturn) : Z :=
  Z.of_nat (List.length (filter done rs)).

(** How far [k] calls of [CartPoleEnv._step] can carry a state drawn by
    [_reset], each component within 0.05 of zero. *)
Definition near_reset (k : R) (s : State) : Prop :=
  Rabs (st_x s) <= 0.05 - 0.0013 * k + 0.0023 * k ^ 2
  /\ Rabs (st_x_dot s) <= 0.05 + 0.23 * k
  /\ Rabs (st_theta s) <= 0.05 - 0.0053 * k + 0.0063 * k ^ 2
  /\ Rabs (st_theta_dot s) <= 0.05 + 0.63 * k.

(** The part of [_render] that places the drawing, the same in both
    classes but for the class of [self]: from [x_threshold] and the state
    it computes the translation handed to [self.carttrans] and the
    rotation handed to [self.poletrans].  The viewer and the shapes it
    holds belong to the framework and are left out.  The result is
    [None] when [close] is set and when [self.state] is [None]; the
    scale is computed before the state is looked at. *)
Definition render_transforms (x_threshold : R) (state : option State)
  (close : bool) : Py.result (option (R * R * R)) :=
  if close then Py.Ok None
  else
    let screen_width := 600 in
    let world_width := x_threshold * 2 in
    scale <- screen_width // world_width ;;
    let carty := 100 in
    match state with
    | None => Py.Ok None
    | Some x =>
      let cartx := st_x x * scale + screen_width / 2.0 in
      Py.Ok (Some (cartx, carty, - st_theta x))
    end.

Definition CartPoleEnv_render_transforms (self : CartPoleEnv.t)
  (close : bool) : Py.result (option (R * R * R)) :=
  render_transforms (CartPoleEnv.x_threshold self) (CartPoleEnv.state self)
    close.

Definition AdaptedCartPoleEnv_render_transforms
  (self : AdaptedCartPoleEnv.t) (close : bool)
  : Py.result (option (R * R * R)) :=
  render_transforms (AdaptedCartPoleEnv.x_threshold self)
    (AdaptedCartPoleEnv.state self) close.

(** ** Facts about the Python primitives *)

Lemma truediv_ok (a b : R) : b <> 0 -> a // b = Py.Ok (a / b).
Proof.
  intros Hb. unfold Py.truediv.
  destruct (Req_dec_T b 0) as [E | _]; [contradiction | reflexivity].
Qed.

Lemma truediv_zero (a : R) : a // 0 = Py.Raise Py.ZeroDivisionError.
Proof.
  unfold Py.truediv. destruct (Req_dec_T 0 0) as [_ | N]; [reflexivity | ].
  exfalso; apply N; reflexivity.
Qed.

Lemma lt_true (a b : R) : Py.lt a b = true <-> a < b.
Proof. unfold Py.lt. destruct (Rlt_dec a b); split; intros; try easy. Qed.

Lemma lt_false (a b : R) : Py.lt a b = false <-> b <= a.
Proof.
  unfold Py.lt. destruct (Rlt_dec a b); split; intros; try easy; lra.
Qed.

Lemma gt_true (a b : R) : Py.gt a b = true <-> a > b.
Proof. unfold Py.gt. destruct (Rgt_dec a b); split; intros; try easy. Qed.

Lemma gt_false (a b : R) : Py.gt a b = false <-> a <= b.
Proof.
  unfold Py.gt. destruct (Rgt_dec a b); split; intros; try easy; lra.
Qed.

Lemma le_true (a b : R) : Py.le a b = true <-> a <= b.
Proof. unfold Py.le. destruct (Rle_dec a b); split; intros; try easy. Qed.

Lemma le_false (a b : R) : Py.le a b = false <-> b < a.
Proof.
  unfold Py.le. destruct (Rle_dec a b); split; intros; try easy; lra.
Qed.

Lemma ge_true (a b : R) : Py.ge a b = true <-> a >= b.
Proof. unfold Py.ge. destruct (Rge_dec a b); split; intros; try easy. Qed.

Lemma ge_false (a b : R) : Py.ge a b = false <-> a < b.
Proof.
  unfold Py.ge. destruct (Rge_dec a b); split; intros; try easy; lra.
Qed.

(** Clamping with [max(min(v, hi), lo)]. *)
Lemma clamp_bounds (v lo hi : R) :
  lo <= hi -> lo <= Py.max (Py.min v hi) lo <= hi.
Proof.
  intros Hlh. unfold Py.max, Py.min, Py.lt, Py.gt.
  destruct (Rlt_dec hi v); destruct (Rgt_dec lo _); lra.
Qed.

Lemma clamp_inside (v lo hi : R) :
  lo <= v <= hi -> Py.max (Py.min v hi) lo = v.
Proof.
  intros Hv. unfold Py.max, Py.min, Py.lt, Py.gt.
  destruct (Rlt_dec hi v); destruct (Rgt_dec lo _); lra.
Qed.

Lemma clamp_below (v lo hi : R) :
  lo <= hi -> v <= lo -> Py.max (Py.min v hi) lo = lo.
Proof.
  intros Hlh Hv. unfold Py.max, Py.min, Py.lt, Py.gt.
  destruct (Rlt_dec hi v); destruct (Rgt_dec lo _); lra.
Qed.


Lemma ceil_IZR (z : Z) : Py.ceil (IZR z) = z.
Proof.
  unfold Py.ceil.
  assert (H : (z = 1 - up (- IZR z))%Z); [ | symmetry; exact H].
  assert (Hu : (1 - z)%Z = up (- IZR z)).
  { apply tech_up; rewrite minus_IZR; lra. }
  lia.
Qed.

(** The loops, unrolled once: the shape of the Python statement. *)
Lemma wrap_down_unroll (theta : R) :
  wrap_down theta =
  if Py.ge theta PI then wrap_down (theta - 2.0 * PI) else theta.
Proof.
  rewrite wrap_down_equation_1. unfold Py.ge.
  destruct (Rge_dec theta PI); reflexivity.
Qed.

Lemma wrap_up_unroll (theta : R) :
  wrap_up theta =
  if Py.lt theta (- PI) then wrap_up (theta + 2.0 * PI) else theta.
Proof.
  rewrite wrap_up_equation_1. unfold Py.lt.
  destruct (Rlt_dec theta (- PI)); reflexivity.
Qed.

(** The angle left by the two loops lies in [-PI, PI). *)
Lemma wrap_down_lt (theta : R) : wrap_down theta < PI.
Proof. funelim (wrap_down theta); [assumption | lra]. Qed.

Lemma wrap_down_id (theta : R) : theta < PI -> wrap_down theta = theta.
Proof.
  intros H. rewrite wrap_down_unroll.
  destruct (Py.ge theta PI) eqn:E; [apply ge_true in E; lra | reflexivity].
Qed.

Lemma wrap_up_ge (theta : R) : - PI <= wrap_up theta.
Proof. funelim (wrap_up theta); [assumption | lra]. Qed.

Lemma wrap_up_lt (theta : R) : theta < PI -> wrap_up theta < PI.
Proof.
  funelim (wrap_up theta); intros Hlt; [ | assumption].
  apply H. lra.
Qed.

Lemma wrap_up_id (theta : R) : - PI <= theta -> wrap_up theta = theta.
Proof.
  intros H. rewrite wrap_up_unroll.
  destruct (Py.lt theta (- PI)) eqn:E; [apply lt_true in E; lra | reflexivity].
Qed.

Lemma wrap_range (theta : R) :
  - PI <= wrap_up (wrap_down theta) < PI.
Proof.
  split; [apply wrap_up_ge | apply wrap_up_lt, wrap_down_lt].
Qed.

(** ** [CartPoleEnv]: the accelerations and the step *)

Lemma cos_sqr_le_1 (theta : R) : 0 <= cos theta * cos theta <= 1.
Proof. pose proof (COS_bound theta). nra. Qed.

(** Two readings of the same counter agree. *)
Ltac same_counter :=
  match goal with
  | H1 : ?t = Some ?a, H2 : ?t = Some ?b |- _ =>
    assert (a = b) by congruence; subst
  end.

(** Equality of two state tuples, component by component. *)
Ltac tuple4_eq := f_equal; [f_equal; [f_equal | ] | ].

Ltac unfold_configured H :=
  let s := fresh "s0" in
  let n := fresh "n0" in
  destruct H as [s [n ->]].

Lemma CartPoleEnv_accelerations_ok (self : CartPoleEnv.t)
  (force theta theta_dot : R) :
  CartPoleEnv.configured self ->
  CartPoleEnv.accelerations self force theta theta_dot =
  Py.Ok
    (spec_thetaacc (CartPoleEnv.gravity self) (CartPoleEnv.masspole self)
       (CartPoleEnv.total_mass self) (CartPoleEnv.length self)
       (CartPoleEnv.polemass_length self) force theta theta_dot,
     spec_xacc (CartPoleEnv.gravity self) (CartPoleEnv.masspole self)
       (CartPoleEnv.total_mass self) (CartPoleEnv.length self)
       (CartPoleEnv.polemass_length self) force theta theta_dot).
Proof.
  intros Hc. unfold_configured Hc.
  pose proof (cos_sqr_le_1 theta) as Hcos.
  unfold CartPoleEnv.accelerations, spec_xacc, spec_thetaacc, spec_temp.
  cbn [CartPoleEnv.set_steps_beyond_done CartPoleEnv.set_state
       CartPoleEnv.__init__ CartPoleEnv.gravity CartPoleEnv.masspole
       CartPoleEnv.total_mass CartPoleEnv.length
       CartPoleEnv.polemass_length].
  rewrite truediv_ok by lra. cbn [Py.bind].
  rewrite truediv_ok by lra. cbn [Py.bind].
  assert (Hden : 0.5 * (4.0 / 3.0 - 0.1 * cos theta * cos theta / (0.1 + 1.0)) <> 0)
    by lra.
  rewrite truediv_ok by exact Hden. cbn [Py.bind].
  rewrite truediv_ok by lra. cbn [Py.bind].
  replace (cos theta ^ 2) with (cos theta * cos theta) by ring.
  replace (theta_dot ^ 2) with (theta_dot * theta_dot) by ring.
  replace (0.1 * cos theta * cos theta) with (0.1 * (cos theta * cos theta))
    in * by ring.
  replace (4 / 3) with (4.0 / 3.0) by lra.
  replace (0.1 * 0.5 * (theta_dot * theta_dot)) with
    (0.1 * 0.5 * theta_dot * theta_dot) by ring.
  reflexivity.
Qed.

Lemma CartPoleEnv_contains (self : CartPoleEnv.t) (action : Z) :
  CartPoleEnv.configured self ->
  spaces.contains (CartPoleEnv.action_space self) action = true
  <-> (action = 0 \/ action = 1)%Z.
Proof.
  intros Hc. unfold_configured Hc. cbn. lia.
Qed.

(** Everything one call of [CartPoleEnv._step] does on an environment
    that holds a state. *)
Lemma CartPoleEnv_step_spec (self : CartPoleEnv.t) (action : Z) (s : State) :
  CartPoleEnv.configured self ->
  CartPoleEnv.state self = Some s ->
  (action = 0 \/ action = 1)%Z ->
  exists self' r,
    CartPoleEnv._step self action = Py.Ok (self', r)
    /\ obs r =
       spec_euler (CartPoleEnv.tau self) s
         (spec_xacc (CartPoleEnv.gravity self) (CartPoleEnv.masspole self)
            (CartPoleEnv.total_mass self) (CartPoleEnv.length self)
            (CartPoleEnv.polemass_length self)
            (spec_force (CartPoleEnv.force_mag self) action)
            (st_theta s) (st_theta_dot s))
         (spec_thetaacc (CartPoleEnv.gravity self) (CartPoleEnv.masspole self)
            (CartPoleEnv.total_mass self) (CartPoleEnv.length self)
            (CartPoleEnv.polemass_length self)
            (spec_force (CartPoleEnv.force_mag self) action)
            (st_theta s) (st_theta_dot s))
    /\ CartPoleEnv.state self' = Some (obs r)
    /\ CartPoleEnv.configured self'
    /\ done r = CartPoleEnv.is_done self (st_x (obs r)) (st_theta (obs r))
    /\ info r = []
    /\ (done r = false ->
        reward r = 1 /\ warnings r = []
        /\ CartPoleEnv.steps_beyond_done self'
           = CartPoleEnv.steps_beyond_done self)
    /\ (done r = true -> CartPoleEnv.steps_beyond_done self = None ->
        reward r = 1 /\ warnings r = []
        /\ CartPoleEnv.steps_beyond_done self' = Some 0%Z)
    /\ (done r = true ->
        forall n, CartPoleEnv.steps_beyond_done self = Some n ->
        reward r = 0
        /\ warnings r = (if (n =? 0)%Z then [step_after_done_warning] else [])
        /\ CartPoleEnv.steps_beyond_done self' = Some (n + 1)%Z).
Proof.
  intros Hc Hs Ha.
  pose proof (proj2 (CartPoleEnv_contains self action Hc) Ha) as Hin.
  destruct s as [[[x x_dot] theta] theta_dot].
  unfold CartPoleEnv._step. rewrite Hin, Hs. cbn [negb].
  assert (Hf : (if (action =? 1)%Z then CartPoleEnv.force_mag self
                else - CartPoleEnv.force_mag self)
               = spec_force (CartPoleEnv.force_mag self) action).
  { destruct Ha as [-> | ->]; reflexivity. }
  rewrite Hf, (CartPoleEnv_accelerations_ok _ _ _ _ Hc). cbn [Py.bind].
  set (s' := (x + _, x_dot + _, theta + _, theta_dot + _)).
  assert (Hc' : forall m,
             CartPoleEnv.configured
               (CartPoleEnv.set_steps_beyond_done
                  (CartPoleEnv.set_state self (Some s')) m)).
  { intros m. unfold_configured Hc. exists (Some s'), m. reflexivity. }
  assert (Hc'' : CartPoleEnv.configured (CartPoleEnv.set_state self (Some s'))).
  { unfold_configured Hc. exists (Some s'), n0. reflexivity. }
  assert (Hd : forall b : bool, b = CartPoleEnv.is_done self (st_x s') (st_theta s')
               -> CartPoleEnv.is_done (CartPoleEnv.set_state self (Some s'))
                    (x + CartPoleEnv.tau self * x_dot)
                    (theta + CartPoleEnv.tau self * theta_dot) = b).
  { intros b ->. reflexivity. }
  destruct (CartPoleEnv.is_done self (st_x s') (st_theta s')) eqn:Edone;
    rewrite (Hd _ eq_refl); cbn [negb].
  - destruct (CartPoleEnv.steps_beyond_done
                (CartPoleEnv.set_state self (Some s'))) as [n |] eqn:En;
      cbn [CartPoleEnv.set_state CartPoleEnv.steps_beyond_done] in En;
      (eexists _, _; split; [reflexivity | ]);
      cbn [obs done reward warnings info];
      repeat split; intros; try apply Hc'; try congruence; try lra;
      same_counter; reflexivity.
  - eexists _, _. split; [reflexivity | ].
    cbn [obs done reward warnings info].
    repeat split; intros; try apply Hc''; try congruence; try lra.
Qed.

(** ** [AdaptedCartPoleEnv]: accelerations, sub-steps and the step *)

Lemma AdaptedCartPoleEnv_contains (self : AdaptedCartPoleEnv.t) (action : Z) :
  AdaptedCartPoleEnv.configured self ->
  spaces.contains (AdaptedCartPoleEnv.action_space self) action = true
  <-> (action = 0 \/ action = 1)%Z.
Proof.
  intros Hc. unfold_configured Hc. cbn. lia.
Qed.

(** The accelerations of the adapted class are the specification's
    equations read with half the configured [length]. *)
Lemma AdaptedCartPoleEnv_accelerations_ok (self : AdaptedCartPoleEnv.t)
  (force theta theta_dot : R) :
  AdaptedCartPoleEnv.configured self ->
  AdaptedCartPoleEnv.accelerations self force theta theta_dot =
  Py.Ok
    (spec_thetaacc (AdaptedCartPoleEnv.gravity self)
       (AdaptedCartPoleEnv.masspole self)
       (AdaptedCartPoleEnv.total_mass self)
       (AdaptedCartPoleEnv.length self / 2)
       (AdaptedCartPoleEnv.polemass_length self) force theta theta_dot,
     spec_xacc (AdaptedCartPoleEnv.gravity self)
       (AdaptedCartPoleEnv.masspole self)
       (AdaptedCartPoleEnv.total_mass self)
       (AdaptedCartPoleEnv.length self / 2)
       (AdaptedCartPoleEnv.polemass_length self) force theta theta_dot).
Proof.
  intros Hc. unfold_configured Hc.
  pose proof (cos_sqr_le_1 theta) as Hcos.
  unfold AdaptedCartPoleEnv.accelerations, spec_xacc, spec_thetaacc, spec_temp.
  cbn [AdaptedCartPoleEnv.set_steps_beyond_done AdaptedCartPoleEnv.set_state
       AdaptedCartPoleEnv.__init__ AdaptedCartPoleEnv.gravity
       AdaptedCartPoleEnv.masspole AdaptedCartPoleEnv.total_mass
       AdaptedCartPoleEnv.length AdaptedCartPoleEnv.polemass_length].
  rewrite truediv_ok by lra. cbn [Py.bind].
  rewrite truediv_ok by lra. cbn [Py.bind].
  assert (Hden : 0.75 / 2.0
                 * (4.0 / 3.0 - 0.15 * cos theta * cos theta / (0.15 + 1.0))
                 <> 0) by lra.
  rewrite truediv_ok by exact Hden. cbn [Py.bind].
  rewrite truediv_ok by lra. cbn [Py.bind].
  replace (cos theta ^ 2) with (cos theta * cos theta) by ring.
  replace (theta_dot ^ 2) with (theta_dot * theta_dot) by ring.
  replace (0.15 * cos theta * cos theta) with (0.15 * (cos theta * cos theta))
    in * by ring.
  replace (4 / 3) with (4.0 / 3.0) by lra.
  replace (0.75 / 2) with (0.75 / 2.0) by lra.
  replace (0.15 * 0.75 * (theta_dot * theta_dot)) with
    (0.15 * 0.75 * theta_dot * theta_dot) by ring.
  reflexivity.
Qed.

(** [sim_steps] is 10 and [simu_time] is a tenth of [time_step]. *)
Lemma AdaptedCartPoleEnv_sim_steps (self : AdaptedCartPoleEnv.t) :
  AdaptedCartPoleEnv.configured self ->
  Py.ceil (AdaptedCartPoleEnv.time_step self / 0.01) = 10%Z.
Proof.
  intros Hc. unfold_configured Hc.
  cbn [AdaptedCartPoleEnv.set_steps_beyond_done AdaptedCartPoleEnv.set_state
       AdaptedCartPoleEnv.__init__ AdaptedCartPoleEnv.time_step].
  replace (0.1 / 0.01) with (IZR 10) by lra.
  apply ceil_IZR.
Qed.

(** One sub-step never raises; its result, component by component. *)
Lemma AdaptedCartPoleEnv_sub_step_ok (self : AdaptedCartPoleEnv.t)
  (force simu_time : R) (s : State) :
  AdaptedCartPoleEnv.configured self ->
  exists s',
    AdaptedCartPoleEnv.sub_step self force simu_time s = Py.Ok s'
    /\ st_x s' = st_x s + simu_time * st_x_dot s
    /\ st_theta s'
       = wrap_up (wrap_down (st_theta s + simu_time * st_theta_dot s))
    /\ st_x_dot s'
       = Py.max
           (Py.min
              (AdaptedCartPoleEnv.bounce self (st_x s) (st_x s')
                 (st_x_dot s
                  + simu_time
                    * spec_xacc (AdaptedCartPoleEnv.gravity self)
                        (AdaptedCartPoleEnv.masspole self)
                        (AdaptedCartPoleEnv.total_mass self)
                        (AdaptedCartPoleEnv.length self / 2)
                        (AdaptedCartPoleEnv.polemass_length self)
                        force (st_theta s) (st_theta_dot s)))
              10) (-10)
    /\ st_theta_dot s'
       = Py.max
           (Py.min
              (st_theta_dot s
               + simu_time
                 * spec_thetaacc (AdaptedCartPoleEnv.gravity self)
                     (AdaptedCartPoleEnv.masspole self)
                     (AdaptedCartPoleEnv.total_mass self)
                     (AdaptedCartPoleEnv.length self / 2)
                     (AdaptedCartPoleEnv.polemass_length self)
                     force (st_theta s) (st_theta_dot s))
              10) (-10).
Proof.
  intros Hc. destruct s as [[[x x_dot] theta] theta_dot].
  unfold AdaptedCartPoleEnv.sub_step.
  rewrite (AdaptedCartPoleEnv_accelerations_ok _ _ _ _ Hc). cbn [Py.bind].
  eexists. split; [reflexivity | ].
  cbn [st_x st_x_dot st_theta st_theta_dot]. repeat split.
Qed.

Lemma AdaptedCartPoleEnv_sub_steps_ok (self : AdaptedCartPoleEnv.t)
  (force simu_time : R) (n : nat) (s : State) :
  AdaptedCartPoleEnv.configured self ->
  exists s', AdaptedCartPoleEnv.sub_steps self force simu_time n s = Py.Ok s'.
Proof.
  intros Hc. revert s. induction n as [| k IH]; intros s.
  - exists s. reflexivity.
  - destruct (AdaptedCartPoleEnv_sub_step_ok self force simu_time s Hc)
      as [s1 [E1 _]].
    cbn [AdaptedCartPoleEnv.sub_steps]. rewrite E1. cbn [Py.bind].
    destruct s1 as [[[x1 xd1] th1] thd1].
    destruct (AdaptedCartPoleEnv.is_done self x1 th1).
    + eexists; reflexivity.
    + apply IH.
Qed.

(** After at least one sub-step the angle lies in [-PI, PI). *)
Lemma AdaptedCartPoleEnv_sub_steps_theta (self : AdaptedCartPoleEnv.t)
  (force simu_time : R) (n : nat) (s s' : State) :
  AdaptedCartPoleEnv.configured self ->
  AdaptedCartPoleEnv.sub_steps self force simu_time (S n) s = Py.Ok s' ->
  - PI <= st_theta s' < PI.
Proof.
  intros Hc. revert s. induction n as [| k IH]; intros s;
    destruct (AdaptedCartPoleEnv_sub_step_ok self force simu_time s Hc)
      as [s1 [E1 [_ [Hth _]]]];
    cbn [AdaptedCartPoleEnv.sub_steps]; rewrite E1; cbn [Py.bind];
    destruct s1 as [[[x1 xd1] th1] thd1]; cbn [st_theta] in Hth;
    destruct (AdaptedCartPoleEnv.is_done self x1 th1) eqn:Ed;
    intros H; try (injection H as <-; cbn [st_theta]; rewrite Hth;
                   apply wrap_range).
  apply (IH _ H).
Qed.

(** Everything one call of [AdaptedCartPoleEnv._step] does on an
    environment that holds a state: ten sub-steps of a tenth of
    [time_step], then the bookkeeping of the episode. *)
Lemma AdaptedCartPoleEnv_step_spec (self : AdaptedCartPoleEnv.t) (action : Z)
  (s : State) :
  AdaptedCartPoleEnv.configured self ->
  AdaptedCartPoleEnv.state self = Some s ->
  (action = 0 \/ action = 1)%Z ->
  exists self' r,
    AdaptedCartPoleEnv._step self action = Py.Ok (self', r)
    /\ AdaptedCartPoleEnv.sub_steps self
         (spec_force (AdaptedCartPoleEnv.force_mag self) action)
         (AdaptedCartPoleEnv.time_step self / 10) 10 s
       = Py.Ok (obs r)
    /\ AdaptedCartPoleEnv.state self' = Some (obs r)
    /\ AdaptedCartPoleEnv.configured self'
    /\ done r
       = AdaptedCartPoleEnv.is_done self (st_x (obs r)) (st_theta (obs r))
    /\ info r = []
    /\ (done r = false ->
        reward r = 0.2 * PI - Rabs (st_theta (obs r)) /\ warnings r = []
        /\ AdaptedCartPoleEnv.steps_beyond_done self'
           = AdaptedCartPoleEnv.steps_beyond_done self)
    /\ (done r = true -> AdaptedCartPoleEnv.steps_beyond_done self = None ->
        reward r = 0.2 * PI - Rabs (st_theta (obs r)) /\ warnings r = []
        /\ AdaptedCartPoleEnv.steps_beyond_done self' = Some 0%Z)
    /\ (done r = true ->
        forall n, AdaptedCartPoleEnv.steps_beyond_done self = Some n ->
        reward r = 0
        /\ warnings r = (if (n =? 0)%Z then [step_after_done_warning] else [])
        /\ AdaptedCartPoleEnv.steps_beyond_done self' = Some (n + 1)%Z).
Proof.
  intros Hc Hs Ha.
  pose proof (proj2 (AdaptedCartPoleEnv_contains self action Hc) Ha) as Hin.
  unfold AdaptedCartPoleEnv._step. rewrite Hin, Hs. cbn [negb].
  assert (Hf : (if (action =? 1)%Z then AdaptedCartPoleEnv.force_mag self
                else - AdaptedCartPoleEnv.force_mag self)
               = spec_force (AdaptedCartPoleEnv.force_mag self) action).
  { destruct Ha as [-> | ->]; reflexivity. }
  rewrite Hf, (AdaptedCartPoleEnv_sim_steps _ Hc).
  rewrite truediv_ok by lra. cbn [Py.bind].
  change (Py.range_len 10) with 10%nat.
  destruct (AdaptedCartPoleEnv_sub_steps_ok self
              (spec_force (AdaptedCartPoleEnv.force_mag self) action)
              (AdaptedCartPoleEnv.time_step self / 10) 10 s Hc) as [s' Es'].
  rewrite Es'. cbn [Py.bind].
  destruct s' as [[[x' x_dot'] theta'] theta_dot'].
  set (s' := (x', x_dot', theta', theta_dot')) in *.
  assert (Hc' : forall m,
             AdaptedCartPoleEnv.configured
               (AdaptedCartPoleEnv.set_steps_beyond_done
                  (AdaptedCartPoleEnv.set_state self (Some s')) m)).
  { intros m. unfold_configured Hc. exists (Some s'), m. reflexivity. }
  assert (Hc'' : AdaptedCartPoleEnv.configured
                   (AdaptedCartPoleEnv.set_state self (Some s'))).
  { unfold_configured Hc. exists (Some s'), n0. reflexivity. }
  change (AdaptedCartPoleEnv.is_done
            (AdaptedCartPoleEnv.set_state self (Some s')) x' theta')
    with (AdaptedCartPoleEnv.is_done self x' theta').
  destruct (AdaptedCartPoleEnv.is_done self x' theta') eqn:Edone; cbn [negb].
  - destruct (AdaptedCartPoleEnv.steps_beyond_done
                (AdaptedCartPoleEnv.set_state self (Some s'))) as [n |] eqn:En;
      cbn [AdaptedCartPoleEnv.set_state AdaptedCartPoleEnv.steps_beyond_done]
        in En;
      (eexists _, _; split; [reflexivity | ]);
      cbn [obs done reward warnings info];
      repeat split; intros; try apply Hc'; try congruence; try lra;
      try (same_counter; reflexivity); symmetry; exact Edone.
  - eexists _, _. split; [reflexivity | ].
    cbn [obs done reward warnings info].
    repeat split; intros; try apply Hc''; try congruence; try lra;
    symmetry; exact Edone.
Qed.

(** * The claims *)

(** ** C6 *)

(** C6.  For every state and action in {0,1}, [CartPoleEnv._step] succeeds
    with the force [+force_mag] for action 1 and [-force_mag] for action 0,
    the accelerations
    [temp = (force + polemass_length * theta_dot^2 * sin theta) / total_mass],
    [thetaacc = (gravity * sin theta - cos theta * temp)
                / (length * (4/3 - masspole * cos^2 theta / total_mass))],
    [xacc = temp - polemass_length * thetaacc * cos theta / total_mass],
    and the new state: [x] and [theta] advanced over [tau] with the
    velocities of the start of the step, [x_dot] and [theta_dot] advanced
    over [tau] with these accelerations. *)
Theorem CartPoleEnv_step_dynamics
  (self : CartPoleEnv.t) (action : Z) (x x_dot theta theta_dot : R) :
  CartPoleEnv.configured self ->
  CartPoleEnv.state self = Some (x, x_dot, theta, theta_dot) ->
  (action = 0 \/ action = 1)%Z ->
  exists self' r force temp thetaacc xacc,
    CartPoleEnv._step self action = Py.Ok (self', r)
    /\ (action = 1%Z -> force = CartPoleEnv.force_mag self)
    /\ (action = 0%Z -> force = - CartPoleEnv.force_mag self)
    /\ temp = (force + CartPoleEnv.polemass_length self * theta_dot ^ 2
                       * sin theta) / CartPoleEnv.total_mass self
    /\ thetaacc = (CartPoleEnv.gravity self * sin theta - cos theta * temp)
                  / (CartPoleEnv.length self
                     * (4 / 3 - CartPoleEnv.masspole self * cos theta ^ 2
                                / CartPoleEnv.total_mass self))
    /\ xacc = temp - CartPoleEnv.polemass_length self * thetaacc * cos theta
                     / CartPoleEnv.total_mass self
    /\ obs r = (x + CartPoleEnv.tau self * x_dot,
                x_dot + CartPoleEnv.tau self * xacc,
                theta + CartPoleEnv.tau self * theta_dot,
                theta_dot + CartPoleEnv.tau self * thetaacc)
    /\ CartPoleEnv.state self' = Some (obs r).
Proof.
  intros Hc Hs Ha.
  destruct (CartPoleEnv_step_spec self action _ Hc Hs Ha)
    as (self' & r & Estep & Eobs & Est & _).
  exists self', r, (spec_force (CartPoleEnv.force_mag self) action).
  eexists _, _, _.
  split; [exact Estep | ].
  split; [intros ->; reflexivity | ].
  split; [intros ->; reflexivity | ].
  split; [reflexivity | ].
  split; [reflexivity | ].
  split; [reflexivity | ].
  split; [ | exact Est].
  rewrite Eobs. reflexivity.
Qed.

(** The upright state at rest, pushed to the right. *)
Lemma CartPoleEnv_step_dynamics_witness :
  let self := CartPoleEnv.set_state CartPoleEnv.__init__ (Some (0, 0, 0, 0)) in
  CartPoleEnv.configured self
  /\ CartPoleEnv.state self = Some (0, 0, 0, 0)
  /\ (1 = 0 \/ 1 = 1)%Z
  /\ exists self' r,
       CartPoleEnv._step self 1 = Py.Ok (self', r)
       /\ st_x (obs r) = 0 /\ st_theta (obs r) = 0
       /\ st_x_dot (obs r) > 0 /\ st_theta_dot (obs r) < 0.
Proof.
  intros self.
  assert (Hc : CartPoleEnv.configured self) by (exists (Some (0, 0, 0, 0)), None; reflexivity).
  assert (Ha : (1 = 0 \/ 1 = 1)%Z) by (right; reflexivity).
  split; [exact Hc | ]. split; [reflexivity | ]. split; [exact Ha | ].
  destruct (CartPoleEnv_step_dynamics self 1 0 0 0 0 Hc eq_refl Ha)
    as (self' & r & force & temp & thetaacc & xacc
        & Estep & Hf1 & _ & Etemp & Eth & Exacc & Eobs & _).
  exists self', r. split; [exact Estep | ].
  rewrite Eobs. cbn [st_x st_theta st_x_dot st_theta_dot].
  specialize (Hf1 eq_refl).
  cbn [self CartPoleEnv.set_state CartPoleEnv.__init__ CartPoleEnv.force_mag
       CartPoleEnv.polemass_length CartPoleEnv.total_mass CartPoleEnv.gravity
       CartPoleEnv.length CartPoleEnv.masspole CartPoleEnv.tau] in *.
  rewrite sin_0, cos_0 in *.
  assert (Ht : temp = 100 / 11) by (rewrite Etemp, Hf1; lra).
  assert (Hth : thetaacc = - (600 / 41)) by (rewrite Eth, Ht; lra).
  assert (Hx : xacc = 400 / 41) by (rewrite Exacc, Hth, Ht; lra).
  rewrite Hth, Hx. repeat split; lra.
Defined.

(** ** C1 *)

(** C1, as stated, fails: with the constants of [AdaptedCartPoleEnv]
    substituted, the accelerations of [CartPoleEnv._step] and the
    specification's equations give [thetaacc = -800/83] at the upright
    state at rest under force 10, where [AdaptedCartPoleEnv._step]
    computes [-1600/83]. *)
Lemma AdaptedCartPoleEnv_accelerations_not_CartPoleEnv :
  let b := AdaptedCartPoleEnv.__init__ in
  AdaptedCartPoleEnv.accelerations b 10 0 0
  <> CartPoleEnv.accelerations
       (substitute_constants b (AdaptedCartPoleEnv.length b)) 10 0 0
  /\ AdaptedCartPoleEnv.accelerations b 10 0 0
     <> Py.Ok
          (spec_thetaacc (AdaptedCartPoleEnv.gravity b)
             (AdaptedCartPoleEnv.masspole b) (AdaptedCartPoleEnv.total_mass b)
             (AdaptedCartPoleEnv.length b)
             (AdaptedCartPoleEnv.polemass_length b) 10 0 0,
           spec_xacc (AdaptedCartPoleEnv.gravity b)
             (AdaptedCartPoleEnv.masspole b) (AdaptedCartPoleEnv.total_mass b)
             (AdaptedCartPoleEnv.length b)
             (AdaptedCartPoleEnv.polemass_length b) 10 0 0).
Proof.
  intros b.
  assert (Hb : AdaptedCartPoleEnv.accelerations b 10 0 0
               = Py.Ok (- (1600 / 83), 20200 / 1909)).
  { unfold AdaptedCartPoleEnv.accelerations.
    cbn [b AdaptedCartPoleEnv.__init__ AdaptedCartPoleEnv.gravity
         AdaptedCartPoleEnv.masspole AdaptedCartPoleEnv.total_mass
         AdaptedCartPoleEnv.length AdaptedCartPoleEnv.polemass_length].
    rewrite sin_0, cos_0.
    repeat (rewrite truediv_ok by lra; cbn [Py.bind]).
    f_equal. f_equal; lra. }
  assert (Ha : CartPoleEnv.accelerations
                 (substitute_constants b (AdaptedCartPoleEnv.length b)) 10 0 0
               = Py.Ok (- (800 / 83), 18400 / 1909)).
  { unfold CartPoleEnv.accelerations.
    cbn [b substitute_constants AdaptedCartPoleEnv.__init__
         AdaptedCartPoleEnv.gravity
         AdaptedCartPoleEnv.masspole AdaptedCartPoleEnv.total_mass
         AdaptedCartPoleEnv.length AdaptedCartPoleEnv.polemass_length
         CartPoleEnv.gravity CartPoleEnv.masspole CartPoleEnv.total_mass
         CartPoleEnv.length CartPoleEnv.polemass_length].
    rewrite sin_0, cos_0.
    repeat (rewrite truediv_ok by lra; cbn [Py.bind]).
    f_equal. f_equal; lra. }
  assert (Hs : spec_thetaacc (AdaptedCartPoleEnv.gravity b)
                 (AdaptedCartPoleEnv.masspole b)
                 (AdaptedCartPoleEnv.total_mass b)
                 (AdaptedCartPoleEnv.length b)
                 (AdaptedCartPoleEnv.polemass_length b) 10 0 0
               = - (800 / 83)).
  { unfold spec_thetaacc, spec_temp.
    cbn [b AdaptedCartPoleEnv.__init__ AdaptedCartPoleEnv.gravity
         AdaptedCartPoleEnv.masspole AdaptedCartPoleEnv.total_mass
         AdaptedCartPoleEnv.length AdaptedCartPoleEnv.polemass_length].
    rewrite sin_0, cos_0. lra. }
  split.
  - rewrite Hb, Ha. intros H. injection H as H1 H2. lra.
  - rewrite Hb, Hs. intros H. injection H as H1 H2. lra.
Qed.

(** C1, amended.  In [AdaptedCartPoleEnv._step], [temp] and [xacc] are
    computed as in [CartPoleEnv._step] with the class's own constants,
    and [thetaacc] divides by half the configured length:
    [thetaacc = (gravity * sin theta - cos theta * temp)
                / ((length / 2) * (4/3 - masspole * cos^2 theta / total_mass))].
    The computation is that of [CartPoleEnv._step] with the constants
    substituted and [length / 2] in place of [length]. *)
Theorem AdaptedCartPoleEnv_accelerations_half_length
  (self : AdaptedCartPoleEnv.t) (force theta theta_dot : R) :
  AdaptedCartPoleEnv.configured self ->
  exists temp thetaacc xacc,
    AdaptedCartPoleEnv.accelerations self force theta theta_dot
    = Py.Ok (thetaacc, xacc)
    /\ temp = (force + AdaptedCartPoleEnv.polemass_length self * theta_dot ^ 2
                       * sin theta) / AdaptedCartPoleEnv.total_mass self
    /\ thetaacc
       = (AdaptedCartPoleEnv.gravity self * sin theta - cos theta * temp)
         / ((AdaptedCartPoleEnv.length self / 2)
            * (4 / 3 - AdaptedCartPoleEnv.masspole self * cos theta ^ 2
                       / AdaptedCartPoleEnv.total_mass self))
    /\ xacc = temp - AdaptedCartPoleEnv.polemass_length self * thetaacc
                     * cos theta / AdaptedCartPoleEnv.total_mass self
    /\ AdaptedCartPoleEnv.accelerations self force theta theta_dot
       = CartPoleEnv.accelerations
           (substitute_constants self (AdaptedCartPoleEnv.length self / 2.0))
           force theta theta_dot.
Proof.
  intros Hc. eexists _, _, _.
  split; [apply (AdaptedCartPoleEnv_accelerations_ok _ _ _ _ Hc) | ].
  repeat (split; [reflexivity | ]).
  reflexivity.
Qed.

Lemma AdaptedCartPoleEnv_accelerations_half_length_witness :
  let b := AdaptedCartPoleEnv.__init__ in
  AdaptedCartPoleEnv.configured b
  /\ exists xacc,
       AdaptedCartPoleEnv.accelerations b 10 0 0
       = Py.Ok (- (1600 / 83), xacc).
Proof.
  intros b.
  assert (Hc : AdaptedCartPoleEnv.configured b)
    by (exists None, None; reflexivity).
  split; [exact Hc | ].
  destruct (AdaptedCartPoleEnv_accelerations_half_length b 10 0 0 Hc)
    as (temp & thetaacc & xacc & Eacc & Etemp & Eth & _).
  exists xacc. rewrite Eacc. f_equal. f_equal.
  cbn [b AdaptedCartPoleEnv.__init__ AdaptedCartPoleEnv.gravity
       AdaptedCartPoleEnv.masspole AdaptedCartPoleEnv.total_mass
       AdaptedCartPoleEnv.length AdaptedCartPoleEnv.polemass_length] in *.
  rewrite sin_0, cos_0 in *.
  assert (Ht : temp = 200 / 23) by (rewrite Etemp; lra).
  rewrite Eth, Ht. lra.
Defined.

(** ** A cart that overshoots the track and comes back

    [CartPoleEnv], upright pole, cart on the right threshold drifting
    outwards at 0.05 while being pushed to the left.  The first call
    leaves the track and records the termination; the second call brings
    the cart back inside. *)
Lemma CartPoleEnv_overshoot_trace :
  let self0 :=
    CartPoleEnv.set_state CartPoleEnv.__init__ (Some (2.4, 0.05, 0, 0)) in
  exists self1 r1 self2 r2,
    CartPoleEnv._step self0 0 = Py.Ok (self1, r1)
    /\ obs r1 = (2.401, 0.05 - 0.02 * (400 / 41), 0, 0.02 * (600 / 41))
    /\ done r1 = true /\ reward r1 = 1
    /\ CartPoleEnv.state self1 = Some (obs r1)
    /\ CartPoleEnv.steps_beyond_done self1 = Some 0%Z
    /\ CartPoleEnv._step self1 0 = Py.Ok (self2, r2)
    /\ st_x (obs r2) = 2.401 + 0.02 * (0.05 - 0.02 * (400 / 41))
    /\ st_theta (obs r2) = 0.02 * (0.02 * (600 / 41))
    /\ done r2 = false /\ reward r2 = 1 /\ warnings r2 = []
    /\ CartPoleEnv.steps_beyond_done self2 = Some 0%Z.
Proof.
  intros self0.
  assert (Hc0 : CartPoleEnv.configured self0)
    by (exists (Some (2.4, 0.05, 0, 0)), None; reflexivity).
  assert (Ha : (0 = 0 \/ 0 = 1)%Z) by (left; reflexivity).
  pose proof PI2_1 as Hpi.
  destruct (CartPoleEnv_step_spec self0 0 _ Hc0 eq_refl Ha)
    as (self1 & r1 & E1 & Eobs1 & Est1 & Hc1 & Ed1 & _ & _ & Hfirst & _).
  assert (Hobs1 : obs r1
                  = (2.401, 0.05 - 0.02 * (400 / 41), 0, 0.02 * (600 / 41))).
  { rewrite Eobs1. unfold spec_euler, spec_xacc, spec_thetaacc, spec_temp.
    cbn [self0 CartPoleEnv.set_state CartPoleEnv.__init__ spec_force
         CartPoleEnv.force_mag CartPoleEnv.polemass_length
         CartPoleEnv.total_mass CartPoleEnv.gravity CartPoleEnv.length
         CartPoleEnv.masspole CartPoleEnv.tau
         st_x st_x_dot st_theta st_theta_dot].
    rewrite sin_0, cos_0. tuple4_eq; lra. }
  assert (Hd1 : done r1 = true).
  { rewrite Ed1, Hobs1. cbn [st_x st_theta]. unfold CartPoleEnv.is_done.
    cbn [self0 CartPoleEnv.set_state CartPoleEnv.__init__
         CartPoleEnv.x_threshold].
    replace (Py.gt 2.401 2.4) with true by (symmetry; apply gt_true; lra).
    rewrite orb_true_r. reflexivity. }
  destruct (Hfirst Hd1 eq_refl) as (Hrew1 & _ & Hsbd1).
  destruct (CartPoleEnv_step_spec self1 0 _ Hc1 Est1 Ha)
    as (self2 & r2 & E2 & Eobs2 & _ & _ & Ed2 & _ & Hactive & _).
  assert (Hx2 : st_x (obs r2) = 2.401 + 0.02 * (0.05 - 0.02 * (400 / 41))).
  { rewrite Eobs2, Hobs1. unfold_configured Hc1. reflexivity. }
  assert (Hth2 : st_theta (obs r2) = 0.02 * (0.02 * (600 / 41))).
  { rewrite Eobs2, Hobs1. unfold_configured Hc1.
    cbn [spec_euler st_theta st_theta_dot CartPoleEnv.tau
         CartPoleEnv.set_steps_beyond_done CartPoleEnv.set_state
         CartPoleEnv.__init__].
    lra. }
  assert (Hd2 : done r2 = false).
  { rewrite Ed2, Hx2, Hth2. unfold CartPoleEnv.is_done. unfold_configured Hc1.
    cbn [CartPoleEnv.set_steps_beyond_done CartPoleEnv.set_state
         CartPoleEnv.__init__ CartPoleEnv.x_threshold
         CartPoleEnv.theta_threshold_radians].
    repeat (apply orb_false_intro);
      [apply lt_false | apply gt_false | apply lt_false | apply gt_false];
      lra. }
  destruct (Hactive Hd2) as (Hrew2 & Hw2 & Hsbd2).
  exists self1, r1, self2, r2.
  repeat (split; [assumption || congruence | ]).
  congruence.
Qed.

(** ** C2 *)

(** C2, as stated, fails: after [CartPoleEnv._step] has recorded the
    termination, the next call returns a state different from the one it
    was given. *)
Lemma CartPoleEnv_state_not_frozen_after_done :
  let self0 :=
    CartPoleEnv.set_state CartPoleEnv.__init__ (Some (2.4, 0.05, 0, 0)) in
  exists self1 r1 self2 r2 s1,
    CartPoleEnv._step self0 0 = Py.Ok (self1, r1)
    /\ done r1 = true
    /\ CartPoleEnv.steps_beyond_done self1 = Some 0%Z
    /\ CartPoleEnv.state self1 = Some s1
    /\ CartPoleEnv._step self1 0 = Py.Ok (self2, r2)
    /\ obs r2 <> s1.
Proof.
  intros self0.
  destruct CartPoleEnv_overshoot_trace
    as (self1 & r1 & self2 & r2 & E1 & Hobs1 & Hd1 & _ & Hst1 & Hsbd1
        & E2 & Hx2 & _).
  exists self1, r1, self2, r2, (obs r1).
  repeat (split; [assumption | ]).
  intros Heq. rewrite Heq, Hobs1 in Hx2. cbn [st_x] in Hx2. lra.
Qed.

(** C2, amended.  Recording the termination does not stop the physics.
    In both classes every further call of [_step] without a reset updates
    the state as any other call does: [CartPoleEnv._step] returns the
    Euler step of the state it was given, and [AdaptedCartPoleEnv._step]
    runs its loop of sub-steps, at least the first one, so that the
    returned state is in general not the state passed in. *)
Theorem step_updates_state_after_done :
  (forall (self : CartPoleEnv.t) (action : Z) (s : State) (n : Z),
      CartPoleEnv.configured self ->
      CartPoleEnv.state self = Some s ->
      CartPoleEnv.steps_beyond_done self = Some n ->
      (action = 0 \/ action = 1)%Z ->
      exists self' r,
        CartPoleEnv._step self action = Py.Ok (self', r)
        /\ obs r =
           spec_euler (CartPoleEnv.tau self) s
             (spec_xacc (CartPoleEnv.gravity self) (CartPoleEnv.masspole self)
                (CartPoleEnv.total_mass self) (CartPoleEnv.length self)
                (CartPoleEnv.polemass_length self)
                (spec_force (CartPoleEnv.force_mag self) action)
                (st_theta s) (st_theta_dot s))
             (spec_thetaacc (CartPoleEnv.gravity self)
                (CartPoleEnv.masspole self)
                (CartPoleEnv.total_mass self) (CartPoleEnv.length self)
                (CartPoleEnv.polemass_length self)
                (spec_force (CartPoleEnv.force_mag self) action)
                (st_theta s) (st_theta_dot s))
        /\ CartPoleEnv.state self' = Some (obs r))
  /\
  (forall (self : AdaptedCartPoleEnv.t) (action : Z) (s : State) (n : Z),
      AdaptedCartPoleEnv.configured self ->
      AdaptedCartPoleEnv.state self = Some s ->
      AdaptedCartPoleEnv.steps_beyond_done self = Some n ->
      (action = 0 \/ action = 1)%Z ->
      let force := spec_force (AdaptedCartPoleEnv.force_mag self) action in
      let simu_time := AdaptedCartPoleEnv.time_step self / 10 in
      exists self' r s1,
        AdaptedCartPoleEnv._step self action = Py.Ok (self', r)
        /\ AdaptedCartPoleEnv.sub_steps self force simu_time 10 s
           = Py.Ok (obs r)
        /\ AdaptedCartPoleEnv.state self' = Some (obs r)
        /\ AdaptedCartPoleEnv.sub_step self force simu_time s = Py.Ok s1
        /\ st_x s1 = st_x s + simu_time * st_x_dot s
        /\ (AdaptedCartPoleEnv.is_done self (st_x s1) (st_theta s1) = true ->
            obs r = s1)).
Proof.
  split.
  - intros self action s n Hc Hs _ Ha.
    destruct (CartPoleEnv_step_spec self action s Hc Hs Ha)
      as (self' & r & E & Eobs & Est & _).
    exists self', r. auto.
  - intros self action s n Hc Hs _ Ha force simu_time.
    destruct (AdaptedCartPoleEnv_step_spec self action s Hc Hs Ha)
      as (self' & r & E & Eloop & Est & _).
    destruct (AdaptedCartPoleEnv_sub_step_ok self force simu_time s Hc)
      as (s1 & E1 & Hx1 & _).
    exists self', r, s1.
    repeat (split; [assumption | ]).
    intros Hd. fold force simu_time in Eloop.
    change 10%nat with (S 9) in Eloop.
    cbn [AdaptedCartPoleEnv.sub_steps] in Eloop.
    rewrite E1 in Eloop. cbn [Py.bind] in Eloop.
    destruct s1 as [[[x1 xd1] th1] thd1]. cbn [st_x st_theta] in Hd.
    rewrite Hd in Eloop. injection Eloop as <-. reflexivity.
Qed.

(** Both classes, one call after the termination was recorded, the cart
    beyond the right end of the track and still moving outwards. *)
Lemma step_updates_state_after_done_witness :
  (let self :=
     CartPoleEnv.set_steps_beyond_done
       (CartPoleEnv.set_state CartPoleEnv.__init__ (Some (3, 1, 0, 0)))
       (Some 0%Z) in
   exists self' r,
     CartPoleEnv._step self 1 = Py.Ok (self', r) /\ st_x (obs r) = 3.02)
  /\
  (let self :=
     AdaptedCartPoleEnv.set_steps_beyond_done
       (AdaptedCartPoleEnv.set_state AdaptedCartPoleEnv.__init__
          (Some (11, 1, 0, 0)))
       (Some 0%Z) in
   exists self' r,
     AdaptedCartPoleEnv._step self 1 = Py.Ok (self', r)
     /\ st_x (obs r) = 11.01).
Proof.
  destruct step_updates_state_after_done as [HA HB].
  assert (Ha : (1 = 0 \/ 1 = 1)%Z) by (right; reflexivity).
  split.
  - intros self.
    assert (Hc : CartPoleEnv.configured self)
      by (exists (Some (3, 1, 0, 0)), (Some 0%Z); reflexivity).
    destruct (HA self 1%Z _ 0%Z Hc eq_refl eq_refl Ha)
      as (self' & r & E & Eobs & _).
    exists self', r. split; [exact E | ].
    rewrite Eobs.
    cbn [spec_euler st_x st_x_dot self CartPoleEnv.set_steps_beyond_done
         CartPoleEnv.set_state CartPoleEnv.__init__ CartPoleEnv.tau].
    lra.
  - intros self.
    assert (Hc : AdaptedCartPoleEnv.configured self)
      by (exists (Some (11, 1, 0, 0)), (Some 0%Z); reflexivity).
    destruct (HB self 1%Z _ 0%Z Hc eq_refl eq_refl Ha)
      as (self' & r & s1 & E & _ & _ & _ & Hx1 & Hbreak).
    exists self', r. split; [exact E | ].
    cbn [st_x st_x_dot self AdaptedCartPoleEnv.set_steps_beyond_done
         AdaptedCartPoleEnv.set_state AdaptedCartPoleEnv.__init__
         AdaptedCartPoleEnv.time_step] in Hx1.
    assert (Hx : st_x s1 = 11.01) by lra.
    rewrite Hbreak; [exact Hx | ].
    unfold AdaptedCartPoleEnv.is_done. rewrite Hx.
    cbn [self AdaptedCartPoleEnv.set_steps_beyond_done
         AdaptedCartPoleEnv.set_state AdaptedCartPoleEnv.__init__
         AdaptedCartPoleEnv.x_threshold].
    replace (Py.gt (Py.fabs 11.01) 10) with true; [reflexivity | ].
    symmetry. apply gt_true. unfold Py.fabs. rewrite Rabs_right; lra.
Defined.

(** ** C8 *)

(** C8, as stated, fails: on an environment fresh from [__init__], whose
    [state] is still [None], [_step] with the valid action 0 raises, and
    what it raises is not the failed assertion. *)
Lemma step_before_reset_raises :
  (0 = 0 \/ 0 = 1)%Z
  /\ CartPoleEnv._step CartPoleEnv.__init__ 0 = Py.Raise Py.TypeError
  /\ AdaptedCartPoleEnv._step AdaptedCartPoleEnv.__init__ 0
     = Py.Raise Py.TypeError
  /\ ~ (exists out, CartPoleEnv._step CartPoleEnv.__init__ 0 = Py.Ok out).
Proof.
  split; [left; reflexivity | ].
  split; [reflexivity | ]. split; [reflexivity | ].
  intros [out H]. discriminate H.
Qed.

Lemma CartPoleEnv_step_assertion (self : CartPoleEnv.t) (action : Z) :
  CartPoleEnv.configured self ->
  CartPoleEnv._step self action = Py.Raise Py.AssertionError
  <-> ~ (action = 0 \/ action = 1)%Z.
Proof.
  intros Hc. pose proof (CartPoleEnv_contains self action Hc) as Hin.
  unfold CartPoleEnv._step.
  destruct (spaces.contains (CartPoleEnv.action_space self) action) eqn:E;
    cbn [negb].
  - split; [ | intros N; exfalso; apply N, Hin; reflexivity].
    destruct (CartPoleEnv.state self) as [s |] eqn:Es; [ | discriminate].
    destruct (CartPoleEnv_step_spec self action s Hc Es (proj1 Hin eq_refl))
      as (self' & r & Estep & _).
    unfold CartPoleEnv._step in Estep. rewrite E, Es in Estep.
    cbn [negb] in Estep. rewrite Estep. discriminate.
  - split; [ | reflexivity].
    intros _ Hv. apply Hin in Hv. discriminate.
Qed.

Lemma AdaptedCartPoleEnv_step_assertion (self : AdaptedCartPoleEnv.t)
  (action : Z) :
  AdaptedCartPoleEnv.configured self ->
  AdaptedCartPoleEnv._step self action = Py.Raise Py.AssertionError
  <-> ~ (action = 0 \/ action = 1)%Z.
Proof.
  intros Hc. pose proof (AdaptedCartPoleEnv_contains self action Hc) as Hin.
  unfold AdaptedCartPoleEnv._step.
  destruct (spaces.contains (AdaptedCartPoleEnv.action_space self) action)
    eqn:E; cbn [negb].
  - split; [ | intros N; exfalso; apply N, Hin; reflexivity].
    destruct (AdaptedCartPoleEnv.state self) as [s |] eqn:Es;
      [ | discriminate].
    destruct (AdaptedCartPoleEnv_step_spec self action s Hc Es
                (proj1 Hin eq_refl)) as (self' & r & Estep & _).
    unfold AdaptedCartPoleEnv._step in Estep. rewrite E, Es in Estep.
    cbn [negb] in Estep. rewrite Estep. discriminate.
  - split; [ | reflexivity].
    intros _ Hv. apply Hin in Hv. discriminate.
Qed.

(** C8, amended.  In both classes [_step] fails with the failed assertion
    if and only if the action is not in {0,1}.  With an action in {0,1},
    [_step] never fails on an environment that holds a state (one that
    was reset or stepped), and on an environment whose [state] is still
    [None] it raises a [TypeError]. *)
Theorem step_failures :
  (forall (self : CartPoleEnv.t) (action : Z),
      CartPoleEnv.configured self ->
      (CartPoleEnv._step self action = Py.Raise Py.AssertionError
       <-> ~ (action = 0 \/ action = 1)%Z)
      /\ ((action = 0 \/ action = 1)%Z ->
          (forall s, CartPoleEnv.state self = Some s ->
                     exists out, CartPoleEnv._step self action = Py.Ok out)
          /\ (CartPoleEnv.state self = None ->
              CartPoleEnv._step self action = Py.Raise Py.TypeError)))
  /\
  (forall (self : AdaptedCartPoleEnv.t) (action : Z),
      AdaptedCartPoleEnv.configured self ->
      (AdaptedCartPoleEnv._step self action = Py.Raise Py.AssertionError
       <-> ~ (action = 0 \/ action = 1)%Z)
      /\ ((action = 0 \/ action = 1)%Z ->
          (forall s, AdaptedCartPoleEnv.state self = Some s ->
                     exists out,
                       AdaptedCartPoleEnv._step self action = Py.Ok out)
          /\ (AdaptedCartPoleEnv.state self = None ->
              AdaptedCartPoleEnv._step self action = Py.Raise Py.TypeError))).
Proof.
  split.
  - intros self action Hc.
    split; [apply CartPoleEnv_step_assertion; exact Hc | ].
    intros Ha. split.
    + intros s Hs.
      destruct (CartPoleEnv_step_spec self action s Hc Hs Ha)
        as (self' & r & E & _).
      exists (self', r). exact E.
    + intros Hs. unfold CartPoleEnv._step.
      rewrite (proj2 (CartPoleEnv_contains self action Hc) Ha), Hs.
      reflexivity.
  - intros self action Hc.
    split; [apply AdaptedCartPoleEnv_step_assertion; exact Hc | ].
    intros Ha. split.
    + intros s Hs.
      destruct (AdaptedCartPoleEnv_step_spec self action s Hc Hs Ha)
        as (self' & r & E & _).
      exists (self', r). exact E.
    + intros Hs. unfold AdaptedCartPoleEnv._step.
      rewrite (proj2 (AdaptedCartPoleEnv_contains self action Hc) Ha), Hs.
      reflexivity.
Qed.

(** Both classes after a reset: action 2 trips the assertion, action 1
    goes through. *)
Lemma step_failures_witness :
  (let self := fst (CartPoleEnv._reset CartPoleEnv.__init__ (0, 0, 0, 0)) in
   CartPoleEnv._step self 2 = Py.Raise Py.AssertionError
   /\ exists out, CartPoleEnv._step self 1 = Py.Ok out)
  /\
  (let self := fst (AdaptedCartPoleEnv._reset AdaptedCartPoleEnv.__init__) in
   AdaptedCartPoleEnv._step self 2 = Py.Raise Py.AssertionError
   /\ exists out, AdaptedCartPoleEnv._step self 1 = Py.Ok out).
Proof.
  destruct step_failures as [HA HB].
  split.
  - intros self.
    assert (Hc : CartPoleEnv.configured self)
      by (exists (Some (0, 0, 0, 0)), None; reflexivity).
    split.
    + apply (proj1 (HA self 2%Z Hc)). lia.
    + apply (proj1 (proj2 (HA self 1%Z Hc) (or_intror eq_refl))
               (0, 0, 0, 0)).
      reflexivity.
  - intros self.
    assert (Hc : AdaptedCartPoleEnv.configured self)
      by (exists (Some (0, 0, -0.15, 0)), None; reflexivity).
    split.
    + apply (proj1 (HB self 2%Z Hc)). lia.
    + apply (proj1 (proj2 (HB self 1%Z Hc) (or_intror eq_refl))
               (0, 0, -0.15, 0)).
      reflexivity.
Defined.

(** ** C5 *)

(** C5, as stated, fails: [CartPoleEnv._step] returns [done = True] on one
    call and, with no reset in between, [done = False] and reward 1.0 on
    the next. *)
Lemma CartPoleEnv_done_then_not_done :
  let self0 :=
    CartPoleEnv.set_state CartPoleEnv.__init__ (Some (2.4, 0.05, 0, 0)) in
  CartPoleEnv.steps_beyond_done self0 = None
  /\ exists self1 r1 self2 r2,
       CartPoleEnv._step self0 0 = Py.Ok (self1, r1)
       /\ done r1 = true
       /\ CartPoleEnv._step self1 0 = Py.Ok (self2, r2)
       /\ done r2 = false
       /\ reward r2 = 1
       /\ ~ (reward r2 = 0 /\ done r2 = true).
Proof.
  intros self0. split; [reflexivity | ].
  destruct CartPoleEnv_overshoot_trace
    as (self1 & r1 & self2 & r2 & E1 & _ & Hd1 & _ & _ & _
        & E2 & _ & _ & Hd2 & Hrew2 & _).
  exists self1, r1, self2, r2.
  repeat (split; [assumption | ]).
  intros [_ Hd]. congruence.
Qed.

(** C5, amended.  In both classes, once the termination is recorded,
    every later call of [_step] without a reset on which the termination
    test holds for the updated state returns reward 0.0 and
    [done = True], and no call of [_step] clears the record: the count
    of steps beyond done goes up by one on such a call and stays as it
    is on a call whose updated state passes the test again. *)
Theorem step_after_termination :
  (forall (self : CartPoleEnv.t) (action : Z) (s : State) (n : Z),
      CartPoleEnv.configured self ->
      CartPoleEnv.state self = Some s ->
      CartPoleEnv.steps_beyond_done self = Some n ->
      (action = 0 \/ action = 1)%Z ->
      exists self' r,
        CartPoleEnv._step self action = Py.Ok (self', r)
        /\ done r
           = CartPoleEnv.is_done self (st_x (obs r)) (st_theta (obs r))
        /\ (done r = true ->
            reward r = 0
            /\ CartPoleEnv.steps_beyond_done self' = Some (n + 1)%Z)
        /\ (done r = false ->
            CartPoleEnv.steps_beyond_done self' = Some n))
  /\
  (forall (self : AdaptedCartPoleEnv.t) (action : Z) (s : State) (n : Z),
      AdaptedCartPoleEnv.configured self ->
      AdaptedCartPoleEnv.state self = Some s ->
      AdaptedCartPoleEnv.steps_beyond_done self = Some n ->
      (action = 0 \/ action = 1)%Z ->
      exists self' r,
        AdaptedCartPoleEnv._step self action = Py.Ok (self', r)
        /\ done r
           = AdaptedCartPoleEnv.is_done self (st_x (obs r)) (st_theta (obs r))
        /\ (done r = true ->
            reward r = 0
            /\ AdaptedCartPoleEnv.steps_beyond_done self' = Some (n + 1)%Z)
        /\ (done r = false ->
            AdaptedCartPoleEnv.steps_beyond_done self' = Some n)).
Proof.
  split.
  - intros self action s n Hc Hs Hn Ha.
    destruct (CartPoleEnv_step_spec self action s Hc Hs Ha)
      as (self' & r & E & _ & _ & _ & Ed & _ & Hact & _ & Hpost).
    exists self', r. split; [exact E | ]. split; [exact Ed | ]. split.
    + intros Hd. destruct (Hpost Hd n Hn) as (Hr & _ & Hsbd). auto.
    + intros Hd. destruct (Hact Hd) as (_ & _ & Hsbd). congruence.
  - intros self action s n Hc Hs Hn Ha.
    destruct (AdaptedCartPoleEnv_step_spec self action s Hc Hs Ha)
      as (self' & r & E & _ & _ & _ & Ed & _ & Hact & _ & Hpost).
    exists self', r. split; [exact E | ]. split; [exact Ed | ]. split.
    + intros Hd. destruct (Hpost Hd n Hn) as (Hr & _ & Hsbd). auto.
    + intros Hd. destruct (Hact Hd) as (_ & _ & Hsbd). congruence.
Qed.

(** [is_done] beyond the right end of the track, for both classes. *)
Lemma CartPoleEnv_is_done_right (self : CartPoleEnv.t) (x theta : R) :
  CartPoleEnv.configured self -> 2.4 < x ->
  CartPoleEnv.is_done self x theta = true.
Proof.
  intros Hc Hx. unfold_configured Hc. unfold CartPoleEnv.is_done.
  cbn [CartPoleEnv.set_steps_beyond_done CartPoleEnv.set_state
       CartPoleEnv.__init__ CartPoleEnv.x_threshold].
  replace (Py.gt x 2.4) with true by (symmetry; apply gt_true; lra).
  rewrite orb_true_r. reflexivity.
Qed.

Lemma AdaptedCartPoleEnv_is_done_right (self : AdaptedCartPoleEnv.t)
  (x theta : R) :
  AdaptedCartPoleEnv.configured self -> 10 < x ->
  AdaptedCartPoleEnv.is_done self x theta = true.
Proof.
  intros Hc Hx. unfold_configured Hc. unfold AdaptedCartPoleEnv.is_done.
  cbn [AdaptedCartPoleEnv.set_steps_beyond_done AdaptedCartPoleEnv.set_state
       AdaptedCartPoleEnv.__init__ AdaptedCartPoleEnv.x_threshold].
  replace (Py.gt (Py.fabs x) 10) with true; [reflexivity | ].
  symmetry. apply gt_true. unfold Py.fabs. rewrite Rabs_right; lra.
Qed.

(** A sub-step that ends in a terminal state ends the loop. *)
Lemma AdaptedCartPoleEnv_sub_steps_break (self : AdaptedCartPoleEnv.t)
  (force simu_time : R) (k : nat) (s s1 : State) :
  AdaptedCartPoleEnv.sub_step self force simu_time s = Py.Ok s1 ->
  AdaptedCartPoleEnv.is_done self (st_x s1) (st_theta s1) = true ->
  AdaptedCartPoleEnv.sub_steps self force simu_time (S k) s = Py.Ok s1.
Proof.
  intros E1 Hd. cbn [AdaptedCartPoleEnv.sub_steps]. rewrite E1.
  cbn [Py.bind]. destruct s1 as [[[x1 xd1] th1] thd1].
  cbn [st_x st_theta] in Hd. rewrite Hd. reflexivity.
Qed.

(** A call whose first sub-step carries the cart beyond the right end of
    the track returns just that sub-step, with [done = True]. *)
Lemma AdaptedCartPoleEnv_step_leaves_right (self : AdaptedCartPoleEnv.t)
  (action : Z) (s : State) :
  AdaptedCartPoleEnv.configured self ->
  AdaptedCartPoleEnv.state self = Some s ->
  (action = 0 \/ action = 1)%Z ->
  10 < st_x s + AdaptedCartPoleEnv.time_step self / 10 * st_x_dot s ->
  exists self' r,
    AdaptedCartPoleEnv._step self action = Py.Ok (self', r)
    /\ AdaptedCartPoleEnv.sub_step self
         (spec_force (AdaptedCartPoleEnv.force_mag self) action)
         (AdaptedCartPoleEnv.time_step self / 10) s = Py.Ok (obs r)
    /\ done r = true.
Proof.
  intros Hc Hs Ha Hx.
  destruct (AdaptedCartPoleEnv_step_spec self action s Hc Hs Ha)
    as (self' & r & E & Eloop & _ & _ & Ed & _).
  destruct (AdaptedCartPoleEnv_sub_step_ok self
              (spec_force (AdaptedCartPoleEnv.force_mag self) action)
              (AdaptedCartPoleEnv.time_step self / 10) s Hc)
    as (s1 & E1 & Hx1 & _).
  assert (Hd1 : AdaptedCartPoleEnv.is_done self (st_x s1) (st_theta s1) = true)
    by (apply AdaptedCartPoleEnv_is_done_right; [exact Hc | lra]).
  rewrite (AdaptedCartPoleEnv_sub_steps_break _ _ _ _ _ _ E1 Hd1) in Eloop.
  injection Eloop as Ho.
  exists self', r. rewrite Ed, <- Ho. auto.
Qed.

(** Both classes, one call after the termination was recorded, the cart
    beyond the right end of the track and still moving outwards. *)
Lemma step_after_termination_witness :
  (let self :=
     CartPoleEnv.set_steps_beyond_done
       (CartPoleEnv.set_state CartPoleEnv.__init__ (Some (3, 1, 0, 0)))
       (Some 0%Z) in
   exists self' r,
     CartPoleEnv._step self 1 = Py.Ok (self', r)
     /\ done r = true /\ reward r = 0
     /\ CartPoleEnv.steps_beyond_done self' = Some 1%Z)
  /\
  (let self :=
     AdaptedCartPoleEnv.set_steps_beyond_done
       (AdaptedCartPoleEnv.set_state AdaptedCartPoleEnv.__init__
          (Some (11, 1, 0, 0)))
       (Some 0%Z) in
   exists self' r,
     AdaptedCartPoleEnv._step self 1 = Py.Ok (self', r)
     /\ done r = true /\ reward r = 0
     /\ AdaptedCartPoleEnv.steps_beyond_done self' = Some 1%Z).
Proof.
  destruct step_after_termination as [HA HB].
  assert (Ha : (1 = 0 \/ 1 = 1)%Z) by (right; reflexivity).
  split.
  - intros self.
    assert (Hc : CartPoleEnv.configured self)
      by (exists (Some (3, 1, 0, 0)), (Some 0%Z); reflexivity).
    destruct (HA self 1%Z _ 0%Z Hc eq_refl eq_refl Ha)
      as (self' & r & E & Ed & Hdone & _).
    destruct (CartPoleEnv_step_spec self 1 _ Hc eq_refl Ha)
      as (self2 & r2 & E2 & Eobs & _).
    rewrite E in E2. injection E2 as <- <-.
    assert (Hd : done r = true).
    { rewrite Ed. apply CartPoleEnv_is_done_right; [exact Hc | ].
      rewrite Eobs.
      cbn [spec_euler st_x st_x_dot self CartPoleEnv.set_steps_beyond_done
           CartPoleEnv.set_state CartPoleEnv.__init__ CartPoleEnv.tau].
      lra. }
    exists self', r. destruct (Hdone Hd) as [Hr Hn]. auto.
  - intros self.
    assert (Hc : AdaptedCartPoleEnv.configured self)
      by (exists (Some (11, 1, 0, 0)), (Some 0%Z); reflexivity).
    destruct (HB self 1%Z _ 0%Z Hc eq_refl eq_refl Ha)
      as (self' & r & E & Ed & Hdone & _).
    destruct (AdaptedCartPoleEnv_step_leaves_right self 1 _ Hc eq_refl Ha)
      as (self2 & r2 & E2 & _ & Hd).
    { cbn [st_x st_x_dot self AdaptedCartPoleEnv.set_steps_beyond_done
           AdaptedCartPoleEnv.set_state AdaptedCartPoleEnv.__init__
           AdaptedCartPoleEnv.time_step].
      lra. }
    rewrite E in E2. injection E2 as <- <-.
    exists self', r. destruct (Hdone Hd) as [Hr Hn]. auto.
Defined.

(** ** C7 *)

(** Calls that together log nothing log nothing each. *)
Lemma all_warnings_nil (rs : list StepReturn) :
  all_warnings rs = [] -> forall r, In r rs -> warnings r = [].
Proof.
  unfold all_warnings. induction rs as [| r0 rest IH]; intros Hnil r Hin.
  - destruct Hin.
  - cbn [map List.concat] in Hnil. apply app_eq_nil in Hnil.
    destruct Hnil as [H0 Hrest]. destruct Hin as [<- | Hin]; auto.
Qed.

(** The bookkeeping of an episode, for any [step] that counts the calls
    made after the termination the way both classes do. *)
Section Episode.

Variable E : Type.
Variable step : E -> Z -> Py.result (E * StepReturn).
Variable counter : E -> option Z.
Variable ready : E -> Prop.

Hypothesis step_counts :
  forall self action n,
    ready self -> counter self = Some n -> (action = 0 \/ action = 1)%Z ->
    exists self' r,
      step self action = Py.Ok (self', r)
      /\ ready self'
      /\ (done r = true ->
          warnings r = (if (n =? 0)%Z then [step_after_done_warning] else [])
          /\ counter self' = Some (n + 1)%Z)
      /\ (done r = false -> warnings r = [] /\ counter self' = Some n).

Lemma run_warnings (actions : list Z) :
  forall self n,
    ready self -> counter self = Some n -> (0 <= n)%Z ->
    Forall (fun a => a = 0 \/ a = 1)%Z actions ->
    exists self' rs,
      run step self actions = Py.Ok (self', rs)
      /\ all_warnings rs
         = (if (n =? 0)%Z && existsb done rs
            then [step_after_done_warning] else [])
      /\ (forall pre r post,
             rs = pre ++ r :: post -> warnings r <> [] ->
             done r = true
             /\ forallb (fun r' => negb (done r')) pre = true).
Proof.
  induction actions as [| a rest IH]; intros self n Hr Hn Hpos Hall.
  - exists self, []. split; [reflexivity | ]. split.
    + cbn. rewrite andb_false_r. reflexivity.
    + intros pre r post Heq. destruct pre; discriminate.
  - inversion Hall as [| a' rest' Ha Hrest]; subst.
    destruct (step_counts self a n Hr Hn Ha)
      as (self1 & r1 & E1 & Hr1 & Hdone & Hactive).
    destruct (done r1) eqn:Ed.
    + destruct (Hdone eq_refl) as [Hw Hc1].
      destruct (IH self1 (n + 1)%Z Hr1 Hc1 ltac:(lia) Hrest)
        as (self' & rs & Erun & Hws & Hpos').
      exists self', (r1 :: rs). split.
      { cbn [run]. rewrite E1. cbn [Py.bind]. rewrite Erun. reflexivity. }
      replace ((n + 1 =? 0)%Z) with false in Hws by (symmetry; lia).
      cbn [andb] in Hws. split.
      { unfold all_warnings in *. cbn [map List.concat existsb].
        rewrite Hws, Ed, Hw, app_nil_r. cbn [orb].
        rewrite andb_true_r. reflexivity. }
      intros pre r post Heq Hne. destruct pre as [| p pre'].
      * injection Heq as -> ->. split; [exact Ed | reflexivity].
      * injection Heq as -> ->. exfalso. apply Hne.
        apply (all_warnings_nil _ Hws).
        apply in_or_app. right. left. reflexivity.
    + destruct (Hactive eq_refl) as [Hw Hc1].
      destruct (IH self1 n Hr1 Hc1 Hpos Hrest)
        as (self' & rs & Erun & Hws & Hpos').
      exists self', (r1 :: rs). split.
      { cbn [run]. rewrite E1. cbn [Py.bind]. rewrite Erun. reflexivity. }
      split.
      { unfold all_warnings in *. cbn [map List.concat existsb].
        rewrite Hws, Ed, Hw. reflexivity. }
      intros pre r post Heq Hne. destruct pre as [| p pre'].
      * injection Heq as -> ->. congruence.
      * injection Heq as -> ->.
        destruct (Hpos' pre' r post eq_refl Hne) as [Hd Hpre].
        split; [exact Hd | ]. cbn [forallb]. rewrite Ed, Hpre. reflexivity.
Qed.

End Episode.

(** C7, as stated, fails: the first call of [CartPoleEnv._step] made
    after [done = True] was returned sends nothing to the logger when the
    cart is back on the track, so that one call beyond done emits no
    warning rather than one. *)
Lemma CartPoleEnv_no_warning_on_first_call_after_done :
  let self0 :=
    CartPoleEnv.set_state CartPoleEnv.__init__ (Some (2.4, 0.05, 0, 0)) in
  exists self1 r1 self2 r2,
    CartPoleEnv._step self0 0 = Py.Ok (self1, r1)
    /\ done r1 = true
    /\ CartPoleEnv.steps_beyond_done self1 = Some 0%Z
    /\ run CartPoleEnv._step self1 [0%Z] = Py.Ok (self2, [r2])
    /\ all_warnings [r2] = []
    /\ List.length (all_warnings [r2]) <> 1%nat.
Proof.
  intros self0.
  destruct CartPoleEnv_overshoot_trace
    as (self1 & r1 & self2 & r2 & E1 & _ & Hd1 & _ & _ & Hsbd1
        & E2 & _ & _ & _ & _ & Hw2 & _).
  exists self1, r1, self2, r2.
  assert (Hnone : all_warnings [r2] = []).
  { unfold all_warnings. cbn [map List.concat]. rewrite Hw2. reflexivity. }
  repeat (split; [assumption | ]). split; [ | split; [exact Hnone | ]].
  - cbn [run]. rewrite E2. reflexivity.
  - rewrite Hnone. discriminate.
Qed.

(** C7, amended.  In both classes, over any number of calls of [_step]
    made after the termination was recorded and without a reset, the
    warning is emitted at most once: by the first of these calls that
    returns [done = True], and by no call if the count of steps beyond
    done is already positive or none of the calls returns [done = True]. *)
Theorem warning_emitted_at_most_once :
  (forall (self : CartPoleEnv.t) (actions : list Z) (s : State) (n : Z),
      CartPoleEnv.configured self ->
      CartPoleEnv.state self = Some s ->
      CartPoleEnv.steps_beyond_done self = Some n -> (0 <= n)%Z ->
      Forall (fun a => a = 0 \/ a = 1)%Z actions ->
      exists self' rs,
        run CartPoleEnv._step self actions = Py.Ok (self', rs)
        /\ all_warnings rs
           = (if (n =? 0)%Z && existsb done rs
              then [step_after_done_warning] else [])
        /\ (forall pre r post,
               rs = pre ++ r :: post -> warnings r <> [] ->
               done r = true
               /\ forallb (fun r' => negb (done r')) pre = true))
  /\
  (forall (self : AdaptedCartPoleEnv.t) (actions : list Z) (s : State)
          (n : Z),
      AdaptedCartPoleEnv.configured self ->
      AdaptedCartPoleEnv.state self = Some s ->
      AdaptedCartPoleEnv.steps_beyond_done self = Some n -> (0 <= n)%Z ->
      Forall (fun a => a = 0 \/ a = 1)%Z actions ->
      exists self' rs,
        run AdaptedCartPoleEnv._step self actions = Py.Ok (self', rs)
        /\ all_warnings rs
           = (if (n =? 0)%Z && existsb done rs
              then [step_after_done_warning] else [])
        /\ (forall pre r post,
               rs = pre ++ r :: post -> warnings r <> [] ->
               done r = true
               /\ forallb (fun r' => negb (done r')) pre = true)).
Proof.
  split.
  - intros self actions s n Hc Hs Hn Hpos Hall.
    apply (run_warnings CartPoleEnv.t CartPoleEnv._step
             CartPoleEnv.steps_beyond_done
             (fun e => CartPoleEnv.configured e
                       /\ exists s', CartPoleEnv.state e = Some s'));
      eauto.
    clear. intros self action n [Hc [s Hs]] Hn Ha.
    destruct (CartPoleEnv_step_spec self action s Hc Hs Ha)
      as (self' & r & E & _ & Est & Hc' & _ & _ & Hact & _ & Hpost).
    exists self', r. split; [exact E | ]. split; [eauto | ]. split.
    + intros Hd. destruct (Hpost Hd n Hn) as (_ & Hw & Hsbd). auto.
    + intros Hd. destruct (Hact Hd) as (_ & Hw & Hsbd).
      split; [exact Hw | congruence].
  - intros self actions s n Hc Hs Hn Hpos Hall.
    apply (run_warnings AdaptedCartPoleEnv.t AdaptedCartPoleEnv._step
             AdaptedCartPoleEnv.steps_beyond_done
             (fun e => AdaptedCartPoleEnv.configured e
                       /\ exists s', AdaptedCartPoleEnv.state e = Some s'));
      eauto.
    clear. intros self action n [Hc [s Hs]] Hn Ha.
    destruct (AdaptedCartPoleEnv_step_spec self action s Hc Hs Ha)
      as (self' & r & E & _ & Est & Hc' & _ & _ & Hact & _ & Hpost).
    exists self', r. split; [exact E | ]. split; [eauto | ]. split.
    + intros Hd. destruct (Hpost Hd n Hn) as (_ & Hw & Hsbd). auto.
    + intros Hd. destruct (Hact Hd) as (_ & Hw & Hsbd).
      split; [exact Hw | congruence].
Qed.

(** Both classes, two calls after the termination was recorded with the
    cart beyond the right end of the track: one warning in all. *)
Lemma warning_emitted_at_most_once_witness :
  (let self :=
     CartPoleEnv.set_steps_beyond_done
       (CartPoleEnv.set_state CartPoleEnv.__init__ (Some (3, 1, 0, 0)))
       (Some 0%Z) in
   exists self' rs,
     run CartPoleEnv._step self [1%Z; 1%Z] = Py.Ok (self', rs)
     /\ all_warnings rs = [step_after_done_warning])
  /\
  (let self :=
     AdaptedCartPoleEnv.set_steps_beyond_done
       (AdaptedCartPoleEnv.set_state AdaptedCartPoleEnv.__init__
          (Some (11, 1, 0, 0)))
       (Some 0%Z) in
   exists self' rs,
     run AdaptedCartPoleEnv._step self [1%Z; 1%Z] = Py.Ok (self', rs)
     /\ all_warnings rs = [step_after_done_warning]).
Proof.
  destruct warning_emitted_at_most_once as [HA HB].
  assert (Ha : (1 = 0 \/ 1 = 1)%Z) by (right; reflexivity).
  assert (Hall : Forall (fun a => a = 0 \/ a = 1)%Z [1%Z; 1%Z])
    by (repeat constructor).
  split.
  - intros self.
    assert (Hc : CartPoleEnv.configured self)
      by (exists (Some (3, 1, 0, 0)), (Some 0%Z); reflexivity).
    destruct (HA self _ _ 0%Z Hc eq_refl eq_refl ltac:(lia) Hall)
      as (self' & rs & Erun & Hws & _).
    exists self', rs. split; [exact Erun | ]. rewrite Hws.
    destruct (CartPoleEnv_step_spec self 1 _ Hc eq_refl Ha)
      as (self1 & r1 & E1 & Eobs & _ & _ & Ed & _).
    assert (Hd : done r1 = true).
    { rewrite Ed. apply CartPoleEnv_is_done_right; [exact Hc | ].
      rewrite Eobs.
      cbn [spec_euler st_x st_x_dot self CartPoleEnv.set_steps_beyond_done
           CartPoleEnv.set_state CartPoleEnv.__init__ CartPoleEnv.tau].
      lra. }
    cbn [run] in Erun. rewrite E1 in Erun. cbn [Py.bind] in Erun.
    destruct (CartPoleEnv._step self1 1) as [[self2 r2] | e];
      cbn [Py.bind] in Erun; [ | discriminate].
    injection Erun as _ <-. cbn [existsb]. rewrite Hd. reflexivity.
  - intros self.
    assert (Hc : AdaptedCartPoleEnv.configured self)
      by (exists (Some (11, 1, 0, 0)), (Some 0%Z); reflexivity).
    destruct (HB self _ _ 0%Z Hc eq_refl eq_refl ltac:(lia) Hall)
      as (self' & rs & Erun & Hws & _).
    exists self', rs. split; [exact Erun | ]. rewrite Hws.
    destruct (AdaptedCartPoleEnv_step_leaves_right self 1 _ Hc eq_refl Ha)
      as (self1 & r1 & E1 & _ & Hd).
    { cbn [st_x st_x_dot self AdaptedCartPoleEnv.set_steps_beyond_done
           AdaptedCartPoleEnv.set_state AdaptedCartPoleEnv.__init__
           AdaptedCartPoleEnv.time_step].
      lra. }
    cbn [run] in Erun. rewrite E1 in Erun. cbn [Py.bind] in Erun.
    destruct (AdaptedCartPoleEnv._step self1 1) as [[self2 r2] | e];
      cbn [Py.bind] in Erun; [ | discriminate].
    injection Erun as _ <-. cbn [existsb]. rewrite Hd. reflexivity.
Defined.

(** A call whose first sub-step ends in a terminal state returns that
    sub-step's state, with [done = True]. *)
Lemma AdaptedCartPoleEnv_step_first_break (self : AdaptedCartPoleEnv.t)
  (action : Z) (s s1 : State) :
  AdaptedCartPoleEnv.configured self ->
  AdaptedCartPoleEnv.state self = Some s ->
  (action = 0 \/ action = 1)%Z ->
  AdaptedCartPoleEnv.sub_step self
    (spec_force (AdaptedCartPoleEnv.force_mag self) action)
    (AdaptedCartPoleEnv.time_step self / 10) s = Py.Ok s1 ->
  AdaptedCartPoleEnv.is_done self (st_x s1) (st_theta s1) = true ->
  exists self' r,
    AdaptedCartPoleEnv._step self action = Py.Ok (self', r)
    /\ obs r = s1
    /\ done r = true
    /\ (AdaptedCartPoleEnv.steps_beyond_done self = None ->
        reward r = 0.2 * PI - Rabs (st_theta s1)
        /\ AdaptedCartPoleEnv.steps_beyond_done self' = Some 0%Z).
Proof.
  intros Hc Hs Ha E1 Hd1.
  destruct (AdaptedCartPoleEnv_step_spec self action s Hc Hs Ha)
    as (self' & r & E & Eloop & _ & _ & Ed & _ & _ & Hfirst & _).
  rewrite (AdaptedCartPoleEnv_sub_steps_break _ _ _ _ _ _ E1 Hd1) in Eloop.
  injection Eloop as Ho.
  assert (Hd : done r = true) by (rewrite Ed, <- Ho; exact Hd1).
  exists self', r. split; [exact E | ]. split; [auto | ].
  split; [exact Hd | ].
  intros Hn. destruct (Hfirst Hd Hn) as (Hr & _ & Hsbd).
  rewrite Ho. auto.
Qed.

(** ** C4 *)

(** C4, as stated, fails: a pole hanging at exactly [-PI] is left at
    [-PI] by both loops, and [-PI] is not in the interval (-PI, PI]. *)
Lemma AdaptedCartPoleEnv_theta_minus_pi_returned :
  let self :=
    AdaptedCartPoleEnv.set_state AdaptedCartPoleEnv.__init__
      (Some (0, 0, - PI, 0)) in
  exists self' r,
    AdaptedCartPoleEnv._step self 1 = Py.Ok (self', r)
    /\ st_theta (obs r) = - PI
    /\ ~ (- PI < st_theta (obs r) <= PI).
Proof.
  intros self.
  assert (Hc : AdaptedCartPoleEnv.configured self)
    by (exists (Some (0, 0, - PI, 0)), None; reflexivity).
  assert (Ha : (1 = 0 \/ 1 = 1)%Z) by (right; reflexivity).
  pose proof PI_RGT_0 as Hpi.
  destruct (AdaptedCartPoleEnv_sub_step_ok self
              (spec_force (AdaptedCartPoleEnv.force_mag self) 1)
              (AdaptedCartPoleEnv.time_step self / 10) (0, 0, - PI, 0) Hc)
    as (s1 & E1 & _ & Hth & _).
  cbn [st_theta st_theta_dot] in Hth.
  replace (- PI + AdaptedCartPoleEnv.time_step self / 10 * 0) with (- PI)
    in Hth by lra.
  rewrite wrap_down_id in Hth by lra. rewrite wrap_up_id in Hth by lra.
  assert (Hd1 : AdaptedCartPoleEnv.is_done self (st_x s1) (st_theta s1) = true).
  { unfold AdaptedCartPoleEnv.is_done. rewrite Hth.
    replace (Py.gt (Py.fabs (- PI)) (0.2 * PI)) with true;
      [apply orb_true_r | ].
    symmetry. apply gt_true. unfold Py.fabs.
    rewrite Rabs_Ropp, Rabs_right; lra. }
  destruct (AdaptedCartPoleEnv_step_first_break self 1 _ s1 Hc eq_refl Ha E1 Hd1)
    as (self' & r & E & Ho & _).
  exists self', r. split; [exact E | ]. rewrite Ho, Hth.
  split; [reflexivity | lra].
Qed.

(** C4, amended.  In [AdaptedCartPoleEnv], after each sub-step's
    integration the angle is brought into the interval [-PI, PI), closed
    at [-PI] and open at [PI], by subtracting [2 PI] while it is at least
    [PI] and then adding [2 PI] while it is below [-PI]; the angle of the
    state returned by [_step] lies in [-PI, PI). *)
Theorem AdaptedCartPoleEnv_theta_wrapped
  (self : AdaptedCartPoleEnv.t) (action : Z) (s : State) :
  AdaptedCartPoleEnv.configured self ->
  AdaptedCartPoleEnv.state self = Some s ->
  (action = 0 \/ action = 1)%Z ->
  (forall force simu_time s0,
      exists s1,
        AdaptedCartPoleEnv.sub_step self force simu_time s0 = Py.Ok s1
        /\ st_theta s1
           = wrap_up (wrap_down (st_theta s0 + simu_time * st_theta_dot s0))
        /\ - PI <= st_theta s1 < PI)
  /\ exists self' r,
       AdaptedCartPoleEnv._step self action = Py.Ok (self', r)
       /\ - PI <= st_theta (obs r) < PI.
Proof.
  intros Hc Hs Ha. split.
  - intros force simu_time s0.
    destruct (AdaptedCartPoleEnv_sub_step_ok self force simu_time s0 Hc)
      as (s1 & E1 & _ & Hth & _).
    exists s1. split; [exact E1 | ]. split; [exact Hth | ].
    rewrite Hth. apply wrap_range.
  - destruct (AdaptedCartPoleEnv_step_spec self action s Hc Hs Ha)
      as (self' & r & E & Eloop & _).
    exists self', r. split; [exact E | ].
    apply (AdaptedCartPoleEnv_sub_steps_theta _ _ _ _ _ _ Hc Eloop).
Qed.

(** The angle returned for a pole that starts four radians past upright. *)
Lemma AdaptedCartPoleEnv_theta_wrapped_witness :
  let self :=
    AdaptedCartPoleEnv.set_state AdaptedCartPoleEnv.__init__
      (Some (0, 0, 4, 0)) in
  exists self' r,
    AdaptedCartPoleEnv._step self 0 = Py.Ok (self', r)
    /\ - PI <= st_theta (obs r) < PI.
Proof.
  intros self.
  apply (AdaptedCartPoleEnv_theta_wrapped self 0 (0, 0, 4, 0)).
  - exists (Some (0, 0, 4, 0)), None. reflexivity.
  - reflexivity.
  - left. reflexivity.
Defined.

(** ** Bounds on the dynamics of [AdaptedCartPoleEnv] *)

Lemma div_between (n d b : R) :
  0 < d -> - b * d <= n <= b * d -> - b <= n / d <= b.
Proof.
  intros Hd [Hl Hu].
  assert (Hi : 0 < / d) by (apply Rinv_0_lt_compat; exact Hd).
  assert (E : forall c, c * d * / d = c) by (intros c; field; lra).
  split.
  - rewrite <- (E (- b)). unfold Rdiv. apply Rmult_le_compat_r; lra.
  - rewrite <- (E b). unfold Rdiv. apply Rmult_le_compat_r; lra.
Qed.

(** With a force of at most 10 and an angular velocity of at most 10 in
    magnitude, the angular acceleration stays within 63 and the
    acceleration of the cart within 25. *)
Lemma AdaptedCartPoleEnv_accelerations_bounded (self : AdaptedCartPoleEnv.t)
  (force theta theta_dot : R) :
  AdaptedCartPoleEnv.configured self ->
  -10 <= force <= 10 -> -10 <= theta_dot <= 10 ->
  -63 <= spec_thetaacc (AdaptedCartPoleEnv.gravity self)
           (AdaptedCartPoleEnv.masspole self)
           (AdaptedCartPoleEnv.total_mass self)
           (AdaptedCartPoleEnv.length self / 2)
           (AdaptedCartPoleEnv.polemass_length self) force theta theta_dot
      <= 63
  /\ -25 <= spec_xacc (AdaptedCartPoleEnv.gravity self)
              (AdaptedCartPoleEnv.masspole self)
              (AdaptedCartPoleEnv.total_mass self)
              (AdaptedCartPoleEnv.length self / 2)
              (AdaptedCartPoleEnv.polemass_length self) force theta theta_dot
         <= 25.
Proof.
  intros Hc Hf Hv. unfold_configured Hc.
  unfold spec_xacc, spec_thetaacc, spec_temp.
  cbn [AdaptedCartPoleEnv.set_steps_beyond_done AdaptedCartPoleEnv.set_state
       AdaptedCartPoleEnv.__init__ AdaptedCartPoleEnv.gravity
       AdaptedCartPoleEnv.masspole AdaptedCartPoleEnv.total_mass
       AdaptedCartPoleEnv.length AdaptedCartPoleEnv.polemass_length].
  pose proof (SIN_bound theta) as Hsin. pose proof (COS_bound theta) as Hcos.
  set (sn := sin theta) in *. set (cs := cos theta) in *.
  assert (Hw : 0 <= theta_dot ^ 2 <= 100) by nra.
  set (w := theta_dot ^ 2) in *.
  assert (Hws : -100 <= w * sn <= 100) by nra.
  set (temp := (force + 0.15 * 0.75 * w * sn) / (0.15 + 1.0)).
  assert (Ht : -18.5 <= temp <= 18.5) by (unfold temp; lra).
  assert (Hct : -18.5 <= cs * temp <= 18.5) by nra.
  assert (Hcc : 0 <= cs ^ 2 <= 1) by nra.
  set (c2 := cs ^ 2) in *.
  set (den := 0.75 / 2 * (4 / 3 - 0.15 * c2 / (0.15 + 1.0))).
  assert (Hden : 0.45 <= den) by (unfold den; lra).
  set (thetaacc := (9.8 * sn - cs * temp) / den).
  assert (Hth : -63 <= thetaacc <= 63).
  { unfold thetaacc. apply div_between; lra. }
  split; [exact Hth | ].
  assert (Htc : -63 <= thetaacc * cs <= 63) by nra.
  lra.
Qed.

Lemma Rabs_le_iff (a b : R) : Rabs a <= b <-> - b <= a <= b.
Proof.
  split; [ | apply Rabs_le].
  unfold Rabs. destruct (Rcase_abs a); lra.
Qed.

(** The bounce rule leaves the velocity alone while the cart is left of
    the right threshold. *)
Lemma AdaptedCartPoleEnv_bounce_left_of_threshold
  (self : AdaptedCartPoleEnv.t) (old_x x x_dot : R) :
  x < AdaptedCartPoleEnv.x_threshold self ->
  AdaptedCartPoleEnv.bounce self old_x x x_dot = x_dot.
Proof.
  intros Hx. unfold AdaptedCartPoleEnv.bounce, AdaptedCartPoleEnv._is_in_range.
  replace (Py.le (AdaptedCartPoleEnv.x_threshold self) x) with false
    by (symmetry; apply le_false; exact Hx).
  reflexivity.
Qed.

Lemma near_start_not_done (self : AdaptedCartPoleEnv.t) (k : R) (s : State) :
  AdaptedCartPoleEnv.configured self ->
  0 <= k <= 10 -> near_start k s ->
  AdaptedCartPoleEnv.is_done self (st_x s) (st_theta s) = false.
Proof.
  intros Hc Hk (Hx & _ & Hth & _). unfold_configured Hc.
  pose proof PI2_3_2 as Hpi.
  unfold AdaptedCartPoleEnv.is_done, Py.fabs.
  cbn [AdaptedCartPoleEnv.set_steps_beyond_done AdaptedCartPoleEnv.set_state
       AdaptedCartPoleEnv.__init__ AdaptedCartPoleEnv.x_threshold].
  apply orb_false_intro; apply gt_false; nra.
Qed.

Lemma near_start_sub_step (self : AdaptedCartPoleEnv.t) (force k : R)
  (s : State) :
  AdaptedCartPoleEnv.configured self ->
  -10 <= force <= 10 -> 0 <= k <= 9 -> near_start k s ->
  exists s1,
    AdaptedCartPoleEnv.sub_step self force
      (AdaptedCartPoleEnv.time_step self / 10) s = Py.Ok s1
    /\ near_start (k + 1) s1.
Proof.
  intros Hc Hf Hk (Hx & Hxd & Hth & Hthd).
  apply Rabs_le_iff in Hx, Hxd, Hth, Hthd.
  pose proof PI2_3_2 as Hpi.
  destruct (AdaptedCartPoleEnv_accelerations_bounded self force
              (st_theta s) (st_theta_dot s) Hc Hf ltac:(lra))
    as [Hacc_th Hacc_x].
  destruct (AdaptedCartPoleEnv_sub_step_ok self force
              (AdaptedCartPoleEnv.time_step self / 10) s Hc)
    as (s1 & E1 & Hx1 & Hth1 & Hxd1 & Hthd1).
  exists s1. split; [exact E1 | ].
  set (xacc := spec_xacc _ _ _ _ _ _ _ _) in *.
  set (thetaacc := spec_thetaacc _ _ _ _ _ _ _ _) in *.
  assert (Hdt : AdaptedCartPoleEnv.time_step self / 10 = 0.01)
    by (unfold_configured Hc; cbn; lra).
  assert (Hthr : AdaptedCartPoleEnv.x_threshold self = 10)
    by (unfold_configured Hc; reflexivity).
  rewrite Hdt in *.
  assert (Bx1 : - (0.00125 * (k + 1) ^ 2) <= st_x s1 <= 0.00125 * (k + 1) ^ 2)
    by (rewrite Hx1; nra).
  rewrite AdaptedCartPoleEnv_bounce_left_of_threshold in Hxd1
    by (rewrite Hthr; nra).
  rewrite clamp_inside in Hxd1 by lra.
  rewrite clamp_inside in Hthd1 by lra.
  rewrite wrap_down_id in Hth1 by nra.
  rewrite wrap_up_id in Hth1 by nra.
  unfold near_start. repeat split; apply Rabs_le_iff.
  - exact Bx1.
  - rewrite Hxd1. lra.
  - rewrite Hth1. nra.
  - rewrite Hthd1. lra.
Qed.

Lemma near_start_sub_steps (self : AdaptedCartPoleEnv.t) (force : R)
  (n : nat) :
  AdaptedCartPoleEnv.configured self ->
  -10 <= force <= 10 ->
  forall (k : R) (s : State),
    0 <= k -> k + INR n <= 10 -> near_start k s ->
    exists s',
      AdaptedCartPoleEnv.sub_steps self force
        (AdaptedCartPoleEnv.time_step self / 10) n s = Py.Ok s'
      /\ near_start (k + INR n) s'.
Proof.
  intros Hc Hf. induction n as [| m IH]; intros k s Hk Hn Hs.
  - exists s. split; [reflexivity | ].
    cbn [INR]. rewrite Rplus_0_r. exact Hs.
  - rewrite S_INR in *. pose proof (pos_INR m) as Hm.
    destruct (near_start_sub_step self force k s Hc Hf ltac:(lra) Hs)
      as (s1 & E1 & Hs1).
    assert (Hd : AdaptedCartPoleEnv.is_done self (st_x s1) (st_theta s1)
                 = false)
      by (apply (near_start_not_done self (k + 1)); [exact Hc | lra | exact Hs1]).
    destruct (IH (k + 1) s1 ltac:(lra) ltac:(lra) Hs1) as (s' & E' & Hs').
    exists s'. split.
    + cbn [AdaptedCartPoleEnv.sub_steps]. rewrite E1. cbn [Py.bind].
      destruct s1 as [[[x1 xd1] th1] thd1]. cbn [st_x st_theta] in Hd.
      rewrite Hd. exact E'.
    + replace (k + (INR m + 1)) with (k + 1 + INR m) by lra. exact Hs'.
Qed.

(** The first call after [_reset]: the ten sub-steps all run and the
    episode goes on. *)
Lemma AdaptedCartPoleEnv_first_step_not_done (action : Z) :
  (action = 0 \/ action = 1)%Z ->
  let self := fst (AdaptedCartPoleEnv._reset AdaptedCartPoleEnv.__init__) in
  exists self' r,
    AdaptedCartPoleEnv._step self action = Py.Ok (self', r)
    /\ done r = false
    /\ near_start 10 (obs r).
Proof.
  intros Ha self.
  assert (Hc : AdaptedCartPoleEnv.configured self)
    by (exists (Some (0, 0, -0.15, 0)), None; reflexivity).
  destruct (AdaptedCartPoleEnv_step_spec self action _ Hc eq_refl Ha)
    as (self' & r & E & Eloop & _ & _ & Ed & _).
  assert (Hf : -10 <= spec_force (AdaptedCartPoleEnv.force_mag self) action
               <= 10).
  { destruct Ha as [-> | ->]; cbn; lra. }
  assert (H0 : near_start 0 (0, 0, -0.15, 0)).
  { unfold near_start. cbn [st_x st_x_dot st_theta st_theta_dot].
    rewrite Rabs_R0, Rabs_left by lra. lra. }
  destruct (near_start_sub_steps self _ 10 Hc Hf 0 _ ltac:(lra)
              ltac:(cbn; lra) H0) as (s' & E' & Hs').
  rewrite E' in Eloop. injection Eloop as Ho.
  replace (0 + INR 10) with 10 in Hs' by (cbn; lra).
  exists self', r. split; [exact E | ]. rewrite <- Ho. split; [ | exact Hs'].
  rewrite Ed, <- Ho. apply (near_start_not_done self 10); [exact Hc | lra | exact Hs'].
Qed.

(** ** C9 *)

(** A call that returns was given an action in {0,1} and found a state. *)
Lemma AdaptedCartPoleEnv_step_inv (self self' : AdaptedCartPoleEnv.t)
  (action : Z) (r : StepReturn) :
  AdaptedCartPoleEnv.configured self ->
  AdaptedCartPoleEnv._step self action = Py.Ok (self', r) ->
  (action = 0 \/ action = 1)%Z
  /\ exists s, AdaptedCartPoleEnv.state self = Some s.
Proof.
  intros Hc E. unfold AdaptedCartPoleEnv._step in E.
  destruct (spaces.contains (AdaptedCartPoleEnv.action_space self) action)
    eqn:Ein; cbn [negb] in E; [ | discriminate].
  destruct (AdaptedCartPoleEnv.state self) as [s |]; [ | discriminate].
  split; [apply (AdaptedCartPoleEnv_contains self action Hc); exact Ein | ].
  exists s. reflexivity.
Qed.

(** C9.  Every call of [AdaptedCartPoleEnv._step] that returns
    [done = False] returns the reward [0.2 PI - |theta|] for the angle of
    the returned state, a value between 0 and [0.2 PI].  The step on
    which the termination is first recorded is paid by the same formula,
    unclamped, and for some state and action that reward is strictly
    negative. *)
Theorem AdaptedCartPoleEnv_reward :
  (forall (self self' : AdaptedCartPoleEnv.t) (action : Z) (r : StepReturn),
      AdaptedCartPoleEnv.configured self ->
      AdaptedCartPoleEnv._step self action = Py.Ok (self', r) ->
      done r = false ->
      reward r = 0.2 * PI - Rabs (st_theta (obs r))
      /\ 0 <= reward r <= 0.2 * PI)
  /\
  (forall (self self' : AdaptedCartPoleEnv.t) (action : Z) (r : StepReturn),
      AdaptedCartPoleEnv.configured self ->
      AdaptedCartPoleEnv.steps_beyond_done self = None ->
      AdaptedCartPoleEnv._step self action = Py.Ok (self', r) ->
      done r = true ->
      reward r = 0.2 * PI - Rabs (st_theta (obs r)))
  /\
  (exists (s : State) (action : Z) (self' : AdaptedCartPoleEnv.t)
          (r : StepReturn),
      (action = 0 \/ action = 1)%Z
      /\ AdaptedCartPoleEnv._step
           (AdaptedCartPoleEnv.set_state AdaptedCartPoleEnv.__init__ (Some s))
           action = Py.Ok (self', r)
      /\ done r = true
      /\ AdaptedCartPoleEnv.steps_beyond_done self' = Some 0%Z
      /\ reward r < 0).
Proof.
  split; [ | split].
  - intros self self' action r Hc E Hd.
    destruct (AdaptedCartPoleEnv_step_inv _ _ _ _ Hc E) as [Ha [s Hs]].
    destruct (AdaptedCartPoleEnv_step_spec self action s Hc Hs Ha)
      as (self2 & r2 & E2 & _ & _ & _ & Ed & _ & Hact & _).
    rewrite E in E2. injection E2 as <- <-.
    destruct (Hact Hd) as (Hr & _). split; [exact Hr | ].
    rewrite Hr. rewrite Hd in Ed. symmetry in Ed.
    unfold AdaptedCartPoleEnv.is_done in Ed.
    apply orb_false_elim in Ed. destruct Ed as [_ Hth].
    apply gt_false in Hth. unfold Py.fabs in Hth.
    pose proof (Rabs_pos (st_theta (obs r))). lra.
  - intros self self' action r Hc Hn E Hd.
    destruct (AdaptedCartPoleEnv_step_inv _ _ _ _ Hc E) as [Ha [s Hs]].
    destruct (AdaptedCartPoleEnv_step_spec self action s Hc Hs Ha)
      as (self2 & r2 & E2 & _ & _ & _ & _ & _ & _ & Hfirst & _).
    rewrite E in E2. injection E2 as <- <-.
    destruct (Hfirst Hd Hn) as (Hr & _). exact Hr.
  - set (self := AdaptedCartPoleEnv.set_state AdaptedCartPoleEnv.__init__
                   (Some (0, 0, 1, 0))).
    assert (Hc : AdaptedCartPoleEnv.configured self)
      by (exists (Some (0, 0, 1, 0)), None; reflexivity).
    assert (Ha : (1 = 0 \/ 1 = 1)%Z) by (right; reflexivity).
    pose proof PI2_1 as Hpi1. pose proof PI_4 as Hpi4.
    destruct (AdaptedCartPoleEnv_sub_step_ok self
                (spec_force (AdaptedCartPoleEnv.force_mag self) 1)
                (AdaptedCartPoleEnv.time_step self / 10) (0, 0, 1, 0) Hc)
      as (s1 & E1 & _ & Hth & _).
    cbn [st_theta st_theta_dot] in Hth.
    replace (1 + AdaptedCartPoleEnv.time_step self / 10 * 0) with 1
      in Hth by lra.
    rewrite wrap_down_id in Hth by lra. rewrite wrap_up_id in Hth by lra.
    assert (Hd1 : AdaptedCartPoleEnv.is_done self (st_x s1) (st_theta s1)
                  = true).
    { unfold AdaptedCartPoleEnv.is_done. rewrite Hth.
      replace (Py.gt (Py.fabs 1) (0.2 * PI)) with true;
        [apply orb_true_r | ].
      symmetry. apply gt_true. unfold Py.fabs. rewrite Rabs_R1. lra. }
    destruct (AdaptedCartPoleEnv_step_first_break self 1 _ s1 Hc eq_refl Ha
                E1 Hd1) as (self' & r & E & Ho & Hd & Hfirst).
    destruct (Hfirst eq_refl) as [Hr Hsbd].
    exists (0, 0, 1, 0), 1%Z, self', r.
    repeat (split; [assumption | ]).
    rewrite Hr, Hth, Rabs_R1. lra.
Qed.

(** The first call after [_reset], pushing to the right: the episode
    goes on and the reward lies between 0 and [0.2 PI]. *)
Lemma AdaptedCartPoleEnv_reward_witness :
  let self := fst (AdaptedCartPoleEnv._reset AdaptedCartPoleEnv.__init__) in
  AdaptedCartPoleEnv.configured self
  /\ exists self' r,
       AdaptedCartPoleEnv._step self 1 = Py.Ok (self', r)
       /\ done r = false
       /\ reward r = 0.2 * PI - Rabs (st_theta (obs r))
       /\ 0 <= reward r <= 0.2 * PI.
Proof.
  intros self.
  assert (Hc : AdaptedCartPoleEnv.configured self)
    by (exists (Some (0, 0, -0.15, 0)), None; reflexivity).
  split; [exact Hc | ].
  destruct (AdaptedCartPoleEnv_first_step_not_done 1 (or_intror eq_refl))
    as (self' & r & E & Hd & _).
  exists self', r. split; [exact E | ]. split; [exact Hd | ].
  exact (proj1 AdaptedCartPoleEnv_reward self self' 1%Z r Hc E Hd).
Defined.

(** ** C10 *)

(** The velocity after the bounce rule, by whether the rule fires. *)
Lemma AdaptedCartPoleEnv_bounce_unfold (self : AdaptedCartPoleEnv.t)
  (old_x x x_dot : R) :
  AdaptedCartPoleEnv.bounce self old_x x x_dot
  = if AdaptedCartPoleEnv.bounce_fires self old_x x then
      if Py.gt x (AdaptedCartPoleEnv.x_threshold self)
      then - Py.fabs (x_dot * AdaptedCartPoleEnv.restitution self)
      else if Py.lt x (- AdaptedCartPoleEnv.x_threshold self)
           then Py.fabs (x_dot * AdaptedCartPoleEnv.restitution self)
           else x_dot * AdaptedCartPoleEnv.restitution self
    else x_dot.
Proof. reflexivity. Qed.

(** As long as no sub-step has ended in a terminal state, the loop goes
    on from where it stands. *)
Lemma AdaptedCartPoleEnv_sub_steps_app (self : AdaptedCartPoleEnv.t)
  (force simu_time : R) (j m : nat) :
  forall s s_j,
    AdaptedCartPoleEnv.sub_steps self force simu_time j s = Py.Ok s_j ->
    j = 0%nat
    \/ AdaptedCartPoleEnv.is_done self (st_x s_j) (st_theta s_j) = false ->
    AdaptedCartPoleEnv.sub_steps self force simu_time (j + m) s
    = AdaptedCartPoleEnv.sub_steps self force simu_time m s_j.
Proof.
  induction j as [| k IH]; intros s s_j Ej Hrun.
  - injection Ej as <-. reflexivity.
  - destruct Hrun as [Hz | Hnd]; [discriminate | ].
    cbn [AdaptedCartPoleEnv.sub_steps Nat.add] in *.
    destruct (AdaptedCartPoleEnv.sub_step self force simu_time s)
      as [s1 | e]; cbn [Py.bind] in *; [ | discriminate].
    destruct s1 as [[[x1 xd1] th1] thd1].
    destruct (AdaptedCartPoleEnv.is_done self x1 th1) eqn:Ed.
    + injection Ej as <-. cbn [st_x st_theta] in Hnd. congruence.
    + apply IH; [exact Ej | right; exact Hnd].
Qed.

(** C10.  In [AdaptedCartPoleEnv._step] a bounce never prevents the
    termination.  Take any sub-step the loop reaches, the [j]-th with
    [j < 10], in which the bounce rule fires and the updated [x] is
    strictly beyond [x_threshold]: the velocity is scaled by the
    restitution and turned towards the centre, the termination test at
    the end of that sub-step is true, the loop stops there, and [_step]
    returns that sub-step's state with [done = True]. *)
Theorem AdaptedCartPoleEnv_bounce_still_terminates
  (self : AdaptedCartPoleEnv.t) (action : Z) (s s_j s_j1 : State) (j : nat) :
  let force := spec_force (AdaptedCartPoleEnv.force_mag self) action in
  let simu_time := AdaptedCartPoleEnv.time_step self / 10 in
  AdaptedCartPoleEnv.configured self ->
  AdaptedCartPoleEnv.state self = Some s ->
  (action = 0 \/ action = 1)%Z ->
  (j < 10)%nat ->
  AdaptedCartPoleEnv.sub_steps self force simu_time j s = Py.Ok s_j ->
  (j = 0%nat
   \/ AdaptedCartPoleEnv.is_done self (st_x s_j) (st_theta s_j) = false) ->
  AdaptedCartPoleEnv.sub_step self force simu_time s_j = Py.Ok s_j1 ->
  AdaptedCartPoleEnv.bounce_fires self (st_x s_j) (st_x s_j1) = true ->
  AdaptedCartPoleEnv.x_threshold self < st_x s_j1 ->
  AdaptedCartPoleEnv.is_done self (st_x s_j1) (st_theta s_j1) = true
  /\ st_x_dot s_j1
     = Py.max
         (Py.min
            (- Rabs
                 ((st_x_dot s_j
                   + simu_time
                     * spec_xacc (AdaptedCartPoleEnv.gravity self)
                         (AdaptedCartPoleEnv.masspole self)
                         (AdaptedCartPoleEnv.total_mass self)
                         (AdaptedCartPoleEnv.length self / 2)
                         (AdaptedCartPoleEnv.polemass_length self) force
                         (st_theta s_j) (st_theta_dot s_j))
                  * AdaptedCartPoleEnv.restitution self))
            10)
         (-10)
  /\ st_x_dot s_j1 <= 0
  /\ exists self' r,
       AdaptedCartPoleEnv._step self action = Py.Ok (self', r)
       /\ obs r = s_j1
       /\ done r = true.
Proof.
  intros force simu_time Hc Hs Ha Hj Ej Hrun Estep Hfire Hx.
  assert (Hd : AdaptedCartPoleEnv.is_done self (st_x s_j1) (st_theta s_j1)
               = true).
  { unfold AdaptedCartPoleEnv.is_done.
    replace (Py.gt (Py.fabs (st_x s_j1)) (AdaptedCartPoleEnv.x_threshold self))
      with true; [reflexivity | ].
    symmetry. apply gt_true. unfold Py.fabs.
    pose proof (Rle_abs (st_x s_j1)). lra. }
  destruct (AdaptedCartPoleEnv_sub_step_ok self force simu_time s_j Hc)
    as (s1 & E1 & _ & _ & Hxd & _).
  rewrite Estep in E1. injection E1 as <-.
  rewrite AdaptedCartPoleEnv_bounce_unfold, Hfire in Hxd.
  replace (Py.gt (st_x s_j1) (AdaptedCartPoleEnv.x_threshold self))
    with true in Hxd by (symmetry; apply gt_true; lra).
  unfold Py.fabs in Hxd.
  split; [exact Hd | ]. split; [exact Hxd | ]. split.
  { rewrite Hxd.
    set (w := Rabs _). pose proof (Rabs_pos
      ((st_x_dot s_j
        + simu_time
          * spec_xacc (AdaptedCartPoleEnv.gravity self)
              (AdaptedCartPoleEnv.masspole self)
              (AdaptedCartPoleEnv.total_mass self)
              (AdaptedCartPoleEnv.length self / 2)
              (AdaptedCartPoleEnv.polemass_length self) force
              (st_theta s_j) (st_theta_dot s_j))
       * AdaptedCartPoleEnv.restitution self)) as Hw.
    fold w in Hw.
    unfold Py.max, Py.min, Py.lt, Py.gt.
    destruct (Rlt_dec 10 (- w)); destruct (Rgt_dec (-10) _); lra. }
  destruct (AdaptedCartPoleEnv_step_spec self action s Hc Hs Ha)
    as (self' & r & E & Eloop & _ & _ & Ed & _).
  fold force simu_time in Eloop.
  replace 10%nat with (j + S (9 - j))%nat in Eloop by lia.
  rewrite (AdaptedCartPoleEnv_sub_steps_app _ _ _ _ _ _ _ Ej Hrun) in Eloop.
  rewrite (AdaptedCartPoleEnv_sub_steps_break _ _ _ _ _ _ Estep Hd) in Eloop.
  injection Eloop as Ho.
  exists self', r. split; [exact E | ]. split; [auto | ].
  rewrite Ed, <- Ho. exact Hd.
Qed.

(** What [_is_in_range] tests when [min_value <= max_value]: whether the
    value is at or above [max_value]. *)
Lemma AdaptedCartPoleEnv_is_in_range_threshold (value min_value max_value : R) :
  min_value <= max_value ->
  AdaptedCartPoleEnv._is_in_range value min_value max_value
  = Py.le max_value value.
Proof.
  intros Hmm. unfold AdaptedCartPoleEnv._is_in_range.
  destruct (Py.le max_value value) eqn:E; [ | reflexivity].
  apply le_true in E. cbn [andb]. apply ge_true. lra.
Qed.

(** The cart 0.05 short of the right threshold, moving right at full
    speed and pushed to the right: the first sub-step crosses the
    threshold, bounces, and ends the episode. *)
Lemma AdaptedCartPoleEnv_bounce_still_terminates_witness :
  let self :=
    AdaptedCartPoleEnv.set_state AdaptedCartPoleEnv.__init__
      (Some (9.95, 10, 0, 0)) in
  exists s1 self' r,
    AdaptedCartPoleEnv.sub_step self 10.0 (0.1 / 10) (9.95, 10, 0, 0)
    = Py.Ok s1
    /\ st_x s1 = 10.05
    /\ AdaptedCartPoleEnv.bounce_fires self 9.95 (st_x s1) = true
    /\ st_x_dot s1 = - (0.8 * (10 + 0.01 * (20200 / 1909)))
    /\ AdaptedCartPoleEnv._step self 1 = Py.Ok (self', r)
    /\ obs r = s1
    /\ done r = true.
Proof.
  intros self.
  assert (Hc : AdaptedCartPoleEnv.configured self)
    by (exists (Some (9.95, 10, 0, 0)), None; reflexivity).
  assert (Ha : (1 = 0 \/ 1 = 1)%Z) by (right; reflexivity).
  destruct (AdaptedCartPoleEnv_sub_step_ok self 10.0 (0.1 / 10)
              (9.95, 10, 0, 0) Hc) as (s1 & E1 & Hx1 & _).
  cbn [st_x st_x_dot] in Hx1.
  assert (Hx : st_x s1 = 10.05) by lra.
  assert (Hfire : AdaptedCartPoleEnv.bounce_fires self 9.95 (st_x s1) = true).
  { rewrite Hx.
    unfold AdaptedCartPoleEnv.bounce_fires, AdaptedCartPoleEnv._is_in_range.
    cbn [self AdaptedCartPoleEnv.set_state AdaptedCartPoleEnv.__init__
         AdaptedCartPoleEnv.x_threshold].
    replace (Py.le 10 10.05) with true by (symmetry; apply le_true; lra).
    replace (Py.ge 10.05 (- (10))) with true
      by (symmetry; apply ge_true; lra).
    replace (Py.le 10 9.95) with false by (symmetry; apply le_false; lra).
    reflexivity. }
  destruct (AdaptedCartPoleEnv_bounce_still_terminates self 1 (9.95, 10, 0, 0)
              (9.95, 10, 0, 0) s1 0 Hc eq_refl Ha ltac:(lia) eq_refl
              (or_introl eq_refl) E1 Hfire)
    as (_ & Hxd & _ & self' & r & E & Ho & Hd).
  { rewrite Hx. cbn. lra. }
  exists s1, self', r.
  repeat (split; [assumption | ]).
  split; [ | auto].
  rewrite Hxd. unfold spec_xacc, spec_thetaacc, spec_temp.
  cbn [self AdaptedCartPoleEnv.set_state AdaptedCartPoleEnv.__init__
       AdaptedCartPoleEnv.gravity AdaptedCartPoleEnv.masspole
       AdaptedCartPoleEnv.total_mass AdaptedCartPoleEnv.length
       AdaptedCartPoleEnv.polemass_length AdaptedCartPoleEnv.force_mag
       AdaptedCartPoleEnv.time_step AdaptedCartPoleEnv.restitution
       spec_force st_x_dot st_theta st_theta_dot].
  rewrite sin_0, cos_0.
  match goal with
  | |- context [Rabs ?e] =>
    replace e with (0.8 * (10 + 0.01 * (20200 / 1909))) by lra
  end.
  rewrite Rabs_right by lra.
  apply clamp_inside. lra.
Defined.

(** ** C3 *)

(** C3 at the left wall.  The cart 0.05 short of the left threshold,
    moving left at full speed and pushed to the left: the first sub-step
    carries [x] from inside the band to [-10.05], outside it; the bounce
    rule does not fire, and [_step] returns the velocity [-10], neither
    scaled by the restitution nor turned back towards the centre. *)
Theorem AdaptedCartPoleEnv_no_bounce_at_left_wall :
  let self :=
    AdaptedCartPoleEnv.set_state AdaptedCartPoleEnv.__init__
      (Some (-9.95, -10, 0, 0)) in
  AdaptedCartPoleEnv._is_in_range (-9.95) (-10) 10 = false
  /\ AdaptedCartPoleEnv.bounce_fires self (-9.95) (-10.05) = false
  /\ exists self' r,
       AdaptedCartPoleEnv._step self 0 = Py.Ok (self', r)
       /\ st_x (obs r) = -10.05
       /\ st_x_dot (obs r) = -10
       /\ done r = true.
Proof.
  intros self.
  assert (Hc : AdaptedCartPoleEnv.configured self)
    by (exists (Some (-9.95, -10, 0, 0)), None; reflexivity).
  assert (Ha : (0 = 0 \/ 0 = 1)%Z) by (left; reflexivity).
  assert (Hnf : forall a b, a < 10 -> Py.le 10 a && b = false).
  { intros a b Hlt.
    replace (Py.le 10 a) with false by (symmetry; apply le_false; lra).
    reflexivity. }
  split; [apply Hnf; lra | ].
  split.
  { unfold AdaptedCartPoleEnv.bounce_fires, AdaptedCartPoleEnv._is_in_range.
    cbn [self AdaptedCartPoleEnv.set_state AdaptedCartPoleEnv.__init__
         AdaptedCartPoleEnv.x_threshold].
    rewrite Hnf by lra. reflexivity. }
  destruct (AdaptedCartPoleEnv_sub_step_ok self
              (spec_force (AdaptedCartPoleEnv.force_mag self) 0)
              (AdaptedCartPoleEnv.time_step self / 10) (-9.95, -10, 0, 0) Hc)
    as (s1 & E1 & Hx1 & _ & Hxd & _).
  cbn [st_x st_x_dot st_theta st_theta_dot self
       AdaptedCartPoleEnv.set_state AdaptedCartPoleEnv.__init__
       AdaptedCartPoleEnv.time_step] in Hx1.
  assert (Hx : st_x s1 = -10.05) by lra.
  rewrite AdaptedCartPoleEnv_bounce_left_of_threshold in Hxd
    by (rewrite Hx; cbn; lra).
  unfold spec_xacc, spec_thetaacc, spec_temp in Hxd.
  cbn [self AdaptedCartPoleEnv.set_state AdaptedCartPoleEnv.__init__
       AdaptedCartPoleEnv.gravity AdaptedCartPoleEnv.masspole
       AdaptedCartPoleEnv.total_mass AdaptedCartPoleEnv.length
       AdaptedCartPoleEnv.polemass_length AdaptedCartPoleEnv.force_mag
       AdaptedCartPoleEnv.time_step spec_force
       st_x_dot st_theta st_theta_dot] in Hxd.
  rewrite sin_0, cos_0 in Hxd.
  rewrite clamp_below in Hxd by lra.
  assert (Hd1 : AdaptedCartPoleEnv.is_done self (st_x s1) (st_theta s1) = true).
  { unfold AdaptedCartPoleEnv.is_done. rewrite Hx.
    replace (Py.gt (Py.fabs (-10.05)) (AdaptedCartPoleEnv.x_threshold self))
      with true; [reflexivity | ].
    symmetry. apply gt_true. unfold Py.fabs. rewrite Rabs_left; cbn; lra. }
  destruct (AdaptedCartPoleEnv_step_first_break self 0 _ s1 Hc eq_refl Ha E1 Hd1)
    as (self' & r & E & Ho & Hd & _).
  exists self', r. rewrite Ho. auto.
Qed.

(** * Further properties of the module *)

(** ** The bounce rule *)

(** X1.  What the bounce rule of [AdaptedCartPoleEnv._step] does to the
    velocity, for a threshold that is not negative.  It fires only when
    the cart comes from the left of the right threshold and lands on it
    or beyond.  Beyond it, the velocity is scaled by the restitution and
    made negative; exactly on it, the velocity is scaled and keeps its
    sign; in every other case, the left wall included, the velocity is
    left as it is. *)
Theorem AdaptedCartPoleEnv_bounce_cases
  (self : AdaptedCartPoleEnv.t) (old_x x x_dot : R) :
  0 <= AdaptedCartPoleEnv.x_threshold self ->
  (old_x < AdaptedCartPoleEnv.x_threshold self ->
   AdaptedCartPoleEnv.x_threshold self < x ->
   AdaptedCartPoleEnv.bounce self old_x x x_dot
   = - Rabs (x_dot * AdaptedCartPoleEnv.restitution self))
  /\ (old_x < AdaptedCartPoleEnv.x_threshold self ->
      x = AdaptedCartPoleEnv.x_threshold self ->
      AdaptedCartPoleEnv.bounce self old_x x x_dot
      = x_dot * AdaptedCartPoleEnv.restitution self)
  /\ (x < AdaptedCartPoleEnv.x_threshold self
      \/ AdaptedCartPoleEnv.x_threshold self <= old_x ->
      AdaptedCartPoleEnv.bounce self old_x x x_dot = x_dot).
Proof.
  intros Hth.
  assert (Hr : forall v,
             AdaptedCartPoleEnv._is_in_range v
               (- AdaptedCartPoleEnv.x_threshold self)
               (AdaptedCartPoleEnv.x_threshold self)
             = Py.le (AdaptedCartPoleEnv.x_threshold self) v).
  { intros v. apply AdaptedCartPoleEnv_is_in_range_threshold. lra. }
  rewrite AdaptedCartPoleEnv_bounce_unfold.
  unfold AdaptedCartPoleEnv.bounce_fires. rewrite !Hr. unfold Py.fabs.
  split; [ | split].
  - intros Ho Hx.
    replace (Py.le (AdaptedCartPoleEnv.x_threshold self) x) with true
      by (symmetry; apply le_true; lra).
    replace (Py.le (AdaptedCartPoleEnv.x_threshold self) old_x) with false
      by (symmetry; apply le_false; lra).
    replace (Py.gt x (AdaptedCartPoleEnv.x_threshold self)) with true
      by (symmetry; apply gt_true; lra).
    reflexivity.
  - intros Ho Hx.
    replace (Py.le (AdaptedCartPoleEnv.x_threshold self) x) with true
      by (symmetry; apply le_true; lra).
    replace (Py.le (AdaptedCartPoleEnv.x_threshold self) old_x) with false
      by (symmetry; apply le_false; lra).
    replace (Py.gt x (AdaptedCartPoleEnv.x_threshold self)) with false
      by (symmetry; apply gt_false; lra).
    replace (Py.lt x (- AdaptedCartPoleEnv.x_threshold self)) with false
      by (symmetry; apply lt_false; lra).
    reflexivity.
  - intros [Hx | Ho].
    + replace (Py.le (AdaptedCartPoleEnv.x_threshold self) x) with false
        by (symmetry; apply le_false; lra).
      reflexivity.
    + replace (Py.le (AdaptedCartPoleEnv.x_threshold self) old_x) with true
        by (symmetry; apply le_true; lra).
      rewrite andb_false_r. reflexivity.
Qed.

(** The three cases at the walls of the configured track. *)
Lemma AdaptedCartPoleEnv_bounce_cases_witness :
  let self := AdaptedCartPoleEnv.__init__ in
  0 <= AdaptedCartPoleEnv.x_threshold self
  /\ AdaptedCartPoleEnv.bounce self 9.95 10.05 5 = - 4
  /\ AdaptedCartPoleEnv.bounce self 9.95 10 5 = 4
  /\ AdaptedCartPoleEnv.bounce self (-9.95) (-10.05) (-5) = -5.
Proof.
  intros self.
  assert (Hth : 0 <= AdaptedCartPoleEnv.x_threshold self) by (cbn; lra).
  split; [exact Hth | ].
  destruct (AdaptedCartPoleEnv_bounce_cases self 9.95 10.05 5 Hth)
    as (H1 & _ & _).
  destruct (AdaptedCartPoleEnv_bounce_cases self 9.95 10 5 Hth)
    as (_ & H2 & _).
  destruct (AdaptedCartPoleEnv_bounce_cases self (-9.95) (-10.05) (-5) Hth)
    as (_ & _ & H3).
  split; [ | split].
  - rewrite H1 by (cbn; lra). cbn [self AdaptedCartPoleEnv.__init__
      AdaptedCartPoleEnv.restitution].
    rewrite Rabs_right by lra. lra.
  - rewrite H2 by (cbn; lra). cbn. lra.
  - apply H3. left. cbn. lra.
Defined.

(** ** The two loops on the angle *)

Lemma wrap_down_turns (theta : R) :
  exists k : Z, wrap_down theta = theta + 2 * PI * IZR k.
Proof.
  funelim (wrap_down theta).
  - destruct H as [k Hk]. exists (k - 1)%Z.
    rewrite Hk, minus_IZR. lra.
  - exists 0%Z. lra.
Qed.

Lemma wrap_up_turns (theta : R) :
  exists k : Z, wrap_up theta = theta + 2 * PI * IZR k.
Proof.
  funelim (wrap_up theta).
  - destruct H as [k Hk]. exists (k + 1)%Z.
    rewrite Hk, plus_IZR. lra.
  - exists 0%Z. lra.
Qed.

(** X2.  The two [while] loops of [AdaptedCartPoleEnv._step] change the
    angle by a whole number of turns and leave it in [-PI, PI): their
    result is the one angle of that interval that differs from the
    original by a multiple of [2 PI].  An angle already in [-PI, PI) is
    left as it is. *)
Theorem wrap_is_angle_modulo_turn (theta : R) :
  (exists k : Z,
      wrap_up (wrap_down theta) = theta + 2 * PI * IZR k)
  /\ - PI <= wrap_up (wrap_down theta) < PI
  /\ (forall (theta' : R) (k' : Z),
         - PI <= theta' < PI -> theta' = theta + 2 * PI * IZR k' ->
         theta' = wrap_up (wrap_down theta))
  /\ (- PI <= theta < PI -> wrap_up (wrap_down theta) = theta).
Proof.
  pose proof PI_RGT_0 as Hpi.
  destruct (wrap_down_turns theta) as [k1 H1].
  destruct (wrap_up_turns (wrap_down theta)) as [k2 H2].
  assert (Hk : wrap_up (wrap_down theta) = theta + 2 * PI * IZR (k1 + k2)).
  { rewrite H2, H1, plus_IZR. lra. }
  pose proof (wrap_range theta) as Hrange.
  split; [exists (k1 + k2)%Z; exact Hk | ].
  split; [exact Hrange | ]. split.
  - intros theta' k' Hr' Hk'.
    set (w := wrap_up (wrap_down theta)) in *.
    assert (Hd : theta' - w = 2 * PI * IZR (k' - (k1 + k2))).
    { rewrite minus_IZR. lra. }
    assert (Hz : (k' - (k1 + k2) = 0)%Z).
    { assert (Hlt : IZR (k' - (k1 + k2)) < 1) by nra.
      assert (Hgt : -1 < IZR (k' - (k1 + k2))) by nra.
      apply lt_IZR in Hlt. apply lt_IZR in Hgt. lia. }
    rewrite Hz in Hd. lra.
  - intros Hr. rewrite wrap_down_id by lra. apply wrap_up_id. lra.
Qed.

(** An angle one turn too far: four radians come back as [4 - 2 PI]. *)
Lemma wrap_is_angle_modulo_turn_witness :
  wrap_up (wrap_down 4) = 4 - 2 * PI.
Proof.
  pose proof PI_4 as H4. pose proof PI2_3_2 as H3.
  destruct (wrap_is_angle_modulo_turn 4) as (_ & _ & Huniq & _).
  symmetry. apply (Huniq (4 - 2 * PI) (-1)%Z); lra.
Defined.

(** ** The sub-steps and the time they cover *)



(** ** What every call of [AdaptedCartPoleEnv._step] returns *)

(** The state left by a loop of at least one sub-step is the result of a
    sub-step. *)
Lemma AdaptedCartPoleEnv_sub_steps_last (self : AdaptedCartPoleEnv.t)
  (force simu_time : R) (n : nat) :
  forall s s',
    AdaptedCartPoleEnv.sub_steps self force simu_time (S n) s = Py.Ok s' ->
    exists s0, AdaptedCartPoleEnv.sub_step self force simu_time s0 = Py.Ok s'.
Proof.
  induction n as [| k IH]; intros s s' E;
    cbn [AdaptedCartPoleEnv.sub_steps] in E;
    destruct (AdaptedCartPoleEnv.sub_step self force simu_time s)
      as [s1 | e] eqn:E1; cbn [Py.bind] in E; try discriminate;
    destruct s1 as [[[x1 xd1] th1] thd1];
    destruct (AdaptedCartPoleEnv.is_done self x1 th1);
    try (injection E as <-; exists s; exact E1).
  apply (IH _ _ E).
Qed.

(** X4.  Every state returned by [AdaptedCartPoleEnv._step] has both
    velocities within [-10, 10], whatever the state and the action it
    started from. *)
Theorem AdaptedCartPoleEnv_velocities_clamped
  (self : AdaptedCartPoleEnv.t) (action : Z) (s : State) :
  AdaptedCartPoleEnv.configured self ->
  AdaptedCartPoleEnv.state self = Some s ->
  (action = 0 \/ action = 1)%Z ->
  exists self' r,
    AdaptedCartPoleEnv._step self action = Py.Ok (self', r)
    /\ -10 <= st_x_dot (obs r) <= 10
    /\ -10 <= st_theta_dot (obs r) <= 10.
Proof.
  intros Hc Hs Ha.
  destruct (AdaptedCartPoleEnv_step_spec self action s Hc Hs Ha)
    as (self' & r & E & Eloop & _).
  exists self', r. split; [exact E | ].
  destruct (AdaptedCartPoleEnv_sub_steps_last _ _ _ _ _ _ Eloop)
    as [s0 E0].
  destruct (AdaptedCartPoleEnv_sub_step_ok self
              (spec_force (AdaptedCartPoleEnv.force_mag self) action)
              (AdaptedCartPoleEnv.time_step self / 10) s0 Hc)
    as (s1 & E1 & _ & _ & Hxd & Hthd).
  rewrite E0 in E1. injection E1 as <-.
  rewrite Hxd, Hthd. split; apply clamp_bounds; lra.
Qed.

(** A cart thrown at a speed of 1000 comes back at a speed within 10. *)
Lemma AdaptedCartPoleEnv_velocities_clamped_witness :
  let self :=
    AdaptedCartPoleEnv.set_state AdaptedCartPoleEnv.__init__
      (Some (0, 1000, 0, -1000)) in
  exists self' r,
    AdaptedCartPoleEnv._step self 1 = Py.Ok (self', r)
    /\ -10 <= st_x_dot (obs r) <= 10
    /\ -10 <= st_theta_dot (obs r) <= 10.
Proof.
  intros self.
  apply (AdaptedCartPoleEnv_velocities_clamped self 1 (0, 1000, 0, -1000)).
  - exists (Some (0, 1000, 0, -1000)), None. reflexivity.
  - reflexivity.
  - right. reflexivity.
Defined.

(** While the cart is on the track with a speed within 10, a loop of
    sub-steps leaves it at most 0.1 off the track. *)
Lemma AdaptedCartPoleEnv_sub_steps_overshoot (self : AdaptedCartPoleEnv.t)
  (force : R) (n : nat) :
  AdaptedCartPoleEnv.configured self ->
  forall s s',
    -10 <= st_x s <= 10 -> -10 <= st_x_dot s <= 10 ->
    AdaptedCartPoleEnv.sub_steps self force
      (AdaptedCartPoleEnv.time_step self / 10) n s = Py.Ok s' ->
    -10.1 <= st_x s' <= 10.1 /\ -10 <= st_x_dot s' <= 10.
Proof.
  intros Hc.
  assert (Hdt : AdaptedCartPoleEnv.time_step self / 10 = 0.01)
    by (unfold_configured Hc; cbn; lra).
  assert (Hthr : AdaptedCartPoleEnv.x_threshold self = 10)
    by (unfold_configured Hc; reflexivity).
  induction n as [| k IH]; intros s s' Hx Hxd E.
  - injection E as <-. split; lra.
  - cbn [AdaptedCartPoleEnv.sub_steps] in E.
    destruct (AdaptedCartPoleEnv_sub_step_ok self force
                (AdaptedCartPoleEnv.time_step self / 10) s Hc)
      as (s1 & E1 & Hx1 & _ & Hxd1 & _).
    rewrite E1 in E. cbn [Py.bind] in E.
    assert (Bxd1 : -10 <= st_x_dot s1 <= 10)
      by (rewrite Hxd1; apply clamp_bounds; lra).
    assert (Bx1 : -10.1 <= st_x s1 <= 10.1) by (rewrite Hx1, Hdt; lra).
    destruct s1 as [[[x1 xd1] th1] thd1]. cbn [st_x st_x_dot] in *.
    destruct (AdaptedCartPoleEnv.is_done self x1 th1) eqn:Ed.
    + injection E as <-. cbn [st_x st_x_dot]. split; assumption.
    + unfold AdaptedCartPoleEnv.is_done in Ed.
      apply orb_false_elim in Ed. destruct Ed as [Ex _].
      apply gt_false in Ex. rewrite Hthr in Ex. unfold Py.fabs in Ex.
      apply Rabs_le_iff in Ex.
      apply (IH (x1, xd1, th1, thd1) s'); cbn [st_x st_x_dot]; assumption.
Qed.

(** X5.  A cart of [AdaptedCartPoleEnv] that is on the track, with a
    speed within 10, is never reported more than 0.1 beyond an end of
    the track: [_step] stops at the first sub-step that leaves the track,
    and a sub-step moves the cart by at most 0.1.  The position returned
    stays well within the bound [2 * x_threshold] of the observation
    space, also on the failing step. *)
Theorem AdaptedCartPoleEnv_overshoot_bounded
  (self : AdaptedCartPoleEnv.t) (action : Z) (s : State) :
  AdaptedCartPoleEnv.configured self ->
  AdaptedCartPoleEnv.state self = Some s ->
  (action = 0 \/ action = 1)%Z ->
  Rabs (st_x s) <= AdaptedCartPoleEnv.x_threshold self ->
  Rabs (st_x_dot s) <= 10 ->
  exists self' r,
    AdaptedCartPoleEnv._step self action = Py.Ok (self', r)
    /\ Rabs (st_x (obs r)) <= AdaptedCartPoleEnv.x_threshold self + 0.1
    /\ Rabs (st_x (obs r)) <= AdaptedCartPoleEnv.x_threshold self * 2.
Proof.
  intros Hc Hs Ha Hx Hxd.
  assert (Hthr : AdaptedCartPoleEnv.x_threshold self = 10)
    by (unfold_configured Hc; reflexivity).
  rewrite Hthr in *. apply Rabs_le_iff in Hx, Hxd.
  destruct (AdaptedCartPoleEnv_step_spec self action s Hc Hs Ha)
    as (self' & r & E & Eloop & _).
  exists self', r. split; [exact E | ].
  destruct (AdaptedCartPoleEnv_sub_steps_overshoot self _ _ Hc s (obs r)
              ltac:(lra) ltac:(lra) Eloop) as [Bx _].
  split; apply Rabs_le_iff; lra.
Qed.

(** The cart 0.05 short of the right end, at full speed. *)
Lemma AdaptedCartPoleEnv_overshoot_bounded_witness :
  let self :=
    AdaptedCartPoleEnv.set_state AdaptedCartPoleEnv.__init__
      (Some (9.95, 10, 0, 0)) in
  exists self' r,
    AdaptedCartPoleEnv._step self 1 = Py.Ok (self', r)
    /\ Rabs (st_x (obs r)) <= 10.1.
Proof.
  intros self.
  destruct (AdaptedCartPoleEnv_overshoot_bounded self 1 (9.95, 10, 0, 0))
    as (self' & r & E & Hb & _).
  - exists (Some (9.95, 10, 0, 0)), None. reflexivity.
  - reflexivity.
  - right. reflexivity.
  - cbn [st_x self AdaptedCartPoleEnv.set_state AdaptedCartPoleEnv.__init__
         AdaptedCartPoleEnv.x_threshold].
    rewrite Rabs_right; lra.
  - cbn [st_x_dot]. rewrite Rabs_right; lra.
  - exists self', r. split; [exact E | ].
    cbn [self AdaptedCartPoleEnv.set_state AdaptedCartPoleEnv.__init__
         AdaptedCartPoleEnv.x_threshold] in Hb.
    lra.
Defined.

(** ** The range of the reward *)

(** X6.  The reward of every call.  [CartPoleEnv._step] returns 1.0 or
    0.0, and 1.0 on every call that returns [done = False].
    [AdaptedCartPoleEnv._step] returns a reward between [-0.8 PI] and
    [0.2 PI]. *)
Theorem step_reward_range :
  (forall (self : CartPoleEnv.t) (action : Z) (s : State),
      CartPoleEnv.configured self ->
      CartPoleEnv.state self = Some s ->
      (action = 0 \/ action = 1)%Z ->
      exists self' r,
        CartPoleEnv._step self action = Py.Ok (self', r)
        /\ (reward r = 1 \/ reward r = 0)
        /\ (done r = false -> reward r = 1))
  /\
  (forall (self : AdaptedCartPoleEnv.t) (action : Z) (s : State),
      AdaptedCartPoleEnv.configured self ->
      AdaptedCartPoleEnv.state self = Some s ->
      (action = 0 \/ action = 1)%Z ->
      exists self' r,
        AdaptedCartPoleEnv._step self action = Py.Ok (self', r)
        /\ - (0.8 * PI) <= reward r <= 0.2 * PI).
Proof.
  split.
  - intros self action s Hc Hs Ha.
    destruct (CartPoleEnv_step_spec self action s Hc Hs Ha)
      as (self' & r & E & _ & _ & _ & _ & _ & Hact & Hfirst & Hpost).
    exists self', r. split; [exact E | ]. split.
    + destruct (done r) eqn:Ed.
      * destruct (CartPoleEnv.steps_beyond_done self) as [n |] eqn:En.
        -- right. apply (Hpost eq_refl n eq_refl).
        -- left. apply (Hfirst eq_refl eq_refl).
      * left. apply (Hact eq_refl).
    + intros Hd. apply (Hact Hd).
  - intros self action s Hc Hs Ha.
    destruct (AdaptedCartPoleEnv_step_spec self action s Hc Hs Ha)
      as (self' & r & E & Eloop & _ & _ & _ & _ & Hact & Hfirst & Hpost).
    exists self', r. split; [exact E | ].
    pose proof (AdaptedCartPoleEnv_sub_steps_theta _ _ _ _ _ _ Hc Eloop)
      as Hth.
    pose proof PI_RGT_0 as Hpi.
    assert (Habs : 0 <= Rabs (st_theta (obs r)) <= PI).
    { split; [apply Rabs_pos | apply Rabs_le_iff; lra]. }
    destruct (done r) eqn:Ed.
    + destruct (AdaptedCartPoleEnv.steps_beyond_done self) as [n |] eqn:En.
      * destruct (Hpost eq_refl n eq_refl) as [Hr _]. rewrite Hr. lra.
      * destruct (Hfirst eq_refl eq_refl) as [Hr _]. rewrite Hr. lra.
    + destruct (Hact eq_refl) as [Hr _]. rewrite Hr. lra.
Qed.

(** Both classes, the first call after a reset. *)
Lemma step_reward_range_witness :
  (let self := fst (CartPoleEnv._reset CartPoleEnv.__init__ (0, 0, 0, 0)) in
   exists self' r,
     CartPoleEnv._step self 1 = Py.Ok (self', r)
     /\ (reward r = 1 \/ reward r = 0))
  /\
  (let self := fst (AdaptedCartPoleEnv._reset AdaptedCartPoleEnv.__init__) in
   exists self' r,
     AdaptedCartPoleEnv._step self 1 = Py.Ok (self', r)
     /\ - (0.8 * PI) <= reward r <= 0.2 * PI).
Proof.
  destruct step_reward_range as [HA HB].
  split.
  - intros self.
    destruct (HA self 1%Z (0, 0, 0, 0)) as (self' & r & E & Hr & _).
    + exists (Some (0, 0, 0, 0)), None. reflexivity.
    + reflexivity.
    + right. reflexivity.
    + exists self', r. auto.
  - intros self.
    apply (HB self 1%Z (0, 0, -0.15, 0)).
    + exists (Some (0, 0, -0.15, 0)), None. reflexivity.
    + reflexivity.
    + right. reflexivity.
Defined.

(** ** Where the loop of sub-steps stops *)

Lemma AdaptedCartPoleEnv_sub_steps_stop (self : AdaptedCartPoleEnv.t)
  (force simu_time : R) (n : nat) :
  forall s s',
    AdaptedCartPoleEnv.sub_steps self force simu_time n s = Py.Ok s' ->
    exists j,
      (j <= n)%nat /\ (n = 0%nat \/ 1 <= j)%nat
      /\ sub_step_iter self force simu_time j s = Py.Ok s'
      /\ ((j < n)%nat ->
          AdaptedCartPoleEnv.is_done self (st_x s') (st_theta s') = true)
      /\ (forall i si,
             (0 < i < j)%nat ->
             sub_step_iter self force simu_time i s = Py.Ok si ->
             AdaptedCartPoleEnv.is_done self (st_x si) (st_theta si) = false).
Proof.
  induction n as [| k IH]; intros s s' E.
  - injection E as <-. exists 0%nat.
    repeat split; auto; try lia.
  - cbn [AdaptedCartPoleEnv.sub_steps] in E.
    destruct (AdaptedCartPoleEnv.sub_step self force simu_time s)
      as [s1 | e] eqn:E1; cbn [Py.bind] in E; [ | discriminate].
    destruct s1 as [[[x1 xd1] th1] thd1].
    destruct (AdaptedCartPoleEnv.is_done self x1 th1) eqn:Ed.
    + injection E as <-. exists 1%nat.
      split; [lia | ]. split; [right; lia | ]. split.
      { cbn [sub_step_iter]. rewrite E1. reflexivity. }
      split; [intros _; exact Ed | ]. intros i si Hi. lia.
    + destruct (IH _ _ E) as (j & Hj & _ & Eiter & Hstop & Hrun).
      exists (S j). split; [lia | ]. split; [right; lia | ]. split.
      { cbn [sub_step_iter]. rewrite E1. exact Eiter. }
      split; [intros Hlt; apply Hstop; lia | ].
      intros i si Hi Ei. destruct i as [| i']; [lia | ].
      cbn [sub_step_iter] in Ei. rewrite E1 in Ei. cbn [Py.bind] in Ei.
      destruct i' as [| i''].
      * injection Ei as <-. exact Ed.
      * apply (Hrun (S i'') si); [lia | exact Ei].
Qed.

(** X7.  [AdaptedCartPoleEnv._step] returns the state after the first
    sub-step that ends in a terminal state, or after all ten sub-steps
    if none does: the state returned is [j] sub-steps away from the state
    given, with [j] between 1 and 10, no sub-step before the [j]-th
    ended in a terminal state, and [j] is 10 whenever the call returns
    [done = False]. *)
Theorem AdaptedCartPoleEnv_step_stops_at_first_terminal
  (self : AdaptedCartPoleEnv.t) (action : Z) (s : State) :
  let force := spec_force (AdaptedCartPoleEnv.force_mag self) action in
  let simu_time := AdaptedCartPoleEnv.time_step self / 10 in
  AdaptedCartPoleEnv.configured self ->
  AdaptedCartPoleEnv.state self = Some s ->
  (action = 0 \/ action = 1)%Z ->
  exists self' r j,
    AdaptedCartPoleEnv._step self action = Py.Ok (self', r)
    /\ (1 <= j <= 10)%nat
    /\ sub_step_iter self force simu_time j s = Py.Ok (obs r)
    /\ (forall i si,
           (0 < i < j)%nat ->
           sub_step_iter self force simu_time i s = Py.Ok si ->
           AdaptedCartPoleEnv.is_done self (st_x si) (st_theta si) = false)
    /\ ((j < 10)%nat -> done r = true)
    /\ (done r = false -> j = 10%nat).
Proof.
  intros force simu_time Hc Hs Ha.
  destruct (AdaptedCartPoleEnv_step_spec self action s Hc Hs Ha)
    as (self' & r & E & Eloop & _ & _ & Ed & _).
  fold force simu_time in Eloop.
  destruct (AdaptedCartPoleEnv_sub_steps_stop _ _ _ _ _ _ Eloop)
    as (j & Hj & Hj1 & Eiter & Hstop & Hrun).
  exists self', r, j. split; [exact E | ].
  split; [destruct Hj1; lia | ]. split; [exact Eiter | ].
  split; [exact Hrun | ].
  assert (Hlt : (j < 10)%nat -> done r = true)
    by (intros Hlt; rewrite Ed; apply Hstop; exact Hlt).
  split; [exact Hlt | ].
  intros Hd. destruct (Nat.eq_dec j 10) as [-> | Hne]; [reflexivity | ].
  rewrite Hlt in Hd by lia. discriminate.
Qed.

(** From the start state of [_reset] all ten sub-steps run; from a cart
    about to leave the track only one does. *)
Lemma AdaptedCartPoleEnv_step_stops_at_first_terminal_witness :
  (let self := fst (AdaptedCartPoleEnv._reset AdaptedCartPoleEnv.__init__) in
   exists self' r,
     AdaptedCartPoleEnv._step self 1 = Py.Ok (self', r)
     /\ sub_step_iter self 10.0 (0.1 / 10) 10 (0, 0, -0.15, 0)
        = Py.Ok (obs r))
  /\
  (let self :=
     AdaptedCartPoleEnv.set_state AdaptedCartPoleEnv.__init__
       (Some (9.95, 10, 0, 0)) in
   exists self' r,
     AdaptedCartPoleEnv._step self 1 = Py.Ok (self', r)
     /\ sub_step_iter self 10.0 (0.1 / 10) 1 (9.95, 10, 0, 0)
        = Py.Ok (obs r)).
Proof.
  assert (Ha : (1 = 0 \/ 1 = 1)%Z) by (right; reflexivity).
  split.
  - intros self.
    assert (Hc : AdaptedCartPoleEnv.configured self)
      by (exists (Some (0, 0, -0.15, 0)), None; reflexivity).
    destruct (AdaptedCartPoleEnv_step_stops_at_first_terminal self 1
                (0, 0, -0.15, 0) Hc eq_refl Ha)
      as (self' & r & j & E & _ & Eiter & _ & _ & Hfull).
    destruct (AdaptedCartPoleEnv_first_step_not_done 1 Ha)
      as (self2 & r2 & E2 & Hd & _).
    fold self in E2. rewrite E in E2. injection E2 as <- <-.
    rewrite (Hfull Hd) in Eiter.
    exists self', r. split; [exact E | exact Eiter].
  - intros self.
    assert (Hc : AdaptedCartPoleEnv.configured self)
      by (exists (Some (9.95, 10, 0, 0)), None; reflexivity).
    destruct (AdaptedCartPoleEnv_step_stops_at_first_terminal self 1
                (9.95, 10, 0, 0) Hc eq_refl Ha)
      as (self' & r & j & E & _ & _).
    destruct (AdaptedCartPoleEnv_step_leaves_right self 1 _ Hc eq_refl Ha)
      as (self2 & r2 & E2 & Esub & _).
    { cbn [st_x st_x_dot self AdaptedCartPoleEnv.set_state
           AdaptedCartPoleEnv.__init__ AdaptedCartPoleEnv.time_step].
      lra. }
    rewrite E in E2. injection E2 as <- <-.
    exists self', r. split; [exact E | ].
    cbn [sub_step_iter].
    change (AdaptedCartPoleEnv.sub_step self 10.0 (0.1 / 10) (9.95, 10, 0, 0))
      with (AdaptedCartPoleEnv.sub_step self
              (spec_force (AdaptedCartPoleEnv.force_mag self) 1)
              (AdaptedCartPoleEnv.time_step self / 10) (9.95, 10, 0, 0)).
    rewrite Esub. reflexivity.
Defined.

(** ** Reset *)

(** X8.  [_reset] brings the episode back to its start, whatever came
    before.  It returns the state it stores: the sample drawn for
    [CartPoleEnv], the fixed state (0, 0, -0.15, 0) for
    [AdaptedCartPoleEnv].  The call of [_step] that follows logs no
    warning and is paid the reward of a running episode, also when it is
    terminal, and it leaves the count of steps beyond done at zero if it
    returned [done = True] and unset otherwise. *)
Theorem reset_then_step :
  (forall (self : CartPoleEnv.t) (sample : State) (action : Z),
      CartPoleEnv.configured self ->
      (action = 0 \/ action = 1)%Z ->
      let self1 := fst (CartPoleEnv._reset self sample) in
      snd (CartPoleEnv._reset self sample) = sample
      /\ CartPoleEnv.state self1 = Some sample
      /\ exists self' r,
           CartPoleEnv._step self1 action = Py.Ok (self', r)
           /\ warnings r = []
           /\ reward r = 1
           /\ CartPoleEnv.steps_beyond_done self'
              = (if done r then Some 0%Z else None))
  /\
  (forall (self : AdaptedCartPoleEnv.t) (action : Z),
      AdaptedCartPoleEnv.configured self ->
      (action = 0 \/ action = 1)%Z ->
      let self1 := fst (AdaptedCartPoleEnv._reset self) in
      snd (AdaptedCartPoleEnv._reset self) = (0, 0, -0.15, 0)
      /\ AdaptedCartPoleEnv.state self1 = Some (0, 0, -0.15, 0)
      /\ exists self' r,
           AdaptedCartPoleEnv._step self1 action = Py.Ok (self', r)
           /\ warnings r = []
           /\ reward r = 0.2 * PI - Rabs (st_theta (obs r))
           /\ AdaptedCartPoleEnv.steps_beyond_done self'
              = (if done r then Some 0%Z else None)).
Proof.
  split.
  - intros self sample action Hc Ha self1.
    assert (Hc1 : CartPoleEnv.configured self1)
      by (unfold_configured Hc; exists (Some sample), None; reflexivity).
    split; [reflexivity | ]. split; [reflexivity | ].
    destruct (CartPoleEnv_step_spec self1 action sample Hc1 eq_refl Ha)
      as (self' & r & E & _ & _ & _ & _ & _ & Hact & Hfirst & _).
    exists self', r. split; [exact E | ].
    destruct (done r) eqn:Ed.
    + destruct (Hfirst eq_refl eq_refl) as (Hr & Hw & Hn). auto.
    + destruct (Hact eq_refl) as (Hr & Hw & Hn). auto.
  - intros self action Hc Ha self1.
    assert (Hc1 : AdaptedCartPoleEnv.configured self1)
      by (unfold_configured Hc; exists (Some (0, 0, -0.15, 0)), None;
          reflexivity).
    split; [reflexivity | ]. split; [reflexivity | ].
    destruct (AdaptedCartPoleEnv_step_spec self1 action _ Hc1 eq_refl Ha)
      as (self' & r & E & _ & _ & _ & _ & _ & Hact & Hfirst & _).
    exists self', r. split; [exact E | ].
    destruct (done r) eqn:Ed.
    + destruct (Hfirst eq_refl eq_refl) as (Hr & Hw & Hn). auto.
    + destruct (Hact eq_refl) as (Hr & Hw & Hn). auto.
Qed.

(** Both classes, reset after three steps beyond done, the cart far off
    the track. *)
Lemma reset_then_step_witness :
  (let self :=
     CartPoleEnv.set_steps_beyond_done
       (CartPoleEnv.set_state CartPoleEnv.__init__ (Some (3, 1, 0, 0)))
       (Some 3%Z) in
   exists self' r,
     CartPoleEnv._step (fst (CartPoleEnv._reset self (0.01, 0, 0.02, 0))) 0
     = Py.Ok (self', r)
     /\ warnings r = [] /\ reward r = 1)
  /\
  (let self :=
     AdaptedCartPoleEnv.set_steps_beyond_done
       (AdaptedCartPoleEnv.set_state AdaptedCartPoleEnv.__init__
          (Some (11, 1, 0, 0)))
       (Some 3%Z) in
   exists self' r,
     AdaptedCartPoleEnv._step (fst (AdaptedCartPoleEnv._reset self)) 0
     = Py.Ok (self', r)
     /\ warnings r = []).
Proof.
  destruct reset_then_step as [HA HB].
  assert (Ha : (0 = 0 \/ 0 = 1)%Z) by (left; reflexivity).
  split.
  - intros self.
    assert (Hc : CartPoleEnv.configured self)
      by (exists (Some (3, 1, 0, 0)), (Some 3%Z); reflexivity).
    destruct (HA self (0.01, 0, 0.02, 0) 0%Z Hc Ha)
      as (_ & _ & self' & r & E & Hw & Hr & _).
    exists self', r. auto.
  - intros self.
    assert (Hc : AdaptedCartPoleEnv.configured self)
      by (exists (Some (11, 1, 0, 0)), (Some 3%Z); reflexivity).
    destruct (HB self 0%Z Hc Ha) as (_ & _ & self' & r & E & Hw & _).
    exists self', r. auto.
Defined.

(** ** What a call leaves untouched *)

Lemma CartPoleEnv_set_steps_beyond_done_same (self : CartPoleEnv.t) :
  CartPoleEnv.set_steps_beyond_done self (CartPoleEnv.steps_beyond_done self)
  = self.
Proof. destruct self. reflexivity. Qed.

Lemma AdaptedCartPoleEnv_set_steps_beyond_done_same
  (self : AdaptedCartPoleEnv.t) :
  AdaptedCartPoleEnv.set_steps_beyond_done self
    (AdaptedCartPoleEnv.steps_beyond_done self)
  = self.
Proof. destruct self. reflexivity. Qed.

(** X9.  A call of [_step] that returns changes two attributes of the
    environment and no other: [state], which becomes the observation
    returned, and [steps_beyond_done].  This holds for every environment
    of either class, whatever its constants, and the [info] returned is
    empty. *)
Theorem step_frame :
  (forall (self self' : CartPoleEnv.t) (action : Z) (r : StepReturn),
      CartPoleEnv._step self action = Py.Ok (self', r) ->
      self' = CartPoleEnv.set_steps_beyond_done
                (CartPoleEnv.set_state self (Some (obs r)))
                (CartPoleEnv.steps_beyond_done self')
      /\ info r = [])
  /\
  (forall (self self' : AdaptedCartPoleEnv.t) (action : Z) (r : StepReturn),
      AdaptedCartPoleEnv._step self action = Py.Ok (self', r) ->
      self' = AdaptedCartPoleEnv.set_steps_beyond_done
                (AdaptedCartPoleEnv.set_state self (Some (obs r)))
                (AdaptedCartPoleEnv.steps_beyond_done self')
      /\ info r = []).
Proof.
  split.
  - intros self self' action r E. unfold CartPoleEnv._step in E.
    destruct (spaces.contains (CartPoleEnv.action_space self) action);
      cbn [negb] in E; [ | discriminate].
    destruct (CartPoleEnv.state self) as [[[[x x_dot] theta] theta_dot] |];
      [ | discriminate].
    destruct (CartPoleEnv.accelerations self _ theta theta_dot)
      as [[thetaacc xacc] | e]; cbn [Py.bind] in E; [ | discriminate].
    destruct (CartPoleEnv.is_done _ _ _); cbn [negb] in E.
    + destruct (CartPoleEnv.steps_beyond_done _);
        injection E as <- <-; cbn [obs info]; split; reflexivity.
    + injection E as <- <-. cbn [obs info]. split; [ | reflexivity].
      symmetry. apply CartPoleEnv_set_steps_beyond_done_same.
  - intros self self' action r E. unfold AdaptedCartPoleEnv._step in E.
    destruct (spaces.contains (AdaptedCartPoleEnv.action_space self) action);
      cbn [negb] in E; [ | discriminate].
    destruct (AdaptedCartPoleEnv.state self) as [s |]; [ | discriminate].
    destruct (AdaptedCartPoleEnv.time_step self // _) as [simu_time | e];
      cbn [Py.bind] in E; [ | discriminate].
    destruct (AdaptedCartPoleEnv.sub_steps self _ simu_time _ s)
      as [[[[x x_dot] theta] theta_dot] | e];
      cbn [Py.bind] in E; [ | discriminate].
    destruct (AdaptedCartPoleEnv.is_done _ _ _); cbn [negb] in E.
    + destruct (AdaptedCartPoleEnv.steps_beyond_done _);
        injection E as <- <-; cbn [obs info]; split; reflexivity.
    + injection E as <- <-. cbn [obs info]. split; [ | reflexivity].
      symmetry. apply AdaptedCartPoleEnv_set_steps_beyond_done_same.
Qed.

(** Both classes: the constants after a call are those of [__init__]. *)
Lemma step_frame_witness :
  (exists self' r,
      CartPoleEnv._step
        (CartPoleEnv.set_state CartPoleEnv.__init__ (Some (0, 0, 0, 0))) 1
      = Py.Ok (self', r)
      /\ CartPoleEnv.tau self' = 0.02
      /\ CartPoleEnv.x_threshold self' = 2.4)
  /\
  (exists self' r,
      AdaptedCartPoleEnv._step
        (AdaptedCartPoleEnv.set_state AdaptedCartPoleEnv.__init__
           (Some (0, 0, 0, 0))) 1
      = Py.Ok (self', r)
      /\ AdaptedCartPoleEnv.restitution self' = 0.8
      /\ AdaptedCartPoleEnv.x_threshold self' = 10).
Proof.
  destruct step_frame as [HA HB].
  assert (Ha : (1 = 0 \/ 1 = 1)%Z) by (right; reflexivity).
  split.
  - destruct (CartPoleEnv_step_spec
                (CartPoleEnv.set_state CartPoleEnv.__init__
                   (Some (0, 0, 0, 0))) 1 (0, 0, 0, 0))
      as (self' & r & E & _); [ | reflexivity | exact Ha | ].
    { exists (Some (0, 0, 0, 0)), None. reflexivity. }
    exists self', r. split; [exact E | ].
    destruct (HA _ _ _ _ E) as [-> _]. split; reflexivity.
  - destruct (AdaptedCartPoleEnv_step_spec
                (AdaptedCartPoleEnv.set_state AdaptedCartPoleEnv.__init__
                   (Some (0, 0, 0, 0))) 1 (0, 0, 0, 0))
      as (self' & r & E & _); [ | reflexivity | exact Ha | ].
    { exists (Some (0, 0, 0, 0)), None. reflexivity. }
    exists self', r. split; [exact E | ].
    destruct (HB _ _ _ _ E) as [-> _]. split; reflexivity.
Defined.

(** ** What [steps_beyond_done] counts *)

Section Counting.

Variable E : Type.
Variable step : E -> Z -> Py.result (E * StepReturn).
Variable counter : E -> option Z.
Variable ready : E -> Prop.

Hypothesis step_counter :
  forall self action,
    ready self -> (action = 0 \/ action = 1)%Z ->
    exists self' r,
      step self action = Py.Ok (self', r)
      /\ ready self'
      /\ counter self'
         = (if done r
            then match counter self with
                 | None => Some 0%Z
                 | Some n => Some (n + 1)%Z
                 end
            else counter self).

Lemma run_counter (actions : list Z) :
  forall self,
    ready self ->
    Forall (fun a => a = 0 \/ a = 1)%Z actions ->
    exists self' rs,
      run step self actions = Py.Ok (self', rs)
      /\ List.length rs = List.length actions
      /\ counter self'
         = (if (count_done rs =? 0)%Z then counter self
            else match counter self with
                 | None => Some (count_done rs - 1)%Z
                 | Some n => Some (n + count_done rs)%Z
                 end).
Proof.
  induction actions as [| a rest IH]; intros self Hr Hall.
  - exists self, []. repeat split.
  - inversion Hall as [| a' rest' Ha Hrest]; subst.
    destruct (step_counter self a Hr Ha) as (self1 & r1 & E1 & Hr1 & Hc1).
    destruct (IH self1 Hr1 Hrest) as (self' & rs & Erun & Hlen & Hcnt).
    exists self', (r1 :: rs). split.
    { cbn [run]. rewrite E1. cbn [Py.bind]. rewrite Erun. reflexivity. }
    split; [cbn [List.length]; congruence | ].
    rewrite Hcnt, Hc1. unfold count_done. cbn [filter].
    assert (Hnn : (0 <= Z.of_nat (List.length (filter done rs)))%Z) by lia.
    set (m := Z.of_nat (List.length (filter done rs))) in *.
    destruct (done r1) eqn:Ed.
    + cbn [List.length]. rewrite Nat2Z.inj_succ. fold m.
      assert (Hsucc : (Z.succ m =? 0)%Z = false) by (apply Z.eqb_neq; lia).
      rewrite Hsucc.
      destruct (m =? 0)%Z eqn:Em.
      * apply Z.eqb_eq in Em. rewrite Em.
        destruct (counter self); f_equal; lia.
      * destruct (counter self); f_equal; lia.
    + fold m. reflexivity.
Qed.

End Counting.

(** X10.  What [steps_beyond_done] holds after any number of calls of
    [_step] without a reset, in both classes.  It stays as it was while
    no call returns [done = True].  Otherwise, from an unset count it
    becomes the number of calls that returned [done = True], less one;
    from a count [n] it becomes [n] plus that number.  It is never
    unset by [_step] and never goes down. *)
Theorem steps_beyond_done_counts :
  (forall (self : CartPoleEnv.t) (actions : list Z) (s : State),
      CartPoleEnv.configured self ->
      CartPoleEnv.state self = Some s ->
      Forall (fun a => a = 0 \/ a = 1)%Z actions ->
      exists self' rs,
        run CartPoleEnv._step self actions = Py.Ok (self', rs)
        /\ List.length rs = List.length actions
        /\ CartPoleEnv.steps_beyond_done self'
           = (if (count_done rs =? 0)%Z
              then CartPoleEnv.steps_beyond_done self
              else match CartPoleEnv.steps_beyond_done self with
                   | None => Some (count_done rs - 1)%Z
                   | Some n => Some (n + count_done rs)%Z
                   end))
  /\
  (forall (self : AdaptedCartPoleEnv.t) (actions : list Z) (s : State),
      AdaptedCartPoleEnv.configured self ->
      AdaptedCartPoleEnv.state self = Some s ->
      Forall (fun a => a = 0 \/ a = 1)%Z actions ->
      exists self' rs,
        run AdaptedCartPoleEnv._step self actions = Py.Ok (self', rs)
        /\ List.length rs = List.length actions
        /\ AdaptedCartPoleEnv.steps_beyond_done self'
           = (if (count_done rs =? 0)%Z
              then AdaptedCartPoleEnv.steps_beyond_done self
              else match AdaptedCartPoleEnv.steps_beyond_done self with
                   | None => Some (count_done rs - 1)%Z
                   | Some n => Some (n + count_done rs)%Z
                   end)).
Proof.
  split.
  - intros self actions s Hc Hs Hall.
    apply (run_counter CartPoleEnv.t CartPoleEnv._step
             CartPoleEnv.steps_beyond_done
             (fun e => CartPoleEnv.configured e
                       /\ exists s', CartPoleEnv.state e = Some s'));
      eauto.
    clear. intros self action [Hc [s Hs]] Ha.
    destruct (CartPoleEnv_step_spec self action s Hc Hs Ha)
      as (self' & r & E & _ & Est & Hc' & _ & _ & Hact & Hfirst & Hpost).
    exists self', r. split; [exact E | ]. split; [eauto | ].
    destruct (done r) eqn:Ed.
    + destruct (CartPoleEnv.steps_beyond_done self) as [n |] eqn:En.
      * apply (Hpost eq_refl n eq_refl).
      * apply (Hfirst eq_refl eq_refl).
    + apply (Hact eq_refl).
  - intros self actions s Hc Hs Hall.
    apply (run_counter AdaptedCartPoleEnv.t AdaptedCartPoleEnv._step
             AdaptedCartPoleEnv.steps_beyond_done
             (fun e => AdaptedCartPoleEnv.configured e
                       /\ exists s', AdaptedCartPoleEnv.state e = Some s'));
      eauto.
    clear. intros self action [Hc [s Hs]] Ha.
    destruct (AdaptedCartPoleEnv_step_spec self action s Hc Hs Ha)
      as (self' & r & E & _ & Est & Hc' & _ & _ & Hact & Hfirst & Hpost).
    exists self', r. split; [exact E | ]. split; [eauto | ].
    destruct (done r) eqn:Ed.
    + destruct (AdaptedCartPoleEnv.steps_beyond_done self) as [n |] eqn:En.
      * apply (Hpost eq_refl n eq_refl).
      * apply (Hfirst eq_refl eq_refl).
    + apply (Hact eq_refl).
Qed.

(** Both classes, one call with the cart beyond the right end of the
    track: the count goes from unset to zero. *)
Lemma steps_beyond_done_counts_witness :
  (let self :=
     CartPoleEnv.set_state CartPoleEnv.__init__ (Some (3, 1, 0, 0)) in
   exists self' rs,
     run CartPoleEnv._step self [1%Z] = Py.Ok (self', rs)
     /\ count_done rs = 1%Z
     /\ CartPoleEnv.steps_beyond_done self' = Some 0%Z)
  /\
  (let self :=
     AdaptedCartPoleEnv.set_state AdaptedCartPoleEnv.__init__
       (Some (11, 1, 0, 0)) in
   exists self' rs,
     run AdaptedCartPoleEnv._step self [1%Z] = Py.Ok (self', rs)
     /\ count_done rs = 1%Z
     /\ AdaptedCartPoleEnv.steps_beyond_done self' = Some 0%Z).
Proof.
  destruct steps_beyond_done_counts as [HA HB].
  assert (Ha : (1 = 0 \/ 1 = 1)%Z) by (right; reflexivity).
  assert (Hall : Forall (fun a => a = 0 \/ a = 1)%Z [1%Z])
    by (repeat constructor).
  split.
  - intros self.
    assert (Hc : CartPoleEnv.configured self)
      by (exists (Some (3, 1, 0, 0)), None; reflexivity).
    destruct (HA self [1%Z] (3, 1, 0, 0) Hc eq_refl Hall)
      as (self' & rs & Erun & _ & Hcnt).
    destruct (CartPoleEnv_step_spec self 1 _ Hc eq_refl Ha)
      as (self1 & r1 & E1 & Eobs & _ & _ & Ed & _).
    assert (Hd : done r1 = true).
    { rewrite Ed. apply CartPoleEnv_is_done_right; [exact Hc | ].
      rewrite Eobs.
      cbn [spec_euler st_x st_x_dot self CartPoleEnv.set_state
           CartPoleEnv.__init__ CartPoleEnv.tau].
      lra. }
    cbn [run] in Erun. rewrite E1 in Erun. cbn [Py.bind] in Erun.
    injection Erun as <- <-.
    assert (Hone : count_done [r1] = 1%Z)
      by (unfold count_done; cbn [filter]; rewrite Hd; reflexivity).
    exists self1, [r1].
    split; [cbn [run]; rewrite E1; reflexivity | ]. split; [exact Hone | ].
    rewrite Hcnt, Hone. reflexivity.
  - intros self.
    assert (Hc : AdaptedCartPoleEnv.configured self)
      by (exists (Some (11, 1, 0, 0)), None; reflexivity).
    destruct (HB self [1%Z] (11, 1, 0, 0) Hc eq_refl Hall)
      as (self' & rs & Erun & _ & Hcnt).
    destruct (AdaptedCartPoleEnv_step_leaves_right self 1 _ Hc eq_refl Ha)
      as (self1 & r1 & E1 & _ & Hd).
    { cbn [st_x st_x_dot self AdaptedCartPoleEnv.set_state
           AdaptedCartPoleEnv.__init__ AdaptedCartPoleEnv.time_step].
      lra. }
    cbn [run] in Erun. rewrite E1 in Erun. cbn [Py.bind] in Erun.
    injection Erun as <- <-.
    assert (Hone : count_done [r1] = 1%Z)
      by (unfold count_done; cbn [filter]; rewrite Hd; reflexivity).
    exists self1, [r1].
    split; [cbn [run]; rewrite E1; reflexivity | ]. split; [exact Hone | ].
    rewrite Hcnt, Hone. reflexivity.
Defined.

(** ** Symmetry of [CartPoleEnv] *)

Lemma spec_thetaacc_odd (g pm tm len pml force theta theta_dot : R) :
  spec_thetaacc g pm tm len pml (- force) (- theta) (- theta_dot)
  = - spec_thetaacc g pm tm len pml force theta theta_dot.
Proof.
  unfold spec_thetaacc, spec_temp. rewrite sin_neg, cos_neg.
  replace ((- theta_dot) ^ 2) with (theta_dot ^ 2) by ring.
  unfold Rdiv. ring.
Qed.

Lemma spec_xacc_odd (g pm tm len pml force theta theta_dot : R) :
  spec_xacc g pm tm len pml (- force) (- theta) (- theta_dot)
  = - spec_xacc g pm tm len pml force theta theta_dot.
Proof.
  unfold spec_xacc. rewrite spec_thetaacc_odd.
  unfold spec_temp. rewrite sin_neg, cos_neg.
  replace ((- theta_dot) ^ 2) with (theta_dot ^ 2) by ring.
  unfold Rdiv. ring.
Qed.

Lemma spec_force_opposite (force_mag : R) (action : Z) :
  (action = 0 \/ action = 1)%Z ->
  spec_force force_mag (opposite action) = - spec_force force_mag action.
Proof. intros [-> | ->]; cbn; lra. Qed.

Lemma CartPoleEnv_is_done_mirror (self : CartPoleEnv.t) (x theta : R) :
  CartPoleEnv.is_done self (- x) (- theta) = CartPoleEnv.is_done self x theta.
Proof.
  unfold CartPoleEnv.is_done, Py.lt, Py.gt.
  destruct (Rlt_dec (- x) _), (Rgt_dec (- x) _), (Rlt_dec (- theta) _),
    (Rgt_dec (- theta) _), (Rlt_dec x _), (Rgt_dec x _), (Rlt_dec theta _),
    (Rgt_dec theta _); cbn; try reflexivity; exfalso; lra.
Qed.

(** What the bookkeeping of [CartPoleEnv._step] returns, from the [done]
    flag and the count before the call. *)
Lemma CartPoleEnv_step_bookkeeping (self self' : CartPoleEnv.t)
  (r : StepReturn) :
  (done r = false ->
   reward r = 1 /\ warnings r = []
   /\ CartPoleEnv.steps_beyond_done self'
      = CartPoleEnv.steps_beyond_done self) ->
  (done r = true -> CartPoleEnv.steps_beyond_done self = None ->
   reward r = 1 /\ warnings r = []
   /\ CartPoleEnv.steps_beyond_done self' = Some 0%Z) ->
  (done r = true ->
   forall n, CartPoleEnv.steps_beyond_done self = Some n ->
   reward r = 0
   /\ warnings r = (if (n =? 0)%Z then [step_after_done_warning] else [])
   /\ CartPoleEnv.steps_beyond_done self' = Some (n + 1)%Z) ->
  reward r
  = (if done r
     then match CartPoleEnv.steps_beyond_done self with
          | None => 1 | Some _ => 0 end
     else 1)
  /\ warnings r
     = (if done r
        then match CartPoleEnv.steps_beyond_done self with
             | Some 0%Z => [step_after_done_warning] | _ => [] end
        else [])
  /\ CartPoleEnv.steps_beyond_done self'
     = (if done r
        then match CartPoleEnv.steps_beyond_done self with
             | None => Some 0%Z | Some n => Some (n + 1)%Z end
        else CartPoleEnv.steps_beyond_done self).
Proof.
  intros Hact Hfirst Hpost. destruct (done r).
  - destruct (CartPoleEnv.steps_beyond_done self) as [n |].
    + destruct (Hpost eq_refl n eq_refl) as (Hr & Hw & Hn).
      rewrite Hr, Hw, Hn. destruct n; auto.
    + apply (Hfirst eq_refl eq_refl).
  - apply (Hact eq_refl).
Qed.

(** X11.  [CartPoleEnv._step] is symmetric about the centre of the
    track.  From the mirrored state, with the opposite action, it returns
    the mirrored observation, with the same [done] flag, the same reward,
    the same warnings and the same count of steps beyond done. *)
Theorem CartPoleEnv_step_mirror
  (self : CartPoleEnv.t) (action : Z) (s : State) :
  CartPoleEnv.configured self ->
  CartPoleEnv.state self = Some s ->
  (action = 0 \/ action = 1)%Z ->
  exists self1 r1 self2 r2,
    CartPoleEnv._step self action = Py.Ok (self1, r1)
    /\ CartPoleEnv._step (CartPoleEnv.set_state self (Some (mirror s)))
         (opposite action) = Py.Ok (self2, r2)
    /\ obs r2 = mirror (obs r1)
    /\ done r2 = done r1
    /\ reward r2 = reward r1
    /\ warnings r2 = warnings r1
    /\ CartPoleEnv.steps_beyond_done self2
       = CartPoleEnv.steps_beyond_done self1.
Proof.
  intros Hc Hs Ha.
  assert (Hc2 : CartPoleEnv.configured
                  (CartPoleEnv.set_state self (Some (mirror s)))).
  { unfold_configured Hc. exists (Some (mirror s)), n0. reflexivity. }
  assert (Ha2 : (opposite action = 0 \/ opposite action = 1)%Z)
    by (unfold opposite; lia).
  destruct (CartPoleEnv_step_spec self action s Hc Hs Ha)
    as (self1 & r1 & E1 & Eobs1 & _ & _ & Ed1 & _ & Hact1 & Hfirst1 & Hpost1).
  destruct (CartPoleEnv_step_spec _ (opposite action) (mirror s) Hc2
              eq_refl Ha2)
    as (self2 & r2 & E2 & Eobs2 & _ & _ & Ed2 & _ & Hact2 & Hfirst2 & Hpost2).
  assert (Hobs : obs r2 = mirror (obs r1)).
  { rewrite Eobs2, Eobs1.
    destruct s as [[[x x_dot] theta] theta_dot].
    unfold mirror, spec_euler.
    cbn [st_x st_x_dot st_theta st_theta_dot CartPoleEnv.set_state
         CartPoleEnv.tau CartPoleEnv.gravity CartPoleEnv.masspole
         CartPoleEnv.total_mass CartPoleEnv.length
         CartPoleEnv.polemass_length CartPoleEnv.force_mag].
    rewrite (spec_force_opposite _ _ Ha), spec_xacc_odd, spec_thetaacc_odd.
    tuple4_eq; ring. }
  assert (Hd : done r2 = done r1).
  { rewrite Ed2, Ed1, Hobs.
    destruct (obs r1) as [[[x x_dot] theta] theta_dot].
    unfold mirror. cbn [st_x st_theta].
    apply (CartPoleEnv_is_done_mirror self). }
  destruct (CartPoleEnv_step_bookkeeping self self1 r1 Hact1 Hfirst1 Hpost1)
    as (Hr1 & Hw1 & Hn1).
  destruct (CartPoleEnv_step_bookkeeping _ self2 r2 Hact2 Hfirst2 Hpost2)
    as (Hr2 & Hw2 & Hn2).
  cbn [CartPoleEnv.set_state CartPoleEnv.steps_beyond_done] in Hr2, Hw2, Hn2.
  exists self1, r1, self2, r2.
  split; [exact E1 | ]. split; [exact E2 | ]. split; [exact Hobs | ].
  split; [exact Hd | ].
  rewrite Hr2, Hw2, Hn2, Hr1, Hw1, Hn1, Hd. repeat split.
Qed.

(** A cart right of the centre pushed right, and its mirror image. *)
Lemma CartPoleEnv_step_mirror_witness :
  let self :=
    CartPoleEnv.set_state CartPoleEnv.__init__ (Some (1, 0.5, 0.1, -0.2)) in
  exists self1 r1 self2 r2,
    CartPoleEnv._step self 1 = Py.Ok (self1, r1)
    /\ CartPoleEnv._step
         (CartPoleEnv.set_state CartPoleEnv.__init__
            (Some (-1, -0.5, -0.1, 0.2))) 0
       = Py.Ok (self2, r2)
    /\ obs r2 = mirror (obs r1)
    /\ done r2 = done r1.
Proof.
  intros self.
  destruct (CartPoleEnv_step_mirror self 1 (1, 0.5, 0.1, -0.2))
    as (self1 & r1 & self2 & r2 & E1 & E2 & Hobs & Hd & _).
  - exists (Some (1, 0.5, 0.1, -0.2)), None. reflexivity.
  - reflexivity.
  - right. reflexivity.
  - exists self1, r1, self2, r2. split; [exact E1 | ]. split; [ | auto].
    replace (Some (-1, -0.5, -0.1, 0.2))
      with (Some (mirror (1, 0.5, 0.1, -0.2))); [exact E2 | ].
    f_equal. unfold mirror. cbn [st_x st_x_dot st_theta st_theta_dot].
    tuple4_eq; lra.
Defined.

(** X12.  In [CartPoleEnv._step] the action of a call moves the
    velocities only.  The position, the angle, the [done] flag, the
    reward, the warnings and the count of steps beyond done returned by
    a call are the same for both actions; the push shows in the position
    and the angle one call later. *)
Theorem CartPoleEnv_done_independent_of_action
  (self : CartPoleEnv.t) (s : State) :
  CartPoleEnv.configured self ->
  CartPoleEnv.state self = Some s ->
  exists self0 r0 self1 r1,
    CartPoleEnv._step self 0 = Py.Ok (self0, r0)
    /\ CartPoleEnv._step self 1 = Py.Ok (self1, r1)
    /\ st_x (obs r0) = st_x s + CartPoleEnv.tau self * st_x_dot s
    /\ st_x (obs r1) = st_x (obs r0)
    /\ st_theta (obs r0) = st_theta s + CartPoleEnv.tau self * st_theta_dot s
    /\ st_theta (obs r1) = st_theta (obs r0)
    /\ done r1 = done r0
    /\ reward r1 = reward r0
    /\ warnings r1 = warnings r0
    /\ CartPoleEnv.steps_beyond_done self1
       = CartPoleEnv.steps_beyond_done self0.
Proof.
  intros Hc Hs.
  destruct (CartPoleEnv_step_spec self 0 s Hc Hs (or_introl eq_refl))
    as (self0 & r0 & E0 & Eobs0 & _ & _ & Ed0 & _ & Hact0 & Hfirst0 & Hpost0).
  destruct (CartPoleEnv_step_spec self 1 s Hc Hs (or_intror eq_refl))
    as (self1 & r1 & E1 & Eobs1 & _ & _ & Ed1 & _ & Hact1 & Hfirst1 & Hpost1).
  assert (Hx0 : st_x (obs r0) = st_x s + CartPoleEnv.tau self * st_x_dot s)
    by (rewrite Eobs0; reflexivity).
  assert (Hx1 : st_x (obs r1) = st_x (obs r0))
    by (rewrite Eobs0, Eobs1; reflexivity).
  assert (Ht0 : st_theta (obs r0)
                = st_theta s + CartPoleEnv.tau self * st_theta_dot s)
    by (rewrite Eobs0; reflexivity).
  assert (Ht1 : st_theta (obs r1) = st_theta (obs r0))
    by (rewrite Eobs0, Eobs1; reflexivity).
  assert (Hd : done r1 = done r0) by (rewrite Ed1, Ed0, Hx1, Ht1; reflexivity).
  destruct (CartPoleEnv_step_bookkeeping self self0 r0 Hact0 Hfirst0 Hpost0)
    as (Hr0 & Hw0 & Hn0).
  destruct (CartPoleEnv_step_bookkeeping self self1 r1 Hact1 Hfirst1 Hpost1)
    as (Hr1 & Hw1 & Hn1).
  exists self0, r0, self1, r1.
  repeat (split; [assumption | ]).
  rewrite Hr1, Hw1, Hn1, Hr0, Hw0, Hn0, Hd. repeat split.
Qed.

(** A cart about to leave the track leaves it under either action. *)
Lemma CartPoleEnv_done_independent_of_action_witness :
  let self :=
    CartPoleEnv.set_state CartPoleEnv.__init__ (Some (2.39, 1, 0, 0)) in
  exists self0 r0 self1 r1,
    CartPoleEnv._step self 0 = Py.Ok (self0, r0)
    /\ CartPoleEnv._step self 1 = Py.Ok (self1, r1)
    /\ done r0 = true /\ done r1 = true.
Proof.
  intros self.
  assert (Hc : CartPoleEnv.configured self)
    by (exists (Some (2.39, 1, 0, 0)), None; reflexivity).
  destruct (CartPoleEnv_done_independent_of_action self (2.39, 1, 0, 0)
              Hc eq_refl)
    as (self0 & r0 & self1 & r1 & E0 & E1 & Hx0 & _ & _ & _ & Hd & _).
  destruct (CartPoleEnv_step_spec self 0 _ Hc eq_refl (or_introl eq_refl))
    as (self2 & r2 & E2 & _ & _ & _ & Ed & _).
  rewrite E0 in E2. injection E2 as <- <-.
  assert (Hd0 : done r0 = true).
  { rewrite Ed. apply CartPoleEnv_is_done_right; [exact Hc | ].
    rewrite Hx0.
    cbn [st_x st_x_dot self CartPoleEnv.set_state CartPoleEnv.__init__
         CartPoleEnv.tau].
    lra. }
  exists self0, r0, self1, r1. rewrite Hd. auto.
Defined.

(** ** How early an episode can end *)

(** With a force of at most 10 and an angular velocity of at most 3.2 in
    magnitude, the accelerations of [CartPoleEnv] stay within 31.5 and
    11.5. *)
Lemma CartPoleEnv_accelerations_bounded (self : CartPoleEnv.t)
  (force theta theta_dot : R) :
  CartPoleEnv.configured self ->
  -10 <= force <= 10 -> -3.2 <= theta_dot <= 3.2 ->
  -31.5 <= spec_thetaacc (CartPoleEnv.gravity self)
             (CartPoleEnv.masspole self) (CartPoleEnv.total_mass self)
             (CartPoleEnv.length self) (CartPoleEnv.polemass_length self)
             force theta theta_dot <= 31.5
  /\ -11.5 <= spec_xacc (CartPoleEnv.gravity self)
                (CartPoleEnv.masspole self) (CartPoleEnv.total_mass self)
                (CartPoleEnv.length self) (CartPoleEnv.polemass_length self)
                force theta theta_dot <= 11.5.
Proof.
  intros Hc Hf Hv. unfold_configured Hc.
  unfold spec_xacc, spec_thetaacc, spec_temp.
  cbn [CartPoleEnv.set_steps_beyond_done CartPoleEnv.set_state
       CartPoleEnv.__init__ CartPoleEnv.gravity CartPoleEnv.masspole
       CartPoleEnv.total_mass CartPoleEnv.length CartPoleEnv.polemass_length].
  pose proof (SIN_bound theta) as Hsin. pose proof (COS_bound theta) as Hcos.
  set (sn := sin theta) in *. set (cs := cos theta) in *.
  assert (Hw : 0 <= theta_dot ^ 2 <= 10.24) by nra.
  set (w := theta_dot ^ 2) in *.
  assert (Hws : -10.24 <= w * sn <= 10.24) by nra.
  set (temp := (force + 0.1 * 0.5 * w * sn) / (0.1 + 1.0)).
  assert (Ht : -9.6 <= temp <= 9.6) by (unfold temp; lra).
  assert (Hct : -9.6 <= cs * temp <= 9.6) by nra.
  assert (Hcc : 0 <= cs ^ 2 <= 1) by nra.
  set (c2 := cs ^ 2) in *.
  set (den := 0.5 * (4 / 3 - 0.1 * c2 / (0.1 + 1.0))).
  assert (Hden : 0.62 <= den) by (unfold den; lra).
  set (thetaacc := (9.8 * sn - cs * temp) / den).
  assert (Hth : -31.5 <= thetaacc <= 31.5).
  { assert (Hb : Ropp 31.5 <= thetaacc <= 31.5)
      by (unfold thetaacc; apply div_between; lra).
    lra. }
  split; [exact Hth | ].
  assert (Htc : -31.5 <= thetaacc * cs <= 31.5) by nra.
  lra.
Qed.

(** One call of [CartPoleEnv._step] from a state that [k] calls could
    have reached from a reset, with [k] at most 4: the episode goes on. *)
Lemma near_reset_step (self : CartPoleEnv.t) (action : Z) (k : R) (s : State) :
  CartPoleEnv.configured self ->
  CartPoleEnv.state self = Some s ->
  (action = 0 \/ action = 1)%Z ->
  0 <= k <= 4 -> near_reset k s ->
  exists self' r,
    CartPoleEnv._step self action = Py.Ok (self', r)
    /\ CartPoleEnv.configured self'
    /\ CartPoleEnv.state self' = Some (obs r)
    /\ near_reset (k + 1) (obs r)
    /\ done r = false /\ reward r = 1 /\ warnings r = []
    /\ CartPoleEnv.steps_beyond_done self'
       = CartPoleEnv.steps_beyond_done self.
Proof.
  intros Hc Hs Ha Hk (Hx & Hxd & Hth & Hthd).
  apply Rabs_le_iff in Hx, Hxd, Hth, Hthd.
  pose proof PI2_3_2 as Hpi.
  assert (Hf : -10 <= spec_force (CartPoleEnv.force_mag self) action <= 10).
  { unfold_configured Hc. destruct Ha as [-> | ->]; cbn; lra. }
  destruct (CartPoleEnv_accelerations_bounded self _ (st_theta s)
              (st_theta_dot s) Hc Hf ltac:(nra)) as [Bth Bx].
  destruct (CartPoleEnv_step_spec self action s Hc Hs Ha)
    as (self' & r & E & Eobs & Est & Hc' & Ed & _ & Hact & _).
  set (xacc := spec_xacc _ _ _ _ _ _ _ _) in *.
  set (thetaacc := spec_thetaacc _ _ _ _ _ _ _ _) in *.
  assert (Htau : CartPoleEnv.tau self = 0.02)
    by (unfold_configured Hc; reflexivity).
  assert (Hnear : near_reset (k + 1) (obs r)).
  { rewrite Eobs, Htau. unfold near_reset, spec_euler.
    cbn [st_x st_x_dot st_theta st_theta_dot].
    repeat split; apply Rabs_le_iff; nra. }
  assert (Hd : done r = false).
  { rewrite Ed. destruct Hnear as (Nx & _ & Nth & _).
    apply Rabs_le_iff in Nx, Nth.
    unfold CartPoleEnv.is_done. unfold_configured Hc.
    cbn [CartPoleEnv.set_steps_beyond_done CartPoleEnv.set_state
         CartPoleEnv.__init__ CartPoleEnv.x_threshold
         CartPoleEnv.theta_threshold_radians].
    repeat (apply orb_false_intro);
      [apply lt_false | apply gt_false | apply lt_false | apply gt_false];
      nra. }
  destruct (Hact Hd) as (Hr & Hw & Hn).
  exists self', r. repeat (split; [assumption | ]). exact Hn.
Qed.

Lemma near_reset_run (actions : list Z) :
  forall (self : CartPoleEnv.t) (k : R) (s : State),
    CartPoleEnv.configured self ->
    CartPoleEnv.state self = Some s ->
    Forall (fun a => a = 0 \/ a = 1)%Z actions ->
    0 <= k -> k + INR (List.length actions) <= 5 -> near_reset k s ->
    exists self' rs,
      run CartPoleEnv._step self actions = Py.Ok (self', rs)
      /\ List.length rs = List.length actions
      /\ Forall (fun r => done r = false /\ reward r = 1 /\ warnings r = []) rs
      /\ CartPoleEnv.steps_beyond_done self'
         = CartPoleEnv.steps_beyond_done self.
Proof.
  induction actions as [| a rest IH]; intros self k s Hc Hs Hall Hk Hlen Hnear.
  - exists self, []. repeat split. constructor.
  - inversion Hall as [| a' rest' Ha Hrest]; subst.
    cbn [List.length] in Hlen. rewrite S_INR in Hlen.
    pose proof (pos_INR (List.length rest)) as Hpos.
    destruct (near_reset_step self a k s Hc Hs Ha ltac:(lra) Hnear)
      as (self1 & r1 & E1 & Hc1 & Hs1 & Hn1 & Hd1 & Hr1 & Hw1 & Hsbd1).
    destruct (IH self1 (k + 1) (obs r1) Hc1 Hs1 Hrest ltac:(lra) ltac:(lra)
                Hn1)
      as (self' & rs & Erun & Hl & Hrs & Hsbd).
    exists self', (r1 :: rs). split.
    { cbn [run]. rewrite E1. cbn [Py.bind]. rewrite Erun. reflexivity. }
    split; [cbn [List.length]; congruence | ].
    split; [constructor; auto | congruence].
Qed.

(** X13.  An episode of [CartPoleEnv] cannot end within its first five
    calls of [_step].  After a [_reset] that draws every component of the
    state within 0.05 of zero, each of the first five calls returns
    [done = False] and the reward 1.0 and logs nothing, whatever the
    actions, and the count of steps beyond done stays unset. *)
Theorem CartPoleEnv_first_five_steps
  (self : CartPoleEnv.t) (sample : State) (actions : list Z) :
  CartPoleEnv.configured self ->
  Rabs (st_x sample) <= 0.05 -> Rabs (st_x_dot sample) <= 0.05 ->
  Rabs (st_theta sample) <= 0.05 -> Rabs (st_theta_dot sample) <= 0.05 ->
  Forall (fun a => a = 0 \/ a = 1)%Z actions ->
  (List.length actions <= 5)%nat ->
  exists self' rs,
    run CartPoleEnv._step (fst (CartPoleEnv._reset self sample)) actions
    = Py.Ok (self', rs)
    /\ List.length rs = List.length actions
    /\ Forall (fun r => done r = false /\ reward r = 1 /\ warnings r = []) rs
    /\ CartPoleEnv.steps_beyond_done self' = None.
Proof.
  intros Hc Hx Hxd Hth Hthd Hall Hlen.
  assert (Hc1 : CartPoleEnv.configured (fst (CartPoleEnv._reset self sample)))
    by (unfold_configured Hc; exists (Some sample), None; reflexivity).
  assert (Hnear : near_reset 0 sample)
    by (unfold near_reset; repeat split; lra).
  assert (Hl : 0 + INR (List.length actions) <= 5).
  { apply le_INR in Hlen. cbn [INR] in Hlen. lra. }
  destruct (near_reset_run actions _ 0 sample Hc1 eq_refl Hall ltac:(lra)
              Hl Hnear) as (self' & rs & Erun & Hlr & Hrs & Hsbd).
  exists self', rs. auto.
Qed.

(** Five pushes to the right from the corner of the sampling box. *)
Lemma CartPoleEnv_first_five_steps_witness :
  exists self' rs,
    run CartPoleEnv._step
      (fst (CartPoleEnv._reset CartPoleEnv.__init__ (0.05, 0.05, 0.05, 0.05)))
      [1; 1; 1; 1; 1]%Z
    = Py.Ok (self', rs)
    /\ List.length rs = 5%nat
    /\ Forall (fun r => done r = false /\ reward r = 1 /\ warnings r = []) rs.
Proof.
  destruct (CartPoleEnv_first_five_steps CartPoleEnv.__init__
              (0.05, 0.05, 0.05, 0.05) [1; 1; 1; 1; 1]%Z)
    as (self' & rs & Erun & Hl & Hrs & _).
  - exists None, None. reflexivity.
  - cbn [st_x]. rewrite Rabs_right; lra.
  - cbn [st_x_dot]. rewrite Rabs_right; lra.
  - cbn [st_theta]. rewrite Rabs_right; lra.
  - cbn [st_theta_dot]. rewrite Rabs_right; lra.
  - repeat (apply Forall_cons; [right; reflexivity | ]). apply Forall_nil.
  - cbn [List.length]. lia.
  - exists self', rs. auto.
Defined.

(** X14.  The call of [AdaptedCartPoleEnv._step] that follows a reset
    never ends the episode.  From a cart at rest at the centre with the
    pole at rest within 0.15 of upright, as [_reset] leaves it, all ten
    sub-steps run and the call returns [done = False] with a reward of
    at least [0.2 PI - 0.465], which is positive, for either action. *)
Theorem AdaptedCartPoleEnv_calm_start_step
  (self : AdaptedCartPoleEnv.t) (action : Z) (theta : R) :
  AdaptedCartPoleEnv.configured self ->
  AdaptedCartPoleEnv.state self = Some (0, 0, theta, 0) ->
  Rabs theta <= 0.15 ->
  (action = 0 \/ action = 1)%Z ->
  exists self' r,
    AdaptedCartPoleEnv._step self action = Py.Ok (self', r)
    /\ done r = false
    /\ 0.2 * PI - 0.465 <= reward r
    /\ 0 < reward r
    /\ Rabs (st_x (obs r)) <= 0.125.
Proof.
  intros Hc Hs Hth Ha.
  destruct (AdaptedCartPoleEnv_step_spec self action _ Hc Hs Ha)
    as (self' & r & E & Eloop & _ & _ & Ed & _ & Hact & _).
  assert (Hf : -10 <= spec_force (AdaptedCartPoleEnv.force_mag self) action
               <= 10).
  { unfold_configured Hc. destruct Ha as [-> | ->]; cbn; lra. }
  assert (H0 : near_start 0 (0, 0, theta, 0)).
  { unfold near_start. cbn [st_x st_x_dot st_theta st_theta_dot].
    rewrite Rabs_R0. lra. }
  destruct (near_start_sub_steps self _ 10 Hc Hf 0 _ ltac:(lra)
              ltac:(cbn; lra) H0) as (s' & E' & Hs').
  rewrite E' in Eloop. injection Eloop as Ho.
  replace (0 + INR 10) with 10 in Hs' by (cbn; lra).
  rewrite Ho in Hs'.
  assert (Hd : done r = false)
    by (rewrite Ed; apply (near_start_not_done self 10);
        [exact Hc | lra | exact Hs']).
  destruct (Hact Hd) as (Hr & _).
  destruct Hs' as (Nx & _ & Nth & _).
  pose proof PI2_3_2 as Hpi.
  exists self', r. split; [exact E | ]. split; [exact Hd | ].
  rewrite Hr. repeat split; lra.
Qed.

(** The start state of [_reset], pushed to the left. *)
Lemma AdaptedCartPoleEnv_calm_start_step_witness :
  let self := fst (AdaptedCartPoleEnv._reset AdaptedCartPoleEnv.__init__) in
  exists self' r,
    AdaptedCartPoleEnv._step self 0 = Py.Ok (self', r)
    /\ done r = false
    /\ 0 < reward r.
Proof.
  intros self.
  destruct (AdaptedCartPoleEnv_calm_start_step self 0 (-0.15))
    as (self' & r & E & Hd & _ & Hr & _).
  - exists (Some (0, 0, -0.15, 0)), None. reflexivity.
  - reflexivity.
  - rewrite Rabs_left; lra.
  - left. reflexivity.
  - exists self', r. auto.
Defined.

(** ** The [done] flag and the observation *)

Lemma Rabs_gt_iff (a b : R) : Rabs a > b <-> a < - b \/ a > b.
Proof.
  unfold Rabs. destruct (Rcase_abs a); split; intros H; lra.
Qed.

(** X15.  The [done] flag says whether the observation returned is off
    limits.  [CartPoleEnv._step] returns [done = True] exactly when the
    position is beyond [x_threshold] or the angle beyond
    [theta_threshold_radians] in magnitude; a value exactly on a
    threshold does not end the episode.  [AdaptedCartPoleEnv._step] tests
    the position in the same way and the angle against [0.2 PI], which
    is three times its [theta_threshold_radians]. *)
Theorem done_iff_off_limits :
  (forall (self : CartPoleEnv.t) (action : Z) (s : State),
      CartPoleEnv.configured self ->
      CartPoleEnv.state self = Some s ->
      (action = 0 \/ action = 1)%Z ->
      exists self' r,
        CartPoleEnv._step self action = Py.Ok (self', r)
        /\ (done r = true
            <-> Rabs (st_x (obs r)) > CartPoleEnv.x_threshold self
                \/ Rabs (st_theta (obs r))
                   > CartPoleEnv.theta_threshold_radians self))
  /\
  (forall (self : AdaptedCartPoleEnv.t) (action : Z) (s : State),
      AdaptedCartPoleEnv.configured self ->
      AdaptedCartPoleEnv.state self = Some s ->
      (action = 0 \/ action = 1)%Z ->
      exists self' r,
        AdaptedCartPoleEnv._step self action = Py.Ok (self', r)
        /\ (done r = true
            <-> Rabs (st_x (obs r)) > AdaptedCartPoleEnv.x_threshold self
                \/ Rabs (st_theta (obs r))
                   > 3 * AdaptedCartPoleEnv.theta_threshold_radians self)).
Proof.
  split.
  - intros self action s Hc Hs Ha.
    destruct (CartPoleEnv_step_spec self action s Hc Hs Ha)
      as (self' & r & E & _ & _ & _ & Ed & _).
    exists self', r. split; [exact E | ].
    rewrite Ed. unfold CartPoleEnv.is_done.
    rewrite !orb_true_iff, !lt_true, !gt_true, !Rabs_gt_iff. tauto.
  - intros self action s Hc Hs Ha.
    destruct (AdaptedCartPoleEnv_step_spec self action s Hc Hs Ha)
      as (self' & r & E & _ & _ & _ & Ed & _).
    exists self', r. split; [exact E | ].
    rewrite Ed. unfold AdaptedCartPoleEnv.is_done, Py.fabs.
    rewrite orb_true_iff, !gt_true.
    assert (Hlim : 3 * AdaptedCartPoleEnv.theta_threshold_radians self
                   = 0.2 * PI).
    { unfold_configured Hc.
      cbn [AdaptedCartPoleEnv.set_steps_beyond_done
           AdaptedCartPoleEnv.set_state AdaptedCartPoleEnv.__init__
           AdaptedCartPoleEnv.theta_threshold_radians].
      lra. }
    rewrite Hlim. tauto.
Qed.

(** A cart exactly on the right threshold of [CartPoleEnv], at rest, is
    not done; in [AdaptedCartPoleEnv] a cart beyond the threshold is. *)
Lemma done_iff_off_limits_witness :
  (exists self' r,
      CartPoleEnv._step
        (CartPoleEnv.set_state CartPoleEnv.__init__ (Some (2.4, 0, 0, 0))) 1
      = Py.Ok (self', r)
      /\ done r = false)
  /\
  (exists self' r,
      AdaptedCartPoleEnv._step
        (AdaptedCartPoleEnv.set_state AdaptedCartPoleEnv.__init__
           (Some (11, 1, 0, 0))) 1
      = Py.Ok (self', r)
      /\ done r = true).
Proof.
  destruct done_iff_off_limits as [HA HB].
  assert (Ha : (1 = 0 \/ 1 = 1)%Z) by (right; reflexivity).
  pose proof PI_RGT_0 as Hpi.
  split.
  - set (self := CartPoleEnv.set_state CartPoleEnv.__init__
                   (Some (2.4, 0, 0, 0))).
    assert (Hc : CartPoleEnv.configured self)
      by (exists (Some (2.4, 0, 0, 0)), None; reflexivity).
    destruct (HA self 1%Z (2.4, 0, 0, 0) Hc eq_refl Ha)
      as (self' & r & E & Hiff).
    destruct (CartPoleEnv_step_spec self 1 _ Hc eq_refl Ha)
      as (self2 & r2 & E2 & Eobs & _).
    rewrite E in E2. injection E2 as <- <-.
    exists self', r. split; [exact E | ].
    destruct (done r) eqn:Ed; [ | reflexivity].
    exfalso. destruct (proj1 Hiff eq_refl) as [Hx | Hth].
    + rewrite Eobs in Hx.
      cbn [spec_euler st_x st_x_dot self CartPoleEnv.set_state
           CartPoleEnv.__init__ CartPoleEnv.tau CartPoleEnv.x_threshold]
        in Hx.
      rewrite Rabs_right in Hx; lra.
    + rewrite Eobs in Hth.
      cbn [spec_euler st_theta st_theta_dot self CartPoleEnv.set_state
           CartPoleEnv.__init__ CartPoleEnv.tau
           CartPoleEnv.theta_threshold_radians] in Hth.
      replace (0 + 0.02 * 0) with 0 in Hth by lra.
      rewrite Rabs_R0 in Hth. lra.
  - set (self := AdaptedCartPoleEnv.set_state AdaptedCartPoleEnv.__init__
                   (Some (11, 1, 0, 0))).
    assert (Hc : AdaptedCartPoleEnv.configured self)
      by (exists (Some (11, 1, 0, 0)), None; reflexivity).
    destruct (HB self 1%Z (11, 1, 0, 0) Hc eq_refl Ha)
      as (self' & r & E & Hiff).
    destruct (AdaptedCartPoleEnv_step_leaves_right self 1 _ Hc eq_refl Ha)
      as (self2 & r2 & E2 & _ & Hd).
    { cbn [st_x st_x_dot self AdaptedCartPoleEnv.set_state
           AdaptedCartPoleEnv.__init__ AdaptedCartPoleEnv.time_step].
      lra. }
    rewrite E in E2. injection E2 as <- <-.
    exists self', r. auto.
Defined.

(** ** Where [_render] draws the cart *)

(** X16.  The placement computed by [_render] in both classes, for a
    positive [x_threshold].  The cart is drawn at height 100 and at the
    horizontal position [300 + 300 * x / x_threshold]: the centre of the
    track is the middle of the 600 wide screen, and the cart is on the
    screen exactly when it is on the track.  The pole is turned by
    [- theta].  Without a state, or when closing, nothing is placed; with
    [x_threshold] at zero the scale cannot be computed and the call
    raises [ZeroDivisionError], state or no state. *)
Theorem render_places_cart :
  (forall (x_threshold : R) (s : State),
      0 < x_threshold ->
      exists cartx,
        render_transforms x_threshold (Some s) false
        = Py.Ok (Some (cartx, 100, - st_theta s))
        /\ cartx = 300 + 300 * (st_x s / x_threshold)
        /\ (0 <= cartx <= 600 <-> Rabs (st_x s) <= x_threshold))
  /\ (forall x_threshold : R,
         x_threshold <> 0 ->
         render_transforms x_threshold None false = Py.Ok None)
  /\ (forall (x_threshold : R) (state : option State),
         render_transforms x_threshold state true = Py.Ok None)
  /\ (forall state : option State,
         render_transforms 0 state false = Py.Raise Py.ZeroDivisionError).
Proof.
  split; [ | split; [ | split]].
  - intros x_threshold s Hpos. unfold render_transforms.
    rewrite truediv_ok by lra. cbn [Py.bind].
    eexists. split; [reflexivity | ].
    assert (Hinv : 0 < / x_threshold) by (apply Rinv_0_lt_compat; exact Hpos).
    assert (Hq : st_x s * (600 / (x_threshold * 2)) + 600 / 2.0
                 = 300 + 300 * (st_x s / x_threshold))
      by (unfold Rdiv; rewrite Rinv_mult; lra).
    split; [exact Hq | ]. rewrite Hq, Rabs_le_iff.
    assert (Hx : st_x s = st_x s / x_threshold * x_threshold)
      by (field; lra).
    set (q := st_x s / x_threshold) in *.
    split; intros H; nra.
  - intros x_threshold Hnz. unfold render_transforms.
    rewrite truediv_ok by lra. reflexivity.
  - intros x_threshold state. reflexivity.
  - intros state. unfold render_transforms.
    replace (0 * 2) with 0 by lra. rewrite truediv_zero. reflexivity.
Qed.

(** Both classes as configured: a cart on the right threshold is drawn
    on the right edge of the screen. *)
Lemma render_places_cart_witness :
  CartPoleEnv_render_transforms
    (CartPoleEnv.set_state CartPoleEnv.__init__ (Some (2.4, 0, 0.1, 0)))
    false
  = Py.Ok (Some (600, 100, - 0.1))
  /\ AdaptedCartPoleEnv_render_transforms
       (AdaptedCartPoleEnv.set_state AdaptedCartPoleEnv.__init__
          (Some (10, 0, 0.1, 0)))
       false
     = Py.Ok (Some (600, 100, - 0.1)).
Proof.
  destruct render_places_cart as (Hplace & _).
  split.
  - change (CartPoleEnv_render_transforms
              (CartPoleEnv.set_state CartPoleEnv.__init__
                 (Some (2.4, 0, 0.1, 0))) false)
      with (render_transforms 2.4 (Some (2.4, 0, 0.1, 0)) false).
    destruct (Hplace 2.4 (2.4, 0, 0.1, 0) ltac:(lra)) as (cartx & E & Hc & _).
    etransitivity; [exact E | ]. cbn [st_x st_theta] in *.
    assert (H600 : cartx = 600) by lra. rewrite H600.
    do 3 f_equal. lra.
  - change (AdaptedCartPoleEnv_render_transforms
              (AdaptedCartPoleEnv.set_state AdaptedCartPoleEnv.__init__
                 (Some (10, 0, 0.1, 0))) false)
      with (render_transforms 10 (Some (10, 0, 0.1, 0)) false).
    destruct (Hplace 10 (10, 0, 0.1, 0) ltac:(lra)) as (cartx & E & Hc & _).
    etransitivity; [exact E | ]. cbn [st_x st_theta] in *.
    assert (H600 : cartx = 600) by lra. rewrite H600.
    do 3 f_equal. lra.
Defined.
